(** * SKGC: the two-role extraction and evaluation pipeline of SKGC.py

    A shallow embedding of [SKGC.py]: the Python string operations the
    pipeline parses model answers with, the functions that read the
    publications from the terminal or a JSON file, the per-publication
    metric computation, the conversation history ([messages_history]) that
    the agent calls mutate, the extraction and evaluation pipelines, the
    report of [print_eval_details] with its corpus-level aggregation, the
    saving of the results, and [main].

    Conventions of the embedding.
    - A Python [str] is a Rocq [string], one [ascii] per character, so the
      model covers texts whose code points are below 256.
    - Python floats are modelled by exact rationals ([Q], compared with
      [==]) plus a distinguished [NaN]; rounding and overflow of IEEE
      doubles are outside the model.
    - Mutable objects ([messages_history], the publication dictionary,
      standard output) are components of an explicit state that every
      operation threads; an exception leaves the state as it was when the
      exception was raised.
    - The remote chat-completion endpoint, the process environment, the
      YAML prompt files, the JSON files that can be read and the outcome of
      opening a file for writing are parameters of the development. *)

From Stdlib Require Import String Ascii List ZArith QArith Lia Lqa Bool Arith.
From Stdlib Require Import DecimalString DecimalNat DecimalFacts.
Import ListNotations.

Open Scope string_scope.

(** ** Python string operations *)

Module PyStr.

(** [str.isspace] on the code points 0..255. *)
Definition isspace (c : ascii) : bool :=
  let n := nat_of_ascii c in
  (((9 <=? n) && (n <=? 13)) || ((28 <=? n) && (n <=? 32))
   || (n =? 133) || (n =? 160))%nat.

(** The white space [int(str)] skips around a literal: for ASCII text the
    C-locale set 9..13 and 32; 133 and 160 are accepted as well. *)
Definition int_isspace (c : ascii) : bool :=
  let n := nat_of_ascii c in
  (((9 <=? n) && (n <=? 13)) || (n =? 32) || (n =? 133) || (n =? 160))%nat.

Fixpoint lstrip_with (p : ascii -> bool) (s : string) : string :=
  match s with
  | EmptyString => EmptyString
  | String c s' => if p c then lstrip_with p s' else s
  end.

Fixpoint rstrip_with (p : ascii -> bool) (s : string) : string :=
  match s with
  | EmptyString => EmptyString
  | String c s' =>
      match rstrip_with p s' with
      | EmptyString => if p c then EmptyString else String c EmptyString
      | r => String c r
      end
  end.

Definition strip_with (p : ascii -> bool) (s : string) : string :=
  rstrip_with p (lstrip_with p s).

(** [s.strip()] *)
Definition strip (s : string) : string := strip_with isspace s.

(** [s.split(sep)] for a non-empty separator: the pieces between the
    non-overlapping occurrences of [sep], scanned from the left.  [skip]
    counts the characters of a matched separator still to be dropped and
    [cur] is the piece being read.  (Python raises [ValueError] on an empty
    separator; every call site passes a non-empty literal.) *)
Fixpoint split_from (sep s : string) (skip : nat) (cur : string) : list string :=
  match s with
  | EmptyString => [cur]
  | String c s' =>
      match skip with
      | S k => split_from sep s' k cur
      | O =>
          if prefix sep s
          then cur :: split_from sep s' (String.length sep - 1) EmptyString
          else split_from sep s' 0%nat (cur ++ String c EmptyString)
      end
  end.

Definition split (sep s : string) : list string := split_from sep s 0%nat EmptyString.

(** [sep.join(l)] *)
Definition join (sep : string) (l : list string) : string := String.concat sep l.

(** [s.replace(old, new)] for a non-empty [old]: every non-overlapping
    occurrence, from the left. *)
Definition replace (old new s : string) : string := join new (split old s).

(** [sep in s] *)
Fixpoint contains (sep s : string) : bool :=
  prefix sep s ||
  match s with
  | EmptyString => false
  | String _ s' => contains sep s'
  end.

(** Number of occurrences of the character [c] in [s]. *)
Fixpoint count_char (c : ascii) (s : string) : nat :=
  match s with
  | EmptyString => 0%nat
  | String d s' => ((if Ascii.eqb c d then 1 else 0) + count_char c s')%nat
  end.

(** *** [int(str)] *)

Definition digit_of (c : ascii) : option Z :=
  let n := nat_of_ascii c in
  if ((48 <=? n) && (n <=? 57))%nat then Some (Z.of_nat (n - 48)) else None.

(** Decimal digits with single underscores allowed between digits.
    [prev] tells whether the previous character was a digit; the result
    carries the value and the number of digit characters read. *)
Fixpoint int_digits (s : string) (acc : Z) (ndig : nat) (prev : bool)
  : option (Z * nat) :=
  match s with
  | EmptyString => if prev then Some (acc, ndig) else None
  | String c s' =>
      match digit_of c with
      | Some d => int_digits s' (10 * acc + d)%Z (S ndig) true
      | None =>
          if Ascii.eqb c "_" && prev then int_digits s' acc ndig false
          else None
      end
  end.

(** [int(s)] in base 10: [None] stands for [ValueError], the only exception
    [int] raises on a [str].  [max_str_digits] is the interpreter's
    [sys.get_int_max_str_digits()] (4300 by default, 0 for no limit). *)
Definition int_of_str (max_str_digits : nat) (s : string) : option Z :=
  let t := strip_with int_isspace s in
  let '(neg, body) :=
    match t with
    | String "+" r => (false, r)
    | String "-" r => (true, r)
    | _ => (false, t)
    end in
  match int_digits body 0%Z 0%nat false with
  | Some (v, n) =>
      if (negb (max_str_digits =? 0) && (max_str_digits <? n))%nat then None
      else Some (if neg then (- v)%Z else v)
  | None => None
  end.

End PyStr.

Import PyStr.

(** *** Decimal numerals *)

(** The characters of a decimal numeral. *)
Fixpoint all_digits (s : string) : bool :=
  match s with
  | EmptyString => true
  | String c s' =>
      match digit_of c with
      | Some _ => all_digits s'
      | None => false
      end
  end.

(** [str(n)] for a non-negative integer [n]: its decimal numeral. *)
Definition str_of_nat (n : nat) : string :=
  NilEmpty.string_of_uint (Nat.to_uint n).

(** ** Numbers *)

(** A Python float: a rational, or [nan]. *)
Inductive py_float : Type :=
| Fin (q : Q)
| NaN.

(** [a == b] on floats; [nan] equals nothing. *)
Definition float_eq (a b : py_float) : Prop :=
  match a, b with
  | Fin x, Fin y => x == y
  | _, _ => False
  end.

(** [x >= 0] *)
Definition ge0 (x : py_float) : bool :=
  match x with
  | Fin q => Qle_bool 0 q
  | NaN => false
  end.

(** [x < 0] *)
Definition lt0 (x : py_float) : bool :=
  match x with
  | Fin q => negb (Qle_bool 0 q)
  | NaN => false
  end.

(** [x == 0] *)
Definition eq0 (x : py_float) : bool :=
  match x with
  | Fin q => Qeq_bool q 0
  | NaN => false
  end.

(** [a > b] *)
Definition float_gt (a b : py_float) : bool :=
  match a, b with
  | Fin x, Fin y => negb (Qle_bool x y)
  | _, _ => false
  end.

Definition is_nan (x : py_float) : bool :=
  match x with
  | NaN => true
  | Fin _ => false
  end.

Definition float_add (a b : py_float) : py_float :=
  match a, b with
  | Fin x, Fin y => Fin (x + y)
  | _, _ => NaN
  end.

(** [float(i) / n] for an integer [i] and a length [n]. *)
Definition ratio (i : Z) (n : nat) : Q := inject_Z i / inject_Z (Z.of_nat n).

(** The integers that [float] converts; on the others it raises
    [OverflowError], a case the quotient above does not have: what is
    stated of its value is stated for integers in this range, or for runs
    that complete. *)
Definition float_accepts (i : Z) : bool := (Z.abs i <? 2 ^ 1024 - 2 ^ 970)%Z.

(** Sum of the reciprocals of the finite entries. *)
Fixpoint sum_inv (a : list py_float) : Q :=
  match a with
  | [] => 0
  | Fin q :: r => / q + sum_inv r
  | NaN :: r => sum_inv r
  end.

(** ** Exceptions and results *)

Inductive exn : Type :=
| ValueError
| IndexError
| KeyError.

Inductive Result (A : Type) : Type :=
| Ok (a : A)
| Raise (e : exn).

Arguments Ok {A} a.
Arguments Raise {A} e.

(** [scipy.stats.hmean] on a list of floats.  Negative entries are refused:
    depending on the SciPy release either [ValueError] is raised
    ([raises_on_negative = true]) or the result is [nan] with a
    RuntimeWarning.  A zero entry makes the mean 0 (the reciprocal is
    infinite); the empty list gives [nan].  Entries that are [nan], which
    the program never passes, are taken to propagate. *)
Definition hmean (raises_on_negative : bool) (a : list py_float) : Result py_float :=
  if existsb is_nan a then Ok NaN
  else if existsb lt0 a then
    (if raises_on_negative then Raise ValueError else Ok NaN)
  else
    match a with
    | [] => Ok NaN
    | _ =>
        if existsb eq0 a then Ok (Fin 0)
        else Ok (Fin (inject_Z (Z.of_nat (List.length a)) / sum_inv a))
    end.

(** ** Data model *)

Inductive Role : Type :=
| system
| user
| assistant.

(** One message of the chat-completion format: [{"role": r, "content": c}]. *)
Record Turn : Type := mkTurn { role : Role; content : string }.

Definition is_role (r : Role) (t : Turn) : bool :=
  match r, role t with
  | system, system | user, user | assistant, assistant => true
  | _, _ => false
  end.

(** The publication dictionary: the five input fields, and the fields the
    pipelines add ([None] while the key is absent). *)
Record Publication : Type := mkPublication {
  title : string;
  keywords : list string;
  abstract : string;
  csoc_result : list string;
  gold_standard : list string;
  skgc_topics : option (list string);
  skgc_topics_ordered : option (list string);
  gold_standard_ordered1 : option (list string);
  csoc_topics_ordered : option (list string);
  gold_standard_ordered2 : option (list string);
  skgc_precision : option py_float;
  skgc_recall : option py_float;
  skgc_f1 : option py_float;
  csoc_precision : option py_float;
  csoc_recall : option py_float;
  csoc_f1 : option py_float
}.

(** A line written by [print]: plain text, or text followed by a number
    rendered with [str]. *)
Inductive Line : Type :=
| Msg (text : string)
| MsgNum (text : string) (x : py_float).

(** What the chat-completion call inside [try] produces: the content of the
    first choice, or any exception, with its message. *)
Inductive ApiResult : Type :=
| Completion (text : string)
| ApiError (message : string).

(** What reading a prompt file produces: the list of templates, or a failure
    (file not found, YAML error, anything else) with the text printed. *)
Inductive YamlResult : Type :=
| YamlPrompts (prompts : list string)
| YamlFailure (message : string).

(** ** Reading the publications

    The functions that talk to the user on the terminal and read the JSON
    file.  Standard input is the list of lines still to be read; [input]
    on an exhausted input raises [EOFError].  The functions loop until an
    answer is valid, one line per round, so they are defined by recursion
    on the lines. *)

Module Terminal.

(** [str.lower] and [str.upper] on the code points 0..255.  The capitals
    of 181 and 255 lie outside that range and are left as they are here;
    the program only tests the result of [upper] for membership in
    ['A', 'B', 'C', 'D']. *)
Definition lower_char (c : ascii) : ascii :=
  let n := nat_of_ascii c in
  if (((65 <=? n) && (n <=? 90))
      || ((192 <=? n) && (n <=? 222) && negb (n =? 215)))%nat
  then ascii_of_nat (n + 32) else c.

Fixpoint lower (s : string) : string :=
  match s with
  | EmptyString => EmptyString
  | String c s' => String (lower_char c) (lower s')
  end.

Fixpoint upper (s : string) : string :=
  match s with
  | EmptyString => EmptyString
  | String c s' =>
      let n := nat_of_ascii c in
      if (((97 <=? n) && (n <=? 122))
          || ((224 <=? n) && (n <=? 254) && negb (n =? 247)))%nat
      then String (ascii_of_nat (n - 32)) (upper s')
      else if (n =? 223)%nat then String "S" (String "S" (upper s'))
      else String c (upper s')
  end.

(** [str.isdigit] on the code points 0..255: the decimal digits and the
    superscripts 1, 2 and 3; false on the empty text. *)
Definition isdigit_char (c : ascii) : bool :=
  let n := nat_of_ascii c in
  (((48 <=? n) && (n <=? 57)) || (n =? 178) || (n =? 179) || (n =? 185))%nat.

Fixpoint all_chars (p : ascii -> bool) (s : string) : bool :=
  match s with
  | EmptyString => true
  | String c s' => p c && all_chars p s'
  end.

Definition isdigit (s : string) : bool :=
  match s with
  | EmptyString => false
  | _ => all_chars isdigit_char s
  end.

(** What is written to the terminal: a text (the argument of [print], or
    the prompt of [input]), or a text followed by a dictionary. *)
Inductive Written : Type :=
| Text (text : string)
| Details (text : string) (publication : Publication).

Inductive terminal_exn : Type :=
| EOFError
| UnboundLocalError
| Builtin (e : exn).

Inductive Outcome (A : Type) : Type :=
| Done (a : A)
| Failed (e : terminal_exn).

Arguments Done {A} a.
Arguments Failed {A} e.

(** The terminal after a function: the lines not read and all that was
    written. *)
Record Terminal : Type := mkTerminal {
  stdin : list string;
  written : list Written
}.

(** A publication as the input functions build it: five keys. *)
Definition new_publication (title : string) (keywords : list string)
  (abstract : string) (csoc_result gold_standard : list string) : Publication :=
  mkPublication title keywords abstract csoc_result gold_standard
    None None None None None None None None None None None.

(** [user_selection_file_or_text]: the loop. *)
Fixpoint file_or_text_loop (lines : list string) (out : list Written)
  : Outcome string * Terminal :=
  let out := (out ++ [Text "Please enter 'f' or 't': "])%list in
  match lines with
  | [] => (Failed EOFError, mkTerminal [] out)
  | line :: rest =>
      let user_input := lower line in
      if String.eqb user_input "f" || String.eqb user_input "t"
      then (Done user_input, mkTerminal rest out)
      else
        file_or_text_loop rest
          (out ++ [Text "It seems like you didn't enter 'f' or 't'. Please enter either 'f' or 't'."])%list
  end.

Definition user_selection_file_or_text (t : Terminal) : Outcome string * Terminal :=
  file_or_text_loop (stdin t)
    (written t ++
     [Text ("Would you like to read the publication data from a JSON file ('f') or input it directly via text inputs"
            ++ " ('t')?")])%list.

(** [input(prompt)] *)
Definition input (prompt : string) (t : Terminal) : Outcome string * Terminal :=
  match stdin t with
  | [] => (Failed EOFError, mkTerminal [] (written t ++ [Text prompt])%list)
  | line :: rest => (Done line, mkTerminal rest (written t ++ [Text prompt])%list)
  end.

Definition write (text : string) (t : Terminal) : Terminal :=
  mkTerminal (stdin t) (written t ++ [Text text])%list.

(** [user_text_publication] *)
Definition user_text_publication (t : Terminal) : Outcome Publication * Terminal :=
  match input "Please enter the title of the scientific publication: " t with
  | (Failed e, t) => (Failed e, t)
  | (Done title, t) =>
  match input ("Please enter the author keywords in a comma-separated list (e.g. keyword1, keyword"
               ++ " phrase 2, keyword3): ") t with
  | (Failed e, t) => (Failed e, t)
  | (Done keywords_string, t) =>
  let keywords := split "," keywords_string in
  match input "Please enter the abstract of the publication: " t with
  | (Failed e, t) => (Failed e, t)
  | (Done abstract, t) =>
  let t := write ("Next, I'm asking you for two keyword lists that will be used for the evaluation of the SKGC result. If you"
                  ++ " don't have these keyword lists available or you don't want to evaluate the extracted topics, press Enter.") t in
  match input ("Please enter the keyword list resulting from the CSO Classifier if available"
               ++ " (otherwise, press Enter): ") t with
  | (Failed e, t) => (Failed e, t)
  | (Done csoc_result_string, t) =>
  let csoc_result := split "," csoc_result_string in
  match input ("Please enter the human expert annotated keyword list that serves as the gold standard"
               ++ " if available (otherwise, press Enter): ") t with
  | (Failed e, t) => (Failed e, t)
  | (Done gold_standard_string, t) =>
  let gold_standard := split "," gold_standard_string in
  (Done (new_publication (strip title) (map strip keywords) (strip abstract)
           (map strip csoc_result) (map strip gold_standard)), t)
  end end end end end.

(** The inner loop of [select_publications]: one publication by number. *)
Fixpoint select_one_loop (int_max_str_digits : nat) (publications : list Publication)
  (lines : list string) (out : list Written)
  : Outcome (list Publication) * Terminal :=
  let num_publications := List.length publications in
  let out :=
    (out ++ [Text ("Please input the number of the publication that should be selected."
                   ++ " Input a number between 1 and "
                   ++ str_of_nat num_publications ++ ": ")])%list in
  let invalid :=
    Text ("Invalid input. Please enter a number between 1 and "
          ++ str_of_nat num_publications ++ ".") in
  match lines with
  | [] => (Failed EOFError, mkTerminal [] out)
  | one_publication_number :: rest =>
      if isdigit one_publication_number then
        match int_of_str int_max_str_digits one_publication_number with
        | None => (Failed (Builtin ValueError), mkTerminal rest out)
        | Some n =>
            if ((1 <=? n) && (n <=? Z.of_nat num_publications))%Z then
              match nth_error publications (Z.to_nat (n - 1)) with
              | Some pub => (Done [pub], mkTerminal rest out)
              | None => (Failed (Builtin IndexError), mkTerminal rest out)
              end
            else
              select_one_loop int_max_str_digits publications rest (out ++ [invalid])%list
        end
      else
        select_one_loop int_max_str_digits publications rest (out ++ [invalid])%list
  end.

(** [select_publications]: the outer loop. *)
Fixpoint select_loop (int_max_str_digits : nat) (publications : list Publication)
  (lines : list string) (out : list Written)
  : Outcome (list Publication) * Terminal :=
  let num_publications := List.length publications in
  let out :=
    (out ++
     [Text (str_of_nat num_publications ++ " publications were read in from the file."
            ++ " Please input A, B, C or D to choose the further process.");
      Text "A: Use all publications that were read in.";
      Text "B: Training mode: Use every second publication that was read in, starting with 3, then 5, 7, ...";
      Text "C: Testing mode: Use every second publication that was read in, starting with 4, then 6, 8, ...";
      Text "D: Use only one publication which will be selected in the next step.";
      Text "Please enter your choice (A, B, C, or D): "])%list in
  match lines with
  | [] => (Failed EOFError, mkTerminal [] out)
  | line :: rest =>
      let choice := upper line in
      if String.eqb choice "A" then (Done publications, mkTerminal rest out)
      else if String.eqb choice "B" then
        (Done (skipn 2 (firstn 36 publications)), mkTerminal rest out)
      else if String.eqb choice "C" then
        (Done (skipn 36 (firstn 70 publications)), mkTerminal rest out)
      else if String.eqb choice "D" then
        select_one_loop int_max_str_digits publications rest out
      else
        select_loop int_max_str_digits publications rest
          (out ++ [Text "Invalid input. Please enter A, B, C, or D."])%list
  end.

Definition select_publications (int_max_str_digits : nat)
  (publications : list Publication) (t : Terminal)
  : Outcome (list Publication) * Terminal :=
  select_loop int_max_str_digits publications (stdin t) (written t).

(** One value of the JSON object read from the file, for files of the
    described shape: a dictionary in which ["title"] and ["abstract"],
    when present, are texts, and ["keywords"], ["cso_output"]["final"] and
    ["gold_standard"]["majority_vote"], when present, are lists of texts. *)
Record Entry : Type := mkEntry {
  entry_title : option string;
  entry_keywords : option (list string);
  entry_abstract : option string;
  entry_cso_final : option (list string);
  entry_gold_majority : option (list string)
}.

(** What [open] and [json.load] make of a file name: no such file, a file
    that is not valid JSON, or the values of the object in file order. *)
Inductive FileContent : Type :=
| NoFile
| BadJson
| Json (entries : list Entry).

(** [x = new if the key is present, else unchanged]: a local variable of
    the reading loop, unbound while [None]. *)
Definition assign {A : Type} (new : option A) (old : option A) : option A :=
  match new with
  | Some a => Some a
  | None => old
  end.

(** The [for] loop of [read_publication_from_file]: the five local
    variables keep their values from one entry to the next. *)
Fixpoint read_entries (entries : list Entry)
  (title : option string) (keywords : option (list string))
  (abstract : option string) (csoc_result gold_standard : option (list string))
  : Outcome (list Publication) :=
  match entries with
  | [] => Done []
  | value :: rest =>
      let title := assign (entry_title value) title in
      let keywords := assign (entry_keywords value) keywords in
      let abstract := assign (entry_abstract value) abstract in
      let csoc_result := assign (entry_cso_final value) csoc_result in
      let gold_standard := assign (entry_gold_majority value) gold_standard in
      match title, keywords, abstract, csoc_result, gold_standard with
      | Some t, Some k, Some a, Some c, Some g =>
          match read_entries rest title keywords abstract csoc_result gold_standard with
          | Done publications =>
              Done (new_publication (strip t) k (strip a) c g :: publications)
          | Failed e => Failed e
          end
      | _, _, _, _, _ => Failed UnboundLocalError
      end
  end.

(** The double quote character. *)
Definition quote : string := String (ascii_of_nat 34) EmptyString.

(** The description [read_publication_from_file] prints first. *)
Definition file_format_help : list Written :=
  map Text
    ["For reading the publication data from a JSON file the following structure is required:";
     "{";
     "        [OBJECT_ID]: {";
     "            " ++ quote ++ "title" ++ quote ++ ": " ++ quote ++ "[TITLE]" ++ quote ++ ",";
     "            " ++ quote ++ "abstract" ++ quote ++ ": " ++ quote ++ "[ABSTRACT]" ++ quote ++ ",";
     "            " ++ quote ++ "keywords" ++ quote ++ ": [";
     "                [KEYWORD1],";
     "                [KEYWORD PHRASE 2],";
     "                [KEYWORD3]";
     "                ],";
     "            " ++ quote ++ "cso_output" ++ quote ++ ": {";
     "                " ++ quote ++ "final" ++ quote ++ ": [";
     "                    [KEYWORD1],";
     "                    [KEYWORD PHRASE 2],";
     "                    [KEYWORD3]";
     "                    ]";
     "            }";
     "            " ++ quote ++ "gold_standard" ++ quote ++ ": {";
     "                " ++ quote ++ "majority_vote" ++ quote ++ ": [";
     "                   [KEYWORD1],";
     "                    [KEYWORD PHRASE 2],";
     "                    [KEYWORD3]";
     "                ]";
     "            }";
     "        }";
     "        }";
     EmptyString;
     "Info: There might be additional keys and values. These will be ignored by the program.";
     "For proper working of the topic extraction, at least one element out of title, keywords and abstract"
     ++ " must be provided. For proper working of the evaluation, the elements final cso_output and majority vote"
     ++ " gold standard are essential."].

(** The loop of [read_publication_from_file]: one file name per round. *)
Fixpoint read_file_loop (files : string -> FileContent)
  (lines : list string) (out : list Written)
  : Outcome (list Publication) * Terminal :=
  let out :=
    (out ++ [Text "Please enter the JSON file name (ending with .json): "])%list in
  match lines with
  | [] => (Failed EOFError, mkTerminal [] out)
  | file_name :: rest =>
      match files file_name with
      | Json data => (read_entries data None None None None None, mkTerminal rest out)
      | NoFile =>
          read_file_loop files rest
            (out ++
             [Text ("File " ++ file_name
                    ++ " not found. Make sure that the JSON file is located in the same folder like the"
                    ++ " script file. Please enter the file name again.")])%list
      | BadJson =>
          read_file_loop files rest
            (out ++
             [Text ("Error reading JSON from file " ++ file_name
                    ++ ". Please ensure the file contains valid JSON and try again.")])%list
      end
  end.

(** [read_publication_from_file] *)
Definition read_publication_from_file (files : string -> FileContent) (t : Terminal)
  : Outcome (list Publication) * Terminal :=
  read_file_loop files (stdin t) (written t ++ file_format_help)%list.

(** [get_publications_data]; [None] is the value returned when neither
    branch of the [if] is taken. *)
Definition get_publications_data (files : string -> FileContent) (t : Terminal)
  : Outcome (option (list Publication)) * Terminal :=
  match user_selection_file_or_text t with
  | (Failed e, t) => (Failed e, t)
  | (Done user_choice, t) =>
      if String.eqb user_choice "t" then
        match user_text_publication t with
        | (Failed e, t) => (Failed e, t)
        | (Done publication_details, t) =>
            (Done (Some [publication_details]),
             mkTerminal (stdin t)
               (written t ++ [Details "Publication details: " publication_details])%list)
        end
      else if String.eqb user_choice "f" then
        match read_publication_from_file files t with
        | (Failed e, t) => (Failed e, t)
        | (Done publications, t) => (Done (Some publications), t)
        end
      else (Done None, t)
  end.

(** *** Vocabulary of the statements *)

(** A line that [user_selection_file_or_text] accepts. *)
Definition is_file_or_text (line : string) : bool :=
  String.eqb (lower line) "f" || String.eqb (lower line) "t".


(** The publication built from an entry, a missing key taking the value
    the previous publication has. *)
Definition inherit (previous : Publication) (value : Entry) : Publication :=
  new_publication
    (match entry_title value with Some t => strip t | None => title previous end)
    (match entry_keywords value with Some k => k | None => keywords previous end)
    (match entry_abstract value with Some a => strip a | None => abstract previous end)
    (match entry_cso_final value with Some c => c | None => csoc_result previous end)
    (match entry_gold_majority value with Some g => g | None => gold_standard previous end).

Fixpoint inherit_all (previous : Publication) (entries : list Entry) : list Publication :=
  match entries with
  | [] => []
  | value :: rest =>
      let pub := inherit previous value in
      pub :: inherit_all pub rest
  end.

End Terminal.

(** ** Sample collaborators

    A remote service that answers every call with the same text, one that
    follows a script, one whose calls all fail, an environment with every credential set, prompt files
    with four templates each, and sample publications. *)

Module Sample.

Definition steady_service (api_key organization : string) (messages : list Turn)
  (calls : nat) : ApiResult * nat :=
  (Completion " nlp, graphs ,nlp ", S calls).

(** A service that answers the eight calls of one evaluation in turn: the
    assistant confirms two well-formed orderings and the counts ["-1"] and
    ["1"]. *)
Definition scripted_service (api_key organization : string) (messages : list Turn)
  (calls : nat) : ApiResult * nat :=
  (Completion
     (nth calls
        ["ordering"; "Your result: nlp Human expert result: nlp";
         "count"; "-1";
         "ordering"; "CSOC result: graphs Human expert result: nlp";
         "count"; "1"] ""),
   S calls).


Definition failing_service (api_key organization : string) (messages : list Turn)
  (calls : nat) : ApiResult * nat :=
  (ApiError "Connection error.", S calls).

Definition environment (name : string) : option string := Some "secret".

Definition prompt_files (file_name : string) : YamlResult :=
  YamlPrompts ["first XXXtitleXXX"; "second"; "third"; "fourth"].

Definition paper : Publication :=
  mkPublication "A title" ["k1"; "k2"] "An abstract" ["graphs"] ["nlp"; "logic"]
    (Some ["nlp"]) None None None None None None None None None None.

(** An evaluated record whose precision and recall are negative, as
    [eval_one] stores them after a count answer of ["-1"] on one-element
    lists when [hmean] returns [nan]; the baseline's metrics are all 1. *)
Definition negative_precision_paper : Publication :=
  mkPublication "A title" [] "An abstract" ["graphs"] ["nlp"]
    (Some ["nlp"]) (Some ["nlp"]) (Some ["nlp"]) (Some ["graphs"]) (Some ["nlp"])
    (Some (Fin (inject_Z (-1)))) (Some (Fin (inject_Z (-1)))) (Some NaN)
    (Some (Fin 1)) (Some (Fin 1)) (Some (Fin 1)).

(** A service that answers the six calls of one extraction and then the
    eight calls of one evaluation. *)
Definition full_service (api_key organization : string) (messages : list Turn)
  (calls : nat) : ApiResult * nat :=
  (Completion
     (nth calls
        ["keywords"; "nlp, graphs"; "more keywords"; "nlp, graphs, logic";
         "reviewed"; " nlp , graphs";
         "ordering"; "Your result: nlp, graphs Human expert result: nlp, logic";
         "count"; "1";
         "ordering"; "CSOC result: graphs Human expert result: logic, nlp";
         "count"; "0"] ""),
   S calls).

(** An environment without any credential, and prompt files that cannot
    be read. *)
Definition no_environment (name : string) : option string := None.

Definition no_prompt_files (file_name : string) : YamlResult :=
  YamlFailure "Error: The file was not found.".

(** A publication as the input functions deliver it. *)
Definition fresh_paper : Publication :=
  mkPublication "A title" ["k1"; "k2"] "An abstract" ["graphs"] ["nlp"; "logic"]
    None None None None None None None None None None None.

(** An evaluated record whose F1 for the extracted topics is the -1 of a
    count of zero; the baseline's metrics are all 1. *)
Definition failed_f1_paper : Publication :=
  mkPublication "A title" [] "An abstract" ["graphs"] ["nlp"]
    (Some ["nlp"]) (Some ["nlp"]) (Some ["nlp"]) (Some ["graphs"]) (Some ["nlp"])
    (Some (Fin 0)) (Some (Fin 0)) (Some (Fin (inject_Z (-1))))
    (Some (Fin 1)) (Some (Fin 1)) (Some (Fin 1)).

(** Two entries of a JSON file, the second without a title, and a file
    system with one readable file. *)
Definition complete_entry : Terminal.Entry :=
  Terminal.mkEntry (Some " First title ") (Some ["k1"]) (Some "First abstract")
    (Some ["graphs"]) (Some ["nlp"]).

Definition untitled_entry : Terminal.Entry :=
  Terminal.mkEntry None (Some ["k2"]) (Some "Second abstract") None (Some ["logic"]).

Definition file_system (file_name : string) : Terminal.FileContent :=
  if String.eqb file_name "data.json"
  then Terminal.Json [complete_entry; untitled_entry]
  else if String.eqb file_name "broken.json" then Terminal.BadJson
  else Terminal.NoFile.

(** The text made of the superscript two alone. *)
Definition superscript_two : string := String (ascii_of_nat 178) EmptyString.

(** A folder in which every file can be opened for writing, one in which
    only names without a slash can, a JSON file that holds an empty object
    beside the files above, and prompt files whose first template has the
    three placeholders. *)
Definition writable (file_name : string) : option string := None.

Definition flat_folder (file_name : string) : option string :=
  if contains "/" file_name
  then Some "[Errno 2] No such file or directory"
  else None.

Definition more_files (file_name : string) : Terminal.FileContent :=
  if String.eqb file_name "empty.json" then Terminal.Json []
  else file_system file_name.

Definition placeholder_files (file_name : string) : YamlResult :=
  YamlPrompts
    [" Title: XXXtitleXXX Keywords: XXXkeywordsXXX Abstract: XXXabstractXXX. ";
     "second"; "third"].

(** What the user types to enter one publication as text, decline the
    text file and name the JSON file. *)
Definition text_session : list string :=
  ["t"; "A title"; "k1, k2"; "An abstract"; "graphs"; "nlp, logic"; "B"; "out.json"].

End Sample.

(** ** The program *)

Section Pipeline.

(** The state of the remote service and the operation
    [client.chat.completions.create(model="gpt-4o", messages=..., temperature=0, seed=4)]
    for a client built from an API key and an organization. *)
Variable World : Type.
Variable chat_completions_create :
  string -> string -> list Turn -> World -> ApiResult * World.

(** [os.getenv], after [load_dotenv()]. *)
Variable getenv : string -> option string.

(** The contents of the prompt files next to the script. *)
Variable read_yaml : string -> YamlResult.

(** Interpreter and library settings: [sys.get_int_max_str_digits()], and
    whether the installed [hmean] raises on negative input. *)
Variable int_max_str_digits : nat.
Variable hmean_raises : bool.

(** The objects the pipeline mutates in place for one publication. *)
Record State : Type := mkState {
  world : World;
  stdout : list Line;
  messages_history : list Turn;
  publication : Publication
}.

(** Computations: read and update the state, then return or raise. *)
Definition M (A : Type) : Type := State -> Result A * State.

Definition ret {A : Type} (a : A) : M A := fun st => (Ok a, st).

Definition raise {A : Type} (e : exn) : M A := fun st => (Raise e, st).

Definition bind {A B : Type} (m : M A) (k : A -> M B) : M B :=
  fun st =>
    match m st with
    | (Ok a, st') => k a st'
    | (Raise e, st') => (Raise e, st')
    end.

Notation "x <- m ;; k" := (bind m (fun x => k))
  (at level 61, m at next level, right associativity).
Notation "m ;; k" := (bind m (fun _ => k))
  (at level 61, right associativity).

Definition lift {A : Type} (r : Result A) : M A := fun st => (r, st).

(** [print(text)] and [print(f"{text}{str(x)}")] *)
Definition print (text : string) : M unit :=
  fun st => (Ok tt, mkState (world st) (stdout st ++ [Msg text])%list
                            (messages_history st) (publication st)).

Definition print_num (text : string) (x : py_float) : M unit :=
  fun st => (Ok tt, mkState (world st) (stdout st ++ [MsgNum text x])%list
                            (messages_history st) (publication st)).

(** [messages_history.append(t)] *)
Definition messages_history_append (t : Turn) : M unit :=
  fun st => (Ok tt, mkState (world st) (stdout st)
                            (messages_history st ++ [t])%list (publication st)).

Definition get_messages_history : M (list Turn) :=
  fun st => (Ok (messages_history st), st).

Definition get_publication : M Publication :=
  fun st => (Ok (publication st), st).

Definition set_publication (p : Publication) : M unit :=
  fun st => (Ok tt, mkState (world st) (stdout st) (messages_history st) p).

(** The remote call. *)
Definition create (api_key organization : string) (messages : list Turn)
  : M ApiResult :=
  fun st =>
    let '(r, w) := chat_completions_create api_key organization messages (world st) in
    (Ok r, mkState w (stdout st) (messages_history st) (publication st)).

(** [l[i]] *)
Definition index {A : Type} (l : list A) (i : nat) : M A :=
  match nth_error l i with
  | Some a => ret a
  | None => raise IndexError
  end.

(** [d[key]] for a key the pipelines add. *)
Definition lookup {A : Type} (field : option A) : M A :=
  match field with
  | Some a => ret a
  | None => raise KeyError
  end.

(** [not value] for the result of [os.getenv]. *)
Definition falsy (value : option string) : bool :=
  match value with
  | None => true
  | Some EmptyString => true
  | Some _ => false
  end.

Definition env_text (value : option string) : string :=
  match value with
  | Some s => s
  | None => EmptyString
  end.

(** [', '.join(map(str, in_list))] *)
Definition list_to_comma_separated_string (in_list : list string) : string :=
  join ", " in_list.

(** [load_prompts_from_yaml]: the stripped templates of the file, or the
    empty list after printing what went wrong. *)
Definition load_prompts_from_yaml (file_name : string) : M (list string) :=
  match read_yaml file_name with
  | YamlPrompts prompts_yaml => ret (map strip prompts_yaml)
  | YamlFailure message => print message ;; ret []
  end.

(** [query_gpt_agent].  The ten seconds of [time.sleep] before the call are
    not modelled. *)
Definition query_gpt_agent (prompt : string) : M string :=
  let api_key := getenv "API_KEY_AGENT" in
  if falsy api_key then raise ValueError else
  let organization := getenv "ORGANIZATION" in
  if falsy organization then raise ValueError else
  messages_history_append (mkTurn user prompt) ;;
  messages <- get_messages_history ;;
  response <- create (env_text api_key) (env_text organization) messages ;;
  match response with
  | Completion text => ret (strip text)
  | ApiError e => print ("Error querying OpenAI API: " ++ e) ;; ret EmptyString
  end.

Definition assistant_system_turn : Turn :=
  mkTurn system
    ("Hello GPT, you are my very helpful and intelligent assistant for"
     ++ "checking the answers of another GPT sister of yourself.").

(** [query_gpt_assistant]: the messages sent are a list local to the call. *)
Definition query_gpt_assistant (prompt : string) : M string :=
  let api_key := getenv "API_KEY_ASSISTANT" in
  if falsy api_key then raise ValueError else
  let organization := getenv "ORGANIZATION" in
  if falsy organization then raise ValueError else
  let messages := [assistant_system_turn; mkTurn user prompt] in
  response <- create (env_text api_key) (env_text organization) messages ;;
  match response with
  | Completion text => ret (strip text)
  | ApiError e => print ("Error querying OpenAI API: " ++ e) ;; ret EmptyString
  end.

(** *** Topic extraction *)

Definition agent_system_turn : Turn :=
  mkTurn system
    ("Hello GPT, you are my very helpful and intelligent assistant"
     ++ " for a difficult task today.").

(** First stage (syntactic component): agent call on prompt 1, assistant
    check on prompt 1a, the checked answer appended to the history. *)
Definition extract_stage1 (prompts_gpt_agent prompts_gpt_assistant : list string)
  : M string :=
  template <- index prompts_gpt_agent 0 ;;
  pub <- get_publication ;;
  let prompt1 := replace "XXXtitleXXX" (title pub) template in
  let prompt1 :=
    replace "XXXkeywordsXXX" (list_to_comma_separated_string (keywords pub)) prompt1 in
  let prompt1 := replace "XXXabstractXXX" (abstract pub) prompt1 in
  print "Sending prompt 1 to gpt agent..." ;;
  response1 <- query_gpt_agent prompt1 ;;
  print "Received response 1 by gpt agent." ;;
  template_a <- index prompts_gpt_assistant 0 ;;
  let prompt1a := replace "XXXagent1XXX" response1 template_a in
  print "Sending prompt 1a to gpt assistant..." ;;
  response1 <- query_gpt_assistant prompt1a ;;
  print "Received response 1a by gpt assistant." ;;
  messages_history_append (mkTurn assistant response1) ;;
  ret response1.

(** Second stage (semantic component). *)
Definition extract_stage2 (prompts_gpt_agent prompts_gpt_assistant : list string)
  (response1 : string) : M string :=
  template <- index prompts_gpt_agent 1 ;;
  let prompt2 := replace "XXXresponse1XXX" response1 template in
  print "Sending prompt 2 to gpt agent..." ;;
  response2 <- query_gpt_agent prompt2 ;;
  print "Received response 2 by gpt agent." ;;
  template_a <- index prompts_gpt_assistant 1 ;;
  let prompt2a := replace "XXXagent2XXX" response2 template_a in
  print "Sending prompt 2a to gpt assistant..." ;;
  response2 <- query_gpt_assistant prompt2a ;;
  print "Received response 2a by gpt assistant." ;;
  messages_history_append (mkTurn assistant response2) ;;
  ret response2.

(** Third stage (review and confirmation). *)
Definition extract_stage3 (prompts_gpt_agent prompts_gpt_assistant : list string)
  (response2 : string) : M string :=
  template <- index prompts_gpt_agent 2 ;;
  let prompt3 := replace "XXXresponse2XXX" response2 template in
  print "Sending prompt 3 to gpt agent..." ;;
  response3 <- query_gpt_agent prompt3 ;;
  print "Received response 3 by gpt agent." ;;
  template_a <- index prompts_gpt_assistant 2 ;;
  let prompt3a := replace "XXXagent3XXX" response3 template_a in
  print "Sending prompt 3a to gpt assistant..." ;;
  response3 <- query_gpt_assistant prompt3a ;;
  print "Received response 3a by gpt assistant." ;;
  messages_history_append (mkTurn assistant response3) ;;
  ret response3.

(** The start of [extract_topics_one]: both prompt files are loaded and the
    system turn is appended. *)
Definition extract_begin : M (list string * list string) :=
  prompts_gpt_agent <- load_prompts_from_yaml "prompts_gpt_agent.yaml" ;;
  prompts_gpt_assistant <- load_prompts_from_yaml "prompts_gpt_assistant.yaml" ;;
  messages_history_append agent_system_turn ;;
  ret (prompts_gpt_agent, prompts_gpt_assistant).

(** [extract_topics_one] run up to the end of its [n]-th stage; the result
    lists the checked answers of the stages completed. *)
Definition extract_stages (n : nat) : M (list string) :=
  prompts <- extract_begin ;;
  let '(prompts_gpt_agent, prompts_gpt_assistant) := prompts in
  match n with
  | 0%nat => ret []
  | 1%nat =>
      response1 <- extract_stage1 prompts_gpt_agent prompts_gpt_assistant ;;
      ret [response1]
  | 2%nat =>
      response1 <- extract_stage1 prompts_gpt_agent prompts_gpt_assistant ;;
      response2 <- extract_stage2 prompts_gpt_agent prompts_gpt_assistant response1 ;;
      ret [response1; response2]
  | _ =>
      response1 <- extract_stage1 prompts_gpt_agent prompts_gpt_assistant ;;
      response2 <- extract_stage2 prompts_gpt_agent prompts_gpt_assistant response1 ;;
      response3 <- extract_stage3 prompts_gpt_agent prompts_gpt_assistant response2 ;;
      ret [response1; response2; response3]
  end.

(** [extract_topics_one] *)
Definition extract_topics_one : M (list string) :=
  prompts <- extract_begin ;;
  let '(prompts_gpt_agent, prompts_gpt_assistant) := prompts in
  response1 <- extract_stage1 prompts_gpt_agent prompts_gpt_assistant ;;
  response2 <- extract_stage2 prompts_gpt_agent prompts_gpt_assistant response1 ;;
  response3 <- extract_stage3 prompts_gpt_agent prompts_gpt_assistant response2 ;;
  let skgc_topics := split "," response3 in
  let topics := map strip skgc_topics in
  ret topics.

(** *** Evaluation *)

(** [response_to_integer] *)
Definition response_to_integer (response : string) : M Z :=
  match int_of_str int_max_str_digits response with
  | Some count => ret count
  | None =>
      print ("Error: The Evaluation procedure was partly not successful."
             ++ "The evaluation count did not work as expected.") ;;
      ret 0%Z
  end.

(** The three [if] statements that follow each count, written once for the
    two places [eval_one] has them. *)
Definition precision_of (matching_topics : Z) (topics_ordered : list string)
  : M py_float :=
  if (List.length topics_ordered =? 0)%nat then
    print "Error: Evaluation partly failed. Precision value of -1 means incorrect evaluation" ;;
    ret (Fin (inject_Z (-1)))
  else ret (Fin (ratio matching_topics (List.length topics_ordered))).

Definition recall_of (matching_topics : Z) (gold_standard_ordered : list string)
  : M py_float :=
  if (List.length gold_standard_ordered =? 0)%nat then
    print "Error: Evaluation partly failed. Recall value of -1 means incorrect evaluation" ;;
    ret (Fin (inject_Z (-1)))
  else ret (Fin (ratio matching_topics (List.length gold_standard_ordered))).

Definition f1_of (precision recall : py_float) : M py_float :=
  if eq0 (float_add precision recall) then
    print "Error: Evaluation partly failed. F1 value of -1 means incorrect evaluation" ;;
    ret (Fin (inject_Z (-1)))
  else lift (hmean hmean_raises [precision; recall]).

Definition metrics_of (matching_topics : Z)
  (topics_ordered gold_standard_ordered : list string)
  : M (py_float * py_float * py_float) :=
  precision <- precision_of matching_topics topics_ordered ;;
  recall <- recall_of matching_topics gold_standard_ordered ;;
  f1 <- f1_of precision recall ;;
  ret (precision, recall, f1).

(** The parse of a checked ordering answer, written once for the two places
    [eval_one] has it: the text between [marker] and
    ["Human expert result:"], and the text after ["Human expert result:"],
    each stripped and split on commas. *)
Definition parse_ordered (marker response : string)
  : M (list string * list string) :=
  after_marker <- index (split marker response) 1 ;;
  between <- index (split "Human expert result:" after_marker) 0 ;;
  let candidate_result := strip between in
  let topics_ordered := split "," candidate_result in
  after_human <- index (split "Human expert result:" response) 1 ;;
  let human_expert_result := strip after_human in
  let gold_standard_ordered := split "," human_expert_result in
  ret (topics_ordered, gold_standard_ordered).

(** Assignments to the keys [eval_one] adds to the publication. *)
Definition set_skgc_ordered (topics gold : list string) (p : Publication) : Publication :=
  mkPublication (title p) (keywords p) (abstract p) (csoc_result p) (gold_standard p)
    (skgc_topics p) (Some topics) (Some gold)
    (csoc_topics_ordered p) (gold_standard_ordered2 p)
    (skgc_precision p) (skgc_recall p) (skgc_f1 p)
    (csoc_precision p) (csoc_recall p) (csoc_f1 p).

Definition set_csoc_ordered (topics gold : list string) (p : Publication) : Publication :=
  mkPublication (title p) (keywords p) (abstract p) (csoc_result p) (gold_standard p)
    (skgc_topics p) (skgc_topics_ordered p) (gold_standard_ordered1 p)
    (Some topics) (Some gold)
    (skgc_precision p) (skgc_recall p) (skgc_f1 p)
    (csoc_precision p) (csoc_recall p) (csoc_f1 p).

Definition set_skgc_metrics (precision recall f1 : py_float) (p : Publication) : Publication :=
  mkPublication (title p) (keywords p) (abstract p) (csoc_result p) (gold_standard p)
    (skgc_topics p) (skgc_topics_ordered p) (gold_standard_ordered1 p)
    (csoc_topics_ordered p) (gold_standard_ordered2 p)
    (Some precision) (Some recall) (Some f1)
    (csoc_precision p) (csoc_recall p) (csoc_f1 p).

Definition set_csoc_metrics (precision recall f1 : py_float) (p : Publication) : Publication :=
  mkPublication (title p) (keywords p) (abstract p) (csoc_result p) (gold_standard p)
    (skgc_topics p) (skgc_topics_ordered p) (gold_standard_ordered1 p)
    (csoc_topics_ordered p) (gold_standard_ordered2 p)
    (skgc_precision p) (skgc_recall p) (skgc_f1 p)
    (Some precision) (Some recall) (Some f1).

Definition update_publication (f : Publication -> Publication) : M unit :=
  pub <- get_publication ;;
  set_publication (f pub).

(** First evaluation stage: the extracted topics and the gold standard are
    ordered by the agent, the checked answer is parsed and appended. *)
Definition eval_stage1 (prompts_gpt_agent_eval prompts_gpt_assistant_eval : list string)
  : M (list string * list string) :=
  template <- index prompts_gpt_agent_eval 0 ;;
  pub <- get_publication ;;
  topics <- lookup (skgc_topics pub) ;;
  let prompt1 := replace "XXXskgc_topicsXXX" (list_to_comma_separated_string topics) template in
  let prompt1 :=
    replace "XXXgold_standardXXX" (list_to_comma_separated_string (gold_standard pub)) prompt1 in
  print "Sending prompt 1 to gpt agent..." ;;
  response1 <- query_gpt_agent prompt1 ;;
  print "Received response 1 by gpt agent." ;;
  template_a <- index prompts_gpt_assistant_eval 0 ;;
  let prompt1a := replace "XXXagent4XXX" response1 template_a in
  print "Sending prompt 1a to gpt assistant..." ;;
  response1 <- query_gpt_assistant prompt1a ;;
  print "Received response 1a by gpt assistant." ;;
  ordered <- parse_ordered "Your result:" response1 ;;
  let '(skgc_topics_ordered, gold_standard_ordered1) := ordered in
  update_publication
    (set_skgc_ordered (map strip skgc_topics_ordered) (map strip gold_standard_ordered1)) ;;
  messages_history_append (mkTurn assistant response1) ;;
  ret (skgc_topics_ordered, gold_standard_ordered1).

(** Second evaluation stage: the matches are counted and the three metrics
    of the extracted topics are stored. *)
Definition eval_stage2 (prompts_gpt_agent_eval prompts_gpt_assistant_eval : list string)
  (skgc_topics_ordered gold_standard_ordered1 : list string) : M unit :=
  template <- index prompts_gpt_agent_eval 1 ;;
  let prompt2 :=
    replace "XXXskgc_topics_orderedXXX"
      (list_to_comma_separated_string skgc_topics_ordered) template in
  let prompt2 :=
    replace "XXXgold_standard_orderedXXX"
      (list_to_comma_separated_string gold_standard_ordered1) prompt2 in
  print "Sending prompt 2 to gpt agent..." ;;
  response2 <- query_gpt_agent prompt2 ;;
  print "Received response 2 by gpt agent." ;;
  template_a <- index prompts_gpt_assistant_eval 1 ;;
  let prompt2a := replace "XXXagent5XXX" response2 template_a in
  print "Sending prompt 2a to gpt assistant..." ;;
  response2 <- query_gpt_assistant prompt2a ;;
  print "Received response 2a by gpt assistant." ;;
  matching_topics <- response_to_integer response2 ;;
  m <- metrics_of matching_topics skgc_topics_ordered gold_standard_ordered1 ;;
  let '(precision, recall, f1) := m in
  update_publication (set_skgc_metrics precision recall f1) ;;
  messages_history_append (mkTurn assistant response2).

(** Third evaluation stage: as the first, for the baseline's topics. *)
Definition eval_stage3 (prompts_gpt_agent_eval prompts_gpt_assistant_eval : list string)
  : M (list string * list string) :=
  template <- index prompts_gpt_agent_eval 2 ;;
  pub <- get_publication ;;
  let prompt3 :=
    replace "XXXcsoc_topicsXXX" (list_to_comma_separated_string (csoc_result pub)) template in
  let prompt3 :=
    replace "XXXgold_standardXXX" (list_to_comma_separated_string (gold_standard pub)) prompt3 in
  print "Sending prompt 3 to gpt agent..." ;;
  response3 <- query_gpt_agent prompt3 ;;
  print "Received response 3 by gpt agent." ;;
  template_a <- index prompts_gpt_assistant_eval 2 ;;
  let prompt3a := replace "XXXagent6XXX" response3 template_a in
  print "Sending prompt 3a to gpt assistant..." ;;
  response3 <- query_gpt_assistant prompt3a ;;
  print "Received response 3a by gpt assistant." ;;
  ordered <- parse_ordered "CSOC result:" response3 ;;
  let '(csoc_topics_ordered, gold_standard_ordered2) := ordered in
  update_publication
    (set_csoc_ordered (map strip csoc_topics_ordered) (map strip gold_standard_ordered2)) ;;
  messages_history_append (mkTurn assistant response3) ;;
  ret (csoc_topics_ordered, gold_standard_ordered2).

(** Fourth evaluation stage: as the second, for the baseline's topics. *)
Definition eval_stage4 (prompts_gpt_agent_eval prompts_gpt_assistant_eval : list string)
  (csoc_topics_ordered gold_standard_ordered2 : list string) : M unit :=
  template <- index prompts_gpt_agent_eval 3 ;;
  let prompt4 :=
    replace "XXXcsoc_topics_orderedXXX"
      (list_to_comma_separated_string csoc_topics_ordered) template in
  let prompt4 :=
    replace "XXXgold_standard_orderedXXX"
      (list_to_comma_separated_string gold_standard_ordered2) prompt4 in
  print "Sending prompt 4 to gpt agent..." ;;
  response4 <- query_gpt_agent prompt4 ;;
  print "Received response 4 by gpt agent." ;;
  template_a <- index prompts_gpt_assistant_eval 3 ;;
  let prompt4a := replace "XXXagent7XXX" response4 template_a in
  print "Sending prompt 4a to gpt assistant..." ;;
  response4 <- query_gpt_assistant prompt4a ;;
  print "Received response 4a by gpt assistant." ;;
  matching_topics <- response_to_integer response4 ;;
  m <- metrics_of matching_topics csoc_topics_ordered gold_standard_ordered2 ;;
  let '(precision, recall, f1) := m in
  update_publication (set_csoc_metrics precision recall f1) ;;
  messages_history_append (mkTurn assistant response4).

(** [eval_one] *)
Definition eval_one : M unit :=
  prompts_gpt_agent_eval <- load_prompts_from_yaml "prompts_gpt_agent_eval.yaml" ;;
  prompts_gpt_assistant_eval <- load_prompts_from_yaml "prompts_gpt_assistant_eval.yaml" ;;
  ordered1 <- eval_stage1 prompts_gpt_agent_eval prompts_gpt_assistant_eval ;;
  eval_stage2 prompts_gpt_agent_eval prompts_gpt_assistant_eval (fst ordered1) (snd ordered1) ;;
  ordered2 <- eval_stage3 prompts_gpt_agent_eval prompts_gpt_assistant_eval ;;
  eval_stage4 prompts_gpt_agent_eval prompts_gpt_assistant_eval (fst ordered2) (snd ordered2).

(** *** Corpus-level comparison *)

(** [text * n] *)
Fixpoint repeat_string (text : string) (n : nat) : string :=
  match n with
  | O => EmptyString
  | S k => text ++ repeat_string text k
  end.

(** One of the three collecting loops: for every publication the value
    under the first key, then the value under the second. *)
Fixpoint collect (skgc csoc : Publication -> option py_float)
  (publications_and_topics : list Publication) : M (list py_float * list py_float) :=
  match publications_and_topics with
  | [] => ret ([], [])
  | pub :: rest =>
      a <- lookup (skgc pub) ;;
      b <- lookup (csoc pub) ;;
      r <- collect skgc csoc rest ;;
      ret (a :: fst r, b :: snd r)
  end.

(** The guarded mean of the F1 values: [hmean] when all are [>= 0], else -1
    and a message. *)
Definition f1_mean (f1_list : list py_float) : M py_float :=
  if forallb ge0 f1_list then lift (hmean hmean_raises f1_list)
  else
    print "Error: Overall evaluation partly failed. F1 value of -1 means incorrect evaluation" ;;
    ret (Fin (inject_Z (-1))).

(** The overall comparison that ends [print_eval_details] (after the table
    of the publications): the means of precision, recall and F1 of both
    approaches, printed, and the verdict. *)
Definition overall_comparison (publications_and_topics : list Publication) : M unit :=
  print EmptyString ;;
  print (repeat_string "-" 160) ;;
  print "Overall comparison between SKGC and CSOC: Precision mean comparison" ;;
  precision_lists <- collect skgc_precision csoc_precision publications_and_topics ;;
  precision_mean_skgc <- lift (hmean hmean_raises (fst precision_lists)) ;;
  precision_mean_csoc <- lift (hmean hmean_raises (snd precision_lists)) ;;
  print_num "Precision mean of SKGC appproach: " precision_mean_skgc ;;
  print_num "Precision mean of CSOC appproach: " precision_mean_csoc ;;
  print (repeat_string "-" 160) ;;
  print "Overall comparison between SKGC and CSOC: Recall mean comparison" ;;
  recall_lists <- collect skgc_recall csoc_recall publications_and_topics ;;
  recall_mean_skgc <- lift (hmean hmean_raises (fst recall_lists)) ;;
  recall_mean_csoc <- lift (hmean hmean_raises (snd recall_lists)) ;;
  print_num "Recall mean of SKGC appproach: " recall_mean_skgc ;;
  print_num "Recall mean of CSOC appproach: " recall_mean_csoc ;;
  print (repeat_string "-" 160) ;;
  print "Overall comparison between SKGC and CSOC: F1 mean comparison" ;;
  f1_lists <- collect skgc_f1 csoc_f1 publications_and_topics ;;
  f1_mean_skgc <- f1_mean (fst f1_lists) ;;
  f1_mean_csoc <- f1_mean (snd f1_lists) ;;
  print_num "F1 mean of SKGC appproach: " f1_mean_skgc ;;
  print_num "F1 mean of CSOC appproach: " f1_mean_csoc ;;
  print (repeat_string "-" 160) ;;
  if float_gt f1_mean_skgc f1_mean_csoc then
    print ("According to the automatic evaluation, the SKGC approach yielded better results than the CSOC"
           ++ " approach.")
  else if float_gt f1_mean_csoc f1_mean_skgc then
    print ("According to the automatic evaluation, the CSOC approach yielded better results than the SKGC"
           ++ " approach.")
  else
    print ("According to the automatic evaluation, the SKGC and the CSOC approach performed overall"
           ++ " identically.").

(** *** Vocabulary of the statements *)

(** The text both query functions return for an outcome of the remote call:
    the stripped content, or the empty text after an error. *)
Definition answer_text (r : ApiResult) : string :=
  match r with
  | Completion text => strip text
  | ApiError _ => EmptyString
  end.

(** [text] is an answer of the assistant role: what the remote call returns
    for the assistant's key on a two-turn context made of the fixed system
    turn and one user prompt. *)
Definition assistant_answer (text : string) : Prop :=
  exists prompt w,
    text = answer_text (fst (chat_completions_create
                               (env_text (getenv "API_KEY_ASSISTANT"))
                               (env_text (getenv "ORGANIZATION"))
                               [assistant_system_turn; mkTurn user prompt] w)).

(** The turns a run of stages leaves behind: each agent prompt as a user
    turn followed by the checked answer as an assistant turn. *)
Fixpoint dialogue (prompts responses : list string) : list Turn :=
  match prompts, responses with
  | p :: ps, r :: rs => mkTurn user p :: mkTurn assistant r :: dialogue ps rs
  | _, _ => []
  end.

(** [m] returns from every state: it never raises. *)
Definition returns {A : Type} (m : M A) : Prop :=
  forall st, exists a st', m st = (Ok a, st').

(** The setting in which extraction can run: the three credentials are
    set and both prompt files hold at least three templates. *)
Definition extraction_ready : Prop :=
  falsy (getenv "API_KEY_AGENT") = false
  /\ falsy (getenv "API_KEY_ASSISTANT") = false
  /\ falsy (getenv "ORGANIZATION") = false
  /\ (exists l, read_yaml "prompts_gpt_agent.yaml" = YamlPrompts l
                /\ (3 <= List.length l)%nat)
  /\ (exists l, read_yaml "prompts_gpt_assistant.yaml" = YamlPrompts l
                /\ (3 <= List.length l)%nat).

Definition with_messages_history (mh : list Turn) (st : State) : State :=
  mkState (world st) (stdout st) mh (publication st).

(** The templates [load_prompts_from_yaml] returns for a prompt file:
    stripped, and none when the file cannot be read. *)
Definition templates (file_name : string) : list string :=
  match read_yaml file_name with
  | YamlPrompts prompts_yaml => map strip prompts_yaml
  | YamlFailure _ => []
  end.

(** *** More vocabulary: texts without outer white space *)

(** The first character of [s], if any, does not satisfy [p]. *)
Definition head_clear (p : ascii -> bool) (s : string) : bool :=
  match s with
  | EmptyString => true
  | String c _ => negb (p c)
  end.

(** The last character of [s], if any, does not satisfy [p]. *)
Fixpoint last_clear (p : ascii -> bool) (s : string) : bool :=
  match s with
  | EmptyString => true
  | String c EmptyString => negb (p c)
  | String _ s' => last_clear p s'
  end.

(** *** More vocabulary: the values under a key *)

(** The values the records hold under a key, for records that all have it. *)
Definition values (key : Publication -> option py_float)
  (publications_and_topics : list Publication) : list py_float :=
  map (fun pub => match key pub with Some x => x | None => NaN end)
      publications_and_topics.

(** Every record has the key. *)
Definition present (key : Publication -> option py_float)
  (publications_and_topics : list Publication) : Prop :=
  Forall (fun pub => key pub <> None) publications_and_topics.

(** Every value is a number in the interval from [lo] to [hi]. *)
Definition all_between (lo hi : Q) (a : list py_float) : Prop :=
  Forall (fun x => exists q, x = Fin q /\ lo <= q <= hi) a.

(** *** The whole corpus *)

(** The objects [extract_topics_all] and [eval_all] work on: the list of
    publication dictionaries and the list of the histories of the
    publications processed so far ([messages_history_all]).  The
    dictionaries are taken to be distinct objects. *)
Record Run : Type := mkRun {
  run_world : World;
  run_stdout : list Line;
  publications : list Publication;
  messages_history_all : list (list Turn)
}.

(** [l[i] = x] on an index within the list. *)
Fixpoint list_update {A : Type} (i : nat) (x : A) (l : list A) : list A :=
  match l, i with
  | [], _ => []
  | _ :: t, O => x :: t
  | h :: t, S j => h :: list_update j x t
  end.

(** [publication["skgc_topics"] = skgc_topics] *)
Definition set_skgc_topics (topics : list string) (p : Publication) : Publication :=
  mkPublication (title p) (keywords p) (abstract p) (csoc_result p) (gold_standard p)
    (Some topics) (skgc_topics_ordered p) (gold_standard_ordered1 p)
    (csoc_topics_ordered p) (gold_standard_ordered2 p)
    (skgc_precision p) (skgc_recall p) (skgc_f1 p)
    (csoc_precision p) (csoc_recall p) (csoc_f1 p).

Definition run_print (text : string) (r : Run) : Run :=
  mkRun (run_world r) (run_stdout r ++ [Msg text])%list (publications r)
    (messages_history_all r).

(** The state in which a function of one publication starts, and the run
    after it: the service and the output carry over, and the dictionary at
    position [i] is the one the function worked on. *)
Definition enter (r : Run) (pub : Publication) (mh : list Turn) : State :=
  mkState (run_world r) (run_stdout r) mh pub.

Definition leave (r : Run) (st : State) (i : nat) (pub : Publication) : Run :=
  mkRun (world st) (stdout st) (list_update i pub (publications r))
    (messages_history_all r).

(** The loop of [extract_topics_all]; [count] is the loop's counter
    (starting at 1) and [todo] are the publications still to visit. *)
Fixpoint extract_topics_loop (total count : nat) (todo : list Publication)
  (r : Run) : Result unit * Run :=
  match todo with
  | [] => (Ok tt, r)
  | pub :: rest =>
      let r := run_print (repeat_string "-" 160) r in
      let r := run_print (repeat_string "-" 160) r in
      let r := run_print ("Publication " ++ str_of_nat count ++ " of "
                          ++ str_of_nat total ++ ": SKGC Topic Extraction") r in
      let r := run_print (repeat_string "-" 160) r in
      let '(result, st) := extract_topics_one (enter r pub []) in
      match result with
      | Raise e => (Raise e, leave r st (count - 1) (publication st))
      | Ok skgc_topics =>
          let r := leave r st (count - 1)
                     (set_skgc_topics skgc_topics (publication st)) in
          let r := mkRun (run_world r) (run_stdout r) (publications r)
                     (messages_history_all r ++ [messages_history st])%list in
          extract_topics_loop total (S count) rest r
      end
  end.

(** [extract_topics_all] *)
Definition extract_topics_all (r : Run) : Result unit * Run :=
  let r := run_print (repeat_string "-" 160) r in
  let r := run_print (repeat_string "-" 160) r in
  let r := run_print "Topic extraction and evaluation process" r in
  extract_topics_loop (List.length (publications r)) 1 (publications r) r.

(** The loop of [eval_all]; [count] starts at 0. *)
Fixpoint eval_loop (total count : nat) (todo : list Publication)
  (r : Run) : Result unit * Run :=
  match todo with
  | [] => (Ok tt, r)
  | pub :: rest =>
      let r := run_print (repeat_string "-" 160) r in
      let r := run_print (repeat_string "-" 160) r in
      let r := run_print ("Publication " ++ str_of_nat (count + 1) ++ " of "
                          ++ str_of_nat total ++ ": Evaluation") r in
      let r := run_print (repeat_string "-" 160) r in
      match nth_error (messages_history_all r) count with
      | None => (Raise IndexError, r)
      | Some mh =>
          let '(result, st) := eval_one (enter r pub mh) in
          let r := leave r st count (publication st) in
          let r := mkRun (run_world r) (run_stdout r) (publications r)
                     (list_update count (messages_history st)
                        (messages_history_all r)) in
          match result with
          | Raise e => (Raise e, r)
          | Ok _ => eval_loop total (S count) rest r
          end
      end
  end.

(** [eval_all] *)
Definition eval_all (r : Run) : Result unit * Run :=
  eval_loop (List.length (publications r)) 0 (publications r) r.

(** *** More vocabulary: what an evaluation does to its arguments *)

(** [pub'] is [pub] after a completed evaluation: the four ordered lists,
    non-empty and stripped, and the six metrics, precision and recall
    being a count divided by the lengths of the lists. *)
Definition evaluated (pub pub' : Publication) : Prop :=
  exists t1 g1 t2 g2 c1 c2 f1 f2,
    t1 <> [] /\ g1 <> [] /\ t2 <> [] /\ g2 <> []
    /\ pub' =
       set_csoc_metrics (Fin (ratio c2 (List.length t2)))
         (Fin (ratio c2 (List.length g2))) f2
         (set_csoc_ordered (map strip t2) (map strip g2)
            (set_skgc_metrics (Fin (ratio c1 (List.length t1)))
               (Fin (ratio c1 (List.length g1))) f1
               (set_skgc_ordered (map strip t1) (map strip g1) pub))).

(** [mh'] is [mh] followed by the eight turns of a completed evaluation. *)
Definition extended_by_evaluation (mh mh' : list Turn) : Prop :=
  exists p1 p2 p3 p4 r1 r2 r3 r4,
    mh' = (mh ++ dialogue [p1; p2; p3; p4] [r1; r2; r3; r4])%list
    /\ Forall assistant_answer [r1; r2; r3; r4].

(** *** The report and the whole program *)

(** The JSON files the user can name, and what [open(file_name, 'w')]
    does for a name: [None] when the file is opened (created, or emptied
    when it exists), or the text of the [OSError] it raises. *)
Variable files : string -> Terminal.FileContent.
Variable open_error : string -> option string.

(** What is written to [sys.stdout]: by the input functions, by the
    pipelines and the report, or the row of a metric in the table of a
    publication,
    [f"{f'{label}{skgc}':<40} {'':<40} {'':<40} {f'{label}{csoc}':<40}"]. *)
Inductive Output : Type :=
| Shown (w : Terminal.Written)
| Printed (line : Line)
| MetricRow (label : string) (skgc csoc : py_float).

(** A file the program has written: the lines of the report, or the
    records given to [json.dump]. *)
Inductive FileData : Type :=
| TextFile (lines : list Output)
| JsonFile (data : list Publication).

Inductive process_exn : Type :=
| Raised (e : Terminal.terminal_exn)
| OSError (message : string).

Inductive Ending (A : Type) : Type :=
| Completed (a : A)
| Stopped (e : process_exn).

Arguments Completed {A} a.
Arguments Stopped {A} e.

(** The running program: the lines still to be read from standard input,
    all that was written to the console, the files written, the file that
    [sys.stdout] duplicates its output to ([None] while [sys.stdout] is the
    console itself), and the state of the remote service. *)
Record Process : Type := mkProcess {
  process_stdin : list string;
  console : list Output;
  disk : string -> option FileData;
  sys_stdout : option string;
  service : World
}.

Definition say (text : string) : Output := Printed (Msg text).

Definition file_lines (data : option FileData) : list Output :=
  match data with
  | Some (TextFile lines) => lines
  | _ => []
  end.

(** Writing lines to [sys.stdout]: to the console and, when [sys.stdout]
    is a [DualOutput], to its file as well. *)
Definition emit (lines : list Output) (p : Process) : Process :=
  mkProcess (process_stdin p) (console p ++ lines)%list
    (match sys_stdout p with
     | None => disk p
     | Some file_name =>
         fun name =>
           if String.eqb name file_name
           then Some (TextFile (file_lines (disk p file_name) ++ lines)%list)
           else disk p name
     end)
    (sys_stdout p) (service p).

Definition with_stdin (lines : list string) (p : Process) : Process :=
  mkProcess lines (console p) (disk p) (sys_stdout p) (service p).

Definition with_service (w : World) (p : Process) : Process :=
  mkProcess (process_stdin p) (console p) (disk p) (sys_stdout p) w.

Definition with_sys_stdout (target : option string) (p : Process) : Process :=
  mkProcess (process_stdin p) (console p) (disk p) target (service p).

(** The file [file_name] after [open(file_name, 'w')] and after
    [json.dump]. *)
Definition write_file (file_name : string) (data : FileData) (p : Process) : Process :=
  mkProcess (process_stdin p) (console p)
    (fun name => if String.eqb name file_name then Some data else disk p name)
    (sys_stdout p) (service p).

Definition ending {A : Type} (o : Terminal.Outcome A) : Ending A :=
  match o with
  | Terminal.Done a => Completed a
  | Terminal.Failed e => Stopped (Raised e)
  end.

(** An input function run by the program: it reads from the program's
    standard input, and what it writes goes to [sys.stdout]. *)
Definition from_terminal {A : Type}
  (f : Terminal.Terminal -> Terminal.Outcome A * Terminal.Terminal)
  (p : Process) : Ending A * Process :=
  let '(o, t) := f (Terminal.mkTerminal (process_stdin p) []) in
  (ending o,
   with_stdin (Terminal.stdin t) (emit (map Shown (Terminal.written t)) p)).

(** One of the two loops over the corpus run by the program, on the list
    of dictionaries [pubs] and the list of histories [mha]; both lists are
    mutated in place, so the caller sees them as the loop leaves them. *)
Definition from_run (f : Run -> Result unit * Run)
  (pubs : list Publication) (mha : list (list Turn)) (p : Process)
  : Ending (list Publication * list (list Turn)) * Process :=
  let '(result, r) := f (mkRun (service p) [] pubs mha) in
  let p := with_service (run_world r) (emit (map Printed (run_stdout r)) p) in
  match result with
  | Ok _ => (Completed (publications r, messages_history_all r), p)
  | Raise e => (Stopped (Raised (Terminal.Builtin e)), p)
  end.

(** A computation that only prints, run for its result and its lines. *)
Definition printed {A : Type} (m : M A) (w : World) : Result A * list Line :=
  let '(result, st) := m (mkState w [] [] (Terminal.new_publication "" [] "" [] [])) in
  (result, stdout st).

(** [print_messages_history] *)
Definition role_name (r : Role) : string :=
  match r with
  | system => "system"
  | user => "user"
  | assistant => "assistant"
  end.

(** The lines for one message: for each of its two keys the capitalized
    key with the value, and a rule. *)
Definition message_lines (message : Turn) : list Output :=
  [say ("Role: " ++ role_name (role message)); say (repeat_string "-" 160);
   say ("Content: " ++ content message); say (repeat_string "-" 160)].

Fixpoint history_lines (total count : nat) (messages_history_all : list (list Turn))
  : list Output :=
  match messages_history_all with
  | [] => []
  | messages_history :: rest =>
      (say (repeat_string "-" 160)
       :: say ("Publication " ++ str_of_nat count ++ " of " ++ str_of_nat total)
       :: flat_map message_lines messages_history
       ++ history_lines total (S count) rest)%list
  end.

Definition print_messages_history (messages_history_all : list (list Turn))
  (p : Process) : Process :=
  emit
    (say (repeat_string "-" 160) :: say (repeat_string "-" 160)
     :: say "Conversation with GPT agent: Topic extraction and evaluation"
     :: history_lines (List.length messages_history_all) 1 messages_history_all)
    p.

(** [text.endswith(suffix)] *)
Fixpoint endswith (suffix text : string) : bool :=
  String.eqb text suffix
  || match text with
     | EmptyString => false
     | String _ rest => endswith suffix rest
     end.

(** The format [:<40]: [text] followed by spaces up to the width. *)
Definition ljust (width : nat) (text : string) : string :=
  text ++ repeat_string " " (width - String.length text).

(** A row of the table: four columns of width 40, separated by a space. *)
Definition table_row (a b c d : string) : string :=
  ljust 40 a ++ " " ++ ljust 40 b ++ " " ++ ljust 40 c ++ " " ++ ljust 40 d.

(** The rows of the topics, each followed by a rule; a list that is
    shorter than the longest leaves its column empty. *)
Definition topic_rows (skgc_topics gold_standard_order1 gold_standard_order2
                       csoc_result : list string) : list Output :=
  let max_len :=
    Nat.max (Nat.max (Nat.max (List.length skgc_topics)
                              (List.length gold_standard_order1))
                     (List.length gold_standard_order2))
            (List.length csoc_result) in
  flat_map
    (fun i =>
       [say (table_row (nth i skgc_topics "") (nth i gold_standard_order1 "")
               (nth i gold_standard_order2 "") (nth i csoc_result ""));
        say (repeat_string "-" 160)])
    (seq 0 max_len).

(** What the report prints for a publication before it reads the results
    of the evaluation. *)
Definition details_head (total count : nat) (publication : Publication) : list Output :=
  [say (repeat_string "-" 160);
   say ("Publication " ++ str_of_nat count ++ " of " ++ str_of_nat total ++ ":");
   say "";
   say ("Publication title: " ++ title publication);
   say ""].

(** The table of a publication; [None] when one of the ten keys is
    missing ([KeyError]). *)
Definition details_table (publication : Publication) : option (list Output) :=
  match skgc_topics_ordered publication, gold_standard_ordered1 publication,
        gold_standard_ordered2 publication, csoc_topics_ordered publication,
        skgc_precision publication, skgc_recall publication, skgc_f1 publication,
        csoc_precision publication, csoc_recall publication, csoc_f1 publication
  with
  | Some skgc_topics, Some gold_standard_order1, Some gold_standard_order2,
    Some csoc_result, Some skgc_precision, Some skgc_recall, Some skgc_f1,
    Some csoc_precision, Some csoc_recall, Some csoc_f1 =>
      Some
        ([say (table_row "SKGC Topics" "Gold Standard (Order 1)"
                 "Gold Standard (Order 2)" "CSOC Topics");
          say (repeat_string "-" 160)]
         ++ topic_rows skgc_topics gold_standard_order1 gold_standard_order2 csoc_result
         ++ [MetricRow "Precision: " skgc_precision csoc_precision;
             say (repeat_string "-" 160);
             MetricRow "Recall: " skgc_recall csoc_recall;
             say (repeat_string "-" 160);
             MetricRow "F1: " skgc_f1 csoc_f1])%list
  | _, _, _, _, _, _, _, _, _, _ => None
  end.

(** The loop over the publications in [print_eval_details]; [count]
    starts at 1. *)
Fixpoint details_loop (total count : nat) (todo : list Publication) (p : Process)
  : Ending unit * Process :=
  match todo with
  | [] => (Completed tt, p)
  | publication :: rest =>
      let p := emit (details_head total count publication) p in
      match details_table publication with
      | None => (Stopped (Raised (Terminal.Builtin KeyError)), p)
      | Some lines => details_loop total (S count) rest (emit lines p)
      end
  end.

(** The inner loop of the question in [print_eval_details]: the name of
    the text file. *)
Fixpoint file_name_loop (lines : list string) (p : Process) : Ending string * Process :=
  let p :=
    emit [say "Please enter a file name to store the evaluation details (ending with .txt): "] p in
  match lines with
  | [] => (Stopped (Raised Terminal.EOFError), with_stdin [] p)
  | file_name :: rest =>
      if endswith ".txt" file_name then (Completed file_name, with_stdin rest p)
      else
        file_name_loop rest
          (emit [say "Invalid file name. Please ensure it ends with .txt."] p)
  end.

(** The outer loop of the question: [file_bool] and [file_name]. *)
Fixpoint save_choice_loop (lines : list string) (p : Process)
  : Ending (bool * string) * Process :=
  let p := emit [say "Please enter A or B: "] p in
  match lines with
  | [] => (Stopped (Raised Terminal.EOFError), with_stdin [] p)
  | choice :: rest =>
      if String.eqb (Terminal.upper choice) "A" then
        match file_name_loop rest p with
        | (Completed file_name, p) => (Completed (true, file_name), p)
        | (Stopped e, p) => (Stopped e, p)
        end
      else if String.eqb (Terminal.upper choice) "B" then
        (Completed (false, "file_name.txt"), with_stdin rest p)
      else
        save_choice_loop rest (emit [say "Invalid input. Please enter 'A' or 'B'"] p)
  end.

(** What [print_eval_details] prints inside its [with] statement: the
    tables of the publications and the overall comparison. *)
Definition report_body (publications_and_topics : list Publication) (p : Process)
  : Ending unit * Process :=
  let p := emit [say (repeat_string "-" 160); say "Evaluation details:"] p in
  match details_loop (List.length publications_and_topics) 1 publications_and_topics p with
  | (Stopped e, p) => (Stopped e, p)
  | (Completed _, p) =>
      let '(result, lines) :=
        printed (overall_comparison publications_and_topics) (service p) in
      let p := emit (map Printed lines) p in
      match result with
      | Ok _ => (Completed tt, p)
      | Raise e => (Stopped (Raised (Terminal.Builtin e)), p)
      end
  end.

(** [print_eval_details], entered with the console as [sys.stdout].  The
    file is opened for writing whatever the user answered; [sys.stdout] is
    set back only when the report completes. *)
Definition print_eval_details (publications_and_topics : list Publication)
  (p : Process) : Ending unit * Process :=
  let p :=
    emit [say "Would you like to save the evaluation details to a txt-file?";
          say "A: Yes"; say "B: No"] p in
  match save_choice_loop (process_stdin p) p with
  | (Stopped e, p) => (Stopped e, p)
  | (Completed (file_bool, file_name), p) =>
      match open_error file_name with
      | Some message => (Stopped (OSError message), p)
      | None =>
          let p := write_file file_name (TextFile []) p in
          let p := if file_bool then with_sys_stdout (Some file_name) p else p in
          match report_body publications_and_topics p with
          | (Stopped e, p) => (Stopped e, p)
          | (Completed _, p) =>
              (Completed tt, if file_bool then with_sys_stdout None p else p)
          end
      end
  end.

(** The loop of [skgc_topics_and_eval_to_json]: one file name per round;
    an [OSError] of [open] is caught and reported. *)
Fixpoint save_json_loop (publications_and_topics : list Publication)
  (lines : list string) (p : Process) : Ending unit * Process :=
  let p :=
    emit [say "Please enter the file name to save the JSON data (ending with .json): "] p in
  match lines with
  | [] => (Stopped (Raised Terminal.EOFError), with_stdin [] p)
  | file_name :: rest =>
      match open_error file_name with
      | None =>
          let p := write_file file_name (JsonFile publications_and_topics) p in
          (Completed tt, with_stdin rest (emit [say ("Data saved to " ++ file_name)] p))
      | Some message =>
          save_json_loop publications_and_topics rest
            (emit [say ("Error writing to file " ++ file_name ++ ": " ++ message)] p)
      end
  end.

Definition skgc_topics_and_eval_to_json (publications_and_topics : list Publication)
  (p : Process) : Ending unit * Process :=
  save_json_loop publications_and_topics (process_stdin p) p.

(** The lines [main] prints for a publication that was read in: its five
    items, a list as comma separated text. *)
Definition item_lines (publication : Publication) : list Output :=
  [say ("Title: " ++ title publication);
   say ("Keywords: " ++ list_to_comma_separated_string (keywords publication));
   say ("Abstract: " ++ abstract publication);
   say ("Csoc_result: " ++ list_to_comma_separated_string (csoc_result publication));
   say ("Gold_standard: " ++ list_to_comma_separated_string (gold_standard publication))].

Fixpoint selected_lines (total count : nat) (publications : list Publication)
  : list Output :=
  match publications with
  | [] => []
  | publication :: rest =>
      (say (repeat_string "-" 160)
       :: say ("Publication " ++ str_of_nat count ++ " of " ++ str_of_nat total ++ ":")
       :: item_lines publication
       ++ say "" :: selected_lines total (S count) rest)%list
  end.

(** The first part of [main]: the publications to process, or [None] when
    nothing was read and [main] returns. *)
Definition main_input (p : Process) : Ending (option (list Publication)) * Process :=
  match from_terminal (Terminal.get_publications_data files) p with
  | (Stopped e, p) => (Stopped e, p)
  | (Completed None, p) | (Completed (Some []), p) =>
      (Completed None,
       emit [say ("An unexpected error while reading the data occurred."
                  ++ " Please restart the program.")] p)
  | (Completed (Some [publication]), p) =>
      (Completed (Some [publication]),
       emit ([say "The following data was successfully read in:";
              say (repeat_string "-" 160)]
             ++ item_lines publication
             ++ [say "The publication is being processed now."])%list p)
  | (Completed (Some publications), p) =>
      match from_terminal
              (Terminal.select_publications int_max_str_digits publications) p with
      | (Stopped e, p) => (Stopped e, p)
      | (Completed publications, p) =>
          (Completed (Some publications),
           emit (say "The following data was successfully read in:"
                 :: selected_lines (List.length publications) 1 publications
                 ++ [say (repeat_string "-" 160); say (repeat_string "-" 160);
                     say "The selected publications are being processed now."])%list p)
      end
  end.

(** [main], after [load_dotenv()]. *)
Definition main (p : Process) : Ending unit * Process :=
  match main_input p with
  | (Stopped e, p) => (Stopped e, p)
  | (Completed None, p) => (Completed tt, p)
  | (Completed (Some publications), p) =>
  match from_run extract_topics_all publications [] p with
  | (Stopped e, p) => (Stopped e, p)
  | (Completed (publications_and_topics, messages_history_all), p) =>
  match from_run eval_all publications_and_topics messages_history_all p with
  | (Stopped e, p) => (Stopped e, p)
  | (Completed (publications_and_topics, messages_history_all), p) =>
  let p := print_messages_history messages_history_all p in
  match print_eval_details publications_and_topics p with
  | (Stopped e, p) => (Stopped e, p)
  | (Completed _, p) => skgc_topics_and_eval_to_json publications_and_topics p
  end end end end.

(** *** More vocabulary: the report and the program *)

Definition is_some {A : Type} (o : option A) : bool :=
  match o with
  | Some _ => true
  | None => false
  end.

(** The record holds the ten keys that the evaluation adds. *)
Definition has_results (publication : Publication) : bool :=
  is_some (skgc_topics_ordered publication)
  && is_some (gold_standard_ordered1 publication)
  && is_some (gold_standard_ordered2 publication)
  && is_some (csoc_topics_ordered publication)
  && is_some (skgc_precision publication) && is_some (skgc_recall publication)
  && is_some (skgc_f1 publication)
  && is_some (csoc_precision publication) && is_some (csoc_recall publication)
  && is_some (csoc_f1 publication).

(** What the loop of the report prints for a list of records: the head and
    the table of each record, up to the head of the first record without
    results, where the loop stops. *)
Fixpoint tables (total count : nat) (pubs : list Publication) : list Output :=
  match pubs with
  | [] => []
  | publication :: rest =>
      (details_head total count publication
       ++ match details_table publication with
          | Some lines => lines ++ tables total (S count) rest
          | None => []
          end)%list
  end.

(** An answer that the question of the report accepts. *)
Definition is_save_choice (line : string) : bool :=
  String.eqb (Terminal.upper line) "A" || String.eqb (Terminal.upper line) "B".

(** A property of the process that holds on, whatever is read from
    standard input, written to [sys.stdout] or asked of the service, when
    a text file is opened and when [sys.stdout] is set. *)
Definition kept (I : Process -> Prop) : Prop :=
  (forall lines p, I p -> I (emit lines p))
  /\ (forall lines p, I p -> I (with_stdin lines p))
  /\ (forall w p, I p -> I (with_service w p))
  /\ (forall target p, I p -> I (with_sys_stdout target p))
  /\ (forall file_name p, I p -> I (write_file file_name (TextFile []) p)).

(** ** Properties *)

(** *** The string operations on sample texts *)

Example split_empty : split "," "" = [""].
Proof. reflexivity. Qed.

Example split_gap : split "," "a,,b" = ["a"; ""; "b"].
Proof. reflexivity. Qed.

Example split_overlap : split "aa" "aaa" = [""; "a"].
Proof. reflexivity. Qed.

Example split_marker :
  split "Your result:" "xYour result:yYour result:z" = ["x"; "y"; "z"].
Proof. reflexivity. Qed.

Example replace_all : replace "ab" "x" "abab" = "xx" /\ replace "aa" "b" "aaa" = "ba".
Proof. split; reflexivity. Qed.

Example strip_sample : strip "  a b 	" = "a b" /\ strip "" = "" /\ strip "   " = "".
Proof. repeat split; reflexivity. Qed.

Example int_samples :
  map (int_of_str 4300)
      ["abc"; "12"; " 12 "; "+5"; "-3"; "1_000"; "_1"; "1_"; "1__0"; "007";
       ""; "+"; "- 3"; "1.0"; "+-3"; "0_0"; "-0"; "+_1"; "1 2"]
  = [None; Some 12; Some 12; Some 5; Some (-3); Some 1000; None; None; None;
     Some 7; None; None; None; None; None; Some 0; Some 0; None; None]%Z.
Proof. reflexivity. Qed.

(** *** Splitting *)

Lemma append_empty_r (s : string) : s ++ "" = s.
Proof. induction s as [|c s IH]; simpl; [reflexivity | now rewrite IH]. Qed.

Lemma append_assoc (a b c : string) : (a ++ b) ++ c = a ++ (b ++ c).
Proof. induction a as [|x a IH]; simpl; [reflexivity | now rewrite IH]. Qed.

Lemma append_snoc (cur : string) (c : ascii) (s : string) :
  (cur ++ String c "") ++ s = cur ++ String c s.
Proof. now rewrite append_assoc. Qed.

Lemma split_from_cons (sep : string) (c : ascii) (s cur : string) :
  split_from sep (String c s) 0 cur =
  if prefix sep (String c s)
  then cur :: split_from sep s (String.length sep - 1) ""
  else split_from sep s 0 (cur ++ String c "").
Proof. reflexivity. Qed.

Lemma split_from_length (sep s : string) :
  forall skip cur, (1 <= List.length (split_from sep s skip cur))%nat.
Proof.
  induction s as [|c s IH]; intros skip cur.
  - simpl. lia.
  - destruct skip as [|k].
    + rewrite split_from_cons. destruct (prefix sep (String c s)).
      * simpl. lia.
      * apply IH.
    + simpl. apply IH.
Qed.

Lemma contains_cons (sep : string) (c : ascii) (s : string) :
  contains sep (String c s) = prefix sep (String c s) || contains sep s.
Proof. reflexivity. Qed.

Lemma split_from_absent (sep s : string) :
  forall cur, contains sep s = false -> split_from sep s 0 cur = [cur ++ s].
Proof.
  induction s as [|c s IH]; intros cur H.
  - simpl. now rewrite append_empty_r.
  - rewrite contains_cons in H. apply orb_false_iff in H. destruct H as [Hp Hc].
    rewrite split_from_cons, Hp, (IH _ Hc), append_snoc. reflexivity.
Qed.

Lemma split_from_present (sep s : string) :
  sep <> "" ->
  forall cur, contains sep s = true ->
  (2 <= List.length (split_from sep s 0 cur))%nat.
Proof.
  intros Hsep. induction s as [|c s IH]; intros cur H.
  - destruct sep; [congruence | discriminate H].
  - rewrite contains_cons in H. rewrite split_from_cons.
    destruct (prefix sep (String c s)) eqn:Hp.
    + pose proof (split_from_length sep s (String.length sep - 1) "").
      simpl. lia.
    + simpl in H. now apply IH.
Qed.

Lemma split_absent (sep s : string) :
  contains sep s = false -> split sep s = [s].
Proof. intros H. unfold split. now rewrite split_from_absent. Qed.

Lemma split_nonempty (sep s : string) : split sep s <> [].
Proof.
  pose proof (split_from_length sep s 0 ""). unfold split.
  destruct (split_from sep s 0 ""); simpl in *; [lia | discriminate].
Qed.

Lemma split_second (sep s : string) :
  sep <> "" ->
  nth_error (split sep s) 1 = None <-> contains sep s = false.
Proof.
  intros Hsep. split; intros H.
  - destruct (contains sep s) eqn:Hc; [|reflexivity].
    pose proof (split_from_present sep s Hsep "" Hc) as Hl.
    apply nth_error_None in H. unfold split in H. lia.
  - now rewrite split_absent.
Qed.

Lemma split_first (sep s : string) : exists piece, nth_error (split sep s) 0 = Some piece.
Proof.
  pose proof (split_nonempty sep s).
  destruct (split sep s) as [|x l]; [congruence | now exists x].
Qed.

(** Splitting on one character: the pieces joined by the character give
    the text back, and there is one more piece than separators. *)
Lemma prefix_char (c d : ascii) (s : string) :
  prefix (String c "") (String d s) = Ascii.eqb c d.
Proof.
  simpl. destruct (ascii_dec c d) as [->|Hn].
  - rewrite Ascii.eqb_refl. now destruct s.
  - symmetry. now apply Ascii.eqb_neq.
Qed.

Lemma join_split_from_char (c : ascii) (s : string) :
  forall cur, join (String c "") (split_from (String c "") s 0 cur) = cur ++ s.
Proof.
  induction s as [|d s IH]; intros cur.
  - simpl. now rewrite append_empty_r.
  - rewrite split_from_cons, prefix_char. destruct (Ascii.eqb c d) eqn:E.
    + apply Ascii.eqb_eq in E. subst d. simpl String.length. simpl Nat.sub.
      specialize (IH ""). unfold join in *. simpl String.concat.
      destruct (split_from (String c "") s 0 "") eqn:Es.
      * pose proof (split_from_length (String c "") s 0 ""). rewrite Es in H.
        simpl in H. lia.
      * rewrite IH. reflexivity.
    + rewrite IH. apply append_snoc.
Qed.

Lemma length_split_from_char (c : ascii) (s : string) :
  forall cur,
  List.length (split_from (String c "") s 0 cur) = S (count_char c s).
Proof.
  induction s as [|d s IH]; intros cur.
  - reflexivity.
  - rewrite split_from_cons, prefix_char. simpl count_char.
    destruct (Ascii.eqb c d).
    + simpl. now rewrite IH.
    + now rewrite IH.
Qed.

(** *** Running computations *)

Lemma bind_ok {A B : Type} (m : M A) (k : A -> M B) (st st' : State) (b : B) :
  bind m k st = (Ok b, st') ->
  exists a st1, m st = (Ok a, st1) /\ k a st1 = (Ok b, st').
Proof.
  unfold bind. destruct (m st) as [[a|e] st1]; intros H.
  - now exists a, st1.
  - discriminate H.
Qed.

Lemma bind_raise {A B : Type} (m : M A) (k : A -> M B) (st st' : State) (e : exn) :
  m st = (Raise e, st') -> bind m k st = (Raise e, st').
Proof. intros H. unfold bind. now rewrite H. Qed.

Lemma bind_step {A B : Type} (m : M A) (k : A -> M B) (st st1 : State) (a : A) :
  m st = (Ok a, st1) -> bind m k st = k a st1.
Proof. intros H. unfold bind. now rewrite H. Qed.

Lemma index_ok {A : Type} (l : list A) (i : nat) (st st' : State) (a : A) :
  index l i st = (Ok a, st') -> st' = st /\ nth_error l i = Some a.
Proof.
  unfold index. destruct (nth_error l i); intros H; inversion H; auto.
Qed.

Lemma lookup_ok {A : Type} (field : option A) (st st' : State) (a : A) :
  lookup field st = (Ok a, st') -> st' = st /\ field = Some a.
Proof.
  unfold lookup. destruct field; intros H; inversion H; auto.
Qed.

Lemma load_prompts_frame (file_name : string) (st st' : State) (l : list string) :
  load_prompts_from_yaml file_name st = (Ok l, st') ->
  messages_history st' = messages_history st /\ world st' = world st
  /\ publication st' = publication st.
Proof.
  unfold load_prompts_from_yaml. destruct (read_yaml file_name); intros H.
  - inversion H. auto.
  - inversion H. auto.
Qed.

(** Peels the first [bind] off a successful run. *)
Tactic Notation "step" hyp(H) "as" ident(a) ident(s) ident(R) :=
  apply bind_ok in H; destruct H as (a & s & R & H).

(** Consumes a run of a state-only primitive. *)
Ltac prim R := inversion R; subst; clear R; simpl in *.

(** *** The two query functions *)

Lemma query_gpt_agent_ok (prompt : string) (st st' : State) (r : string) :
  query_gpt_agent prompt st = (Ok r, st') ->
  messages_history st' = (messages_history st ++ [mkTurn user prompt])%list
  /\ publication st' = publication st.
Proof.
  unfold query_gpt_agent.
  destruct (falsy (getenv "API_KEY_AGENT")); [discriminate|].
  destruct (falsy (getenv "ORGANIZATION")); [discriminate|].
  intros H. step H as u s R. prim R. step H as mh s R. prim R.
  step H as res s R. unfold create in R. simpl in R.
  destruct (chat_completions_create _ _ _ _) as [res' w]. prim R.
  destruct res.
  - prim H. auto.
  - step H as u s R. prim R. prim H. auto.
Qed.

Lemma query_gpt_assistant_ok (prompt : string) (st st' : State) (r : string) :
  query_gpt_assistant prompt st = (Ok r, st') ->
  messages_history st' = messages_history st
  /\ publication st' = publication st
  /\ assistant_answer r.
Proof.
  unfold query_gpt_assistant.
  destruct (falsy (getenv "API_KEY_ASSISTANT")); [discriminate|].
  destruct (falsy (getenv "ORGANIZATION")); [discriminate|].
  intros H. step H as res s R.
  unfold create in R.
  destruct (chat_completions_create _ _ _ _) as [res' w] eqn:E. prim R.
  assert (V : assistant_answer (answer_text res)).
  { exists prompt, (world st). now rewrite E. }
  destruct res.
  - prim H. auto.
  - step H as u s R. prim R. prim H. auto.
Qed.

(** *** Computations that always return *)

Lemma returns_ret {A : Type} (a : A) : returns (ret a).
Proof. intros st. now exists a, st. Qed.

Lemma returns_bind {A B : Type} (m : M A) (k : A -> M B) :
  returns m -> (forall a, returns (k a)) -> returns (bind m k).
Proof.
  intros Hm Hk st. destruct (Hm st) as (a & s1 & E).
  destruct (Hk a s1) as (b & s2 & E2). exists b, s2.
  now rewrite (bind_step m k st s1 a E).
Qed.

Lemma returns_print (text : string) : returns (print text).
Proof. intros st. eexists. eexists. reflexivity. Qed.

Lemma returns_append (t : Turn) : returns (messages_history_append t).
Proof. intros st. eexists. eexists. reflexivity. Qed.

Lemma returns_get_publication : returns get_publication.
Proof. intros st. eexists. eexists. reflexivity. Qed.

Lemma returns_index {A : Type} (l : list A) (i : nat) :
  (i < List.length l)%nat -> returns (index l i).
Proof.
  intros H st. unfold index. destruct (nth_error l i) as [a|] eqn:E.
  - now exists a, st.
  - apply nth_error_None in E. lia.
Qed.

Lemma returns_load_prompts (file_name : string) :
  returns (load_prompts_from_yaml file_name).
Proof.
  intros st. unfold load_prompts_from_yaml.
  destruct (read_yaml file_name); eexists; eexists; reflexivity.
Qed.

Lemma returns_query_gpt_agent (prompt : string) :
  falsy (getenv "API_KEY_AGENT") = false ->
  falsy (getenv "ORGANIZATION") = false ->
  returns (query_gpt_agent prompt).
Proof.
  intros Hk Ho st. unfold query_gpt_agent. rewrite Hk, Ho.
  unfold bind, messages_history_append, get_messages_history, create, print, ret.
  cbn [world stdout messages_history publication].
  destruct (chat_completions_create _ _ _ _) as [[text|e] w];
    eexists; eexists; reflexivity.
Qed.

Lemma returns_query_gpt_assistant (prompt : string) :
  falsy (getenv "API_KEY_ASSISTANT") = false ->
  falsy (getenv "ORGANIZATION") = false ->
  returns (query_gpt_assistant prompt).
Proof.
  intros Hk Ho st. unfold query_gpt_assistant. rewrite Hk, Ho.
  unfold bind, create, print, ret.
  destruct (chat_completions_create _ _ _ _) as [[text|e] w];
    eexists; eexists; reflexivity.
Qed.

(** Proves that a sequence of statements returns, statement by statement. *)
Ltac returns_tac :=
  repeat first
    [ apply returns_ret
    | apply returns_print
    | apply returns_append
    | apply returns_get_publication
    | apply returns_index; lia
    | apply returns_query_gpt_agent; assumption
    | apply returns_query_gpt_assistant; assumption
    | apply returns_bind; [|intros ?] ].

(** *** The extraction stages *)

(** Peels one statement off a successful run and records what it did to
    the history. *)
Ltac peel H :=
  let a := fresh "a" in
  let s := fresh "s" in
  let R := fresh "R" in
  apply bind_ok in H; destruct H as (a & s & R & H);
  first
    [ apply index_ok in R; destruct R as [-> R]
    | apply query_gpt_agent_ok in R; destruct R as [R ?]
    | apply query_gpt_assistant_ok in R; destruct R as (R & ? & ?)
    | inversion R; subst; clear R;
      cbn [world stdout messages_history publication] in * ].

(** Ends a successful run at its [ret] and rewrites the history with the
    facts recorded on the way. *)
Ltac close_run H :=
  inversion H; subst; clear H;
  cbn [world stdout messages_history publication];
  repeat match goal with
         | E : messages_history _ = _ |- _ => rewrite E; clear E
         end;
  rewrite <- ?app_assoc; cbn [app].

Lemma extract_stage1_ok (pa pb : list string) (st st' : State) (r : string) :
  extract_stage1 pa pb st = (Ok r, st') ->
  exists prompt,
    messages_history st' =
      (messages_history st ++ [mkTurn user prompt; mkTurn assistant r])%list
    /\ assistant_answer r.
Proof.
  unfold extract_stage1. intros H. repeat peel H.
  close_run H. eexists. split; [reflexivity | assumption].
Qed.

Lemma extract_stage2_ok (pa pb : list string) (r1 : string) (st st' : State) (r : string) :
  extract_stage2 pa pb r1 st = (Ok r, st') ->
  exists prompt,
    messages_history st' =
      (messages_history st ++ [mkTurn user prompt; mkTurn assistant r])%list
    /\ assistant_answer r.
Proof.
  unfold extract_stage2. intros H. repeat peel H.
  close_run H. eexists. split; [reflexivity | assumption].
Qed.

Lemma extract_stage3_ok (pa pb : list string) (r2 : string) (st st' : State) (r : string) :
  extract_stage3 pa pb r2 st = (Ok r, st') ->
  exists prompt,
    messages_history st' =
      (messages_history st ++ [mkTurn user prompt; mkTurn assistant r])%list
    /\ assistant_answer r.
Proof.
  unfold extract_stage3. intros H. repeat peel H.
  close_run H. eexists. split; [reflexivity | assumption].
Qed.

Lemma extract_begin_ok (st st' : State) (prompts : list string * list string) :
  extract_begin st = (Ok prompts, st') ->
  messages_history st' = (messages_history st ++ [agent_system_turn])%list.
Proof.
  unfold extract_begin. intros H.
  apply bind_ok in H. destruct H as (pa & s1 & R1 & H).
  apply bind_ok in H. destruct H as (pb & s2 & R2 & H).
  apply load_prompts_frame in R1. apply load_prompts_frame in R2.
  destruct R1 as (E1 & _). destruct R2 as (E2 & _).
  repeat peel H. inversion H; subst; clear H. cbn. now rewrite E2, E1.
Qed.

Lemma extract_stage1_returns (pa pb : list string) :
  falsy (getenv "API_KEY_AGENT") = false ->
  falsy (getenv "API_KEY_ASSISTANT") = false ->
  falsy (getenv "ORGANIZATION") = false ->
  (3 <= List.length pa)%nat -> (3 <= List.length pb)%nat ->
  returns (extract_stage1 pa pb).
Proof. intros Hk Ha Ho La Lb. unfold extract_stage1. returns_tac. Qed.

Lemma extract_stage2_returns (pa pb : list string) (response1 : string) :
  falsy (getenv "API_KEY_AGENT") = false ->
  falsy (getenv "API_KEY_ASSISTANT") = false ->
  falsy (getenv "ORGANIZATION") = false ->
  (3 <= List.length pa)%nat -> (3 <= List.length pb)%nat ->
  returns (extract_stage2 pa pb response1).
Proof. intros Hk Ha Ho La Lb. unfold extract_stage2. returns_tac. Qed.

Lemma extract_stage3_returns (pa pb : list string) (response2 : string) :
  falsy (getenv "API_KEY_AGENT") = false ->
  falsy (getenv "API_KEY_ASSISTANT") = false ->
  falsy (getenv "ORGANIZATION") = false ->
  (3 <= List.length pa)%nat -> (3 <= List.length pb)%nat ->
  returns (extract_stage3 pa pb response2).
Proof. intros Hk Ha Ho La Lb. unfold extract_stage3. returns_tac. Qed.

Lemma extract_begin_returns (st : State) :
  extraction_ready ->
  exists pa pb st',
    extract_begin st = (Ok (pa, pb), st')
    /\ (3 <= List.length pa)%nat /\ (3 <= List.length pb)%nat.
Proof.
  intros (_ & _ & _ & (la & Ea & La) & (lb & Eb & Lb)).
  unfold extract_begin, load_prompts_from_yaml. rewrite Ea, Eb.
  exists (map strip la), (map strip lb). eexists.
  split; [reflexivity|]. now rewrite !length_map.
Qed.

(** With the credentials set and three templates in each prompt file,
    every prefix of the extraction, and the extraction itself, returns. *)
Lemma extract_stages_returns (n : nat) : extraction_ready -> returns (extract_stages n).
Proof.
  intros R st. destruct (extract_begin_returns st R) as (pa & pb & s0 & E & La & Lb).
  destruct R as (Hk & Ha & Ho & _).
  unfold extract_stages. rewrite (bind_step _ _ _ _ _ E).
  pose proof (extract_stage1_returns pa pb Hk Ha Ho La Lb) as R1.
  pose proof (fun r => extract_stage2_returns pa pb r Hk Ha Ho La Lb) as R2.
  pose proof (fun r => extract_stage3_returns pa pb r Hk Ha Ho La Lb) as R3.
  destruct n as [|[|[|n]]].
  - apply returns_ret.
  - apply returns_bind; [exact R1 | intros; apply returns_ret].
  - apply returns_bind; [exact R1 | intros].
    apply returns_bind; [apply R2 | intros; apply returns_ret].
  - apply returns_bind; [exact R1 | intros].
    apply returns_bind; [apply R2 | intros].
    apply returns_bind; [apply R3 | intros; apply returns_ret].
Qed.

Lemma extract_topics_one_returns : extraction_ready -> returns extract_topics_one.
Proof.
  intros R st. destruct (extract_begin_returns st R) as (pa & pb & s0 & E & La & Lb).
  destruct R as (Hk & Ha & Ho & _).
  unfold extract_topics_one. rewrite (bind_step _ _ _ _ _ E).
  apply returns_bind; [now apply extract_stage1_returns | intros].
  apply returns_bind; [now apply extract_stage2_returns | intros].
  apply returns_bind; [now apply extract_stage3_returns | intros].
  apply returns_ret.
Qed.

(** C5.  With the credentials set and three templates in each prompt file
    the first [n] extraction stages complete.  After [n] completed
    extraction stages (1 <= n <= 3) the history
    has gained the initial system turn followed by, for every stage, the
    agent prompt as a user turn and the checked answer as an assistant
    turn: exactly [n] assistant turns, whose contents are the [n] answers
    of the assistant role in order, and one system turn.  On a history
    that was empty before (as [extract_topics_all] creates it), that is the
    whole history: it starts with the system turn, has exactly [n]
    assistant turns, and each of them holds an answer of the assistant
    role, never the agent's own text. *)
Theorem extract_stages_ledger (n : nat) (st : State) :
  (1 <= n <= 3)%nat ->
  (extraction_ready ->
   exists responses st', extract_stages n st = (Ok responses, st'))
  /\
  forall responses st',
  extract_stages n st = (Ok responses, st') ->
  exists prompts,
    let appended := agent_system_turn :: dialogue prompts responses in
    List.length prompts = n
    /\ List.length responses = n
    /\ messages_history st' = (messages_history st ++ appended)%list
    /\ map content (filter (is_role assistant) appended) = responses
    /\ filter (is_role system) appended = [agent_system_turn]
    /\ Forall assistant_answer responses
    /\ (messages_history st = [] ->
        List.length (filter (is_role assistant) (messages_history st')) = n
        /\ hd_error (messages_history st') = Some agent_system_turn
        /\ Forall (fun t => is_role assistant t = true -> assistant_answer (content t))
                  (messages_history st')).
Proof.
  intros Hn. split.
  { intros R. exact (extract_stages_returns n R st). }
  intros responses st' H. unfold extract_stages in H.
  apply bind_ok in H. destruct H as ([pa pb] & s0 & B & H).
  apply extract_begin_ok in B.
  assert (Hcases : n = 1%nat \/ n = 2%nat \/ n = 3%nat) by lia.
  destruct Hcases as [-> | [-> | ->]].
  - apply bind_ok in H. destruct H as (r1 & s1 & R1 & H).
    apply extract_stage1_ok in R1. destruct R1 as (p1 & E1 & V1).
    inversion H; subst; clear H.
    exists [p1]. cbn zeta. rewrite E1, B, <- app_assoc.
    repeat split; auto.
    all: match goal with E0 : messages_history _ = [] |- _ => rewrite E0 end.
    all: cbn; auto.
    repeat constructor; cbn; auto; discriminate.
  - apply bind_ok in H. destruct H as (r1 & s1 & R1 & H).
    apply extract_stage1_ok in R1. destruct R1 as (p1 & E1 & V1).
    apply bind_ok in H. destruct H as (r2 & s2 & R2 & H).
    apply extract_stage2_ok in R2. destruct R2 as (p2 & E2 & V2).
    inversion H; subst; clear H.
    exists [p1; p2]. cbn zeta. rewrite E2, E1, B, <- !app_assoc.
    repeat split; auto.
    all: match goal with E0 : messages_history _ = [] |- _ => rewrite E0 end.
    all: cbn; auto.
    repeat constructor; cbn; auto; discriminate.
  - apply bind_ok in H. destruct H as (r1 & s1 & R1 & H).
    apply extract_stage1_ok in R1. destruct R1 as (p1 & E1 & V1).
    apply bind_ok in H. destruct H as (r2 & s2 & R2 & H).
    apply extract_stage2_ok in R2. destruct R2 as (p2 & E2 & V2).
    apply bind_ok in H. destruct H as (r3 & s3 & R3 & H).
    apply extract_stage3_ok in R3. destruct R3 as (p3 & E3 & V3).
    inversion H; subst; clear H.
    exists [p1; p2; p3]. cbn zeta. rewrite E3, E2, E1, B, <- !app_assoc.
    repeat split; auto.
    all: match goal with E0 : messages_history _ = [] |- _ => rewrite E0 end.
    all: cbn; auto.
    repeat constructor; cbn; auto; discriminate.
Qed.

(** What a returning query has asked of the service. *)
Lemma query_gpt_agent_call (prompt : string) (st st' : State) (r : string) :
  query_gpt_agent prompt st = (Ok r, st') ->
  exists res,
    chat_completions_create
      (env_text (getenv "API_KEY_AGENT")) (env_text (getenv "ORGANIZATION"))
      (messages_history st ++ [mkTurn user prompt])%list (world st)
    = (res, world st')
    /\ r = answer_text res
    /\ messages_history st' = (messages_history st ++ [mkTurn user prompt])%list.
Proof.
  unfold query_gpt_agent.
  destruct (falsy (getenv "API_KEY_AGENT")); [discriminate|].
  destruct (falsy (getenv "ORGANIZATION")); [discriminate|].
  intros H. step H as u s R. prim R. step H as mh s R. prim R.
  step H as res s R. unfold create in R. simpl in R.
  destruct (chat_completions_create _ _ _ _) as [res' w] eqn:E. prim R.
  exists res. destruct res.
  - prim H. auto.
  - step H as u s R. prim R. prim H. auto.
Qed.

Lemma query_gpt_assistant_call (prompt : string) (st st' : State) (r : string) :
  query_gpt_assistant prompt st = (Ok r, st') ->
  exists res,
    chat_completions_create
      (env_text (getenv "API_KEY_ASSISTANT")) (env_text (getenv "ORGANIZATION"))
      [assistant_system_turn; mkTurn user prompt] (world st)
    = (res, world st')
    /\ r = answer_text res
    /\ messages_history st' = messages_history st.
Proof.
  unfold query_gpt_assistant.
  destruct (falsy (getenv "API_KEY_ASSISTANT")); [discriminate|].
  destruct (falsy (getenv "ORGANIZATION")); [discriminate|].
  intros H. step H as res s R. unfold create in R.
  destruct (chat_completions_create _ _ _ _) as [res' w] eqn:E. prim R.
  exists res. destruct res.
  - prim H. auto.
  - step H as u s R. prim R. prim H. auto.
Qed.

(** The third stage, call by call: the agent is asked with the history
    and the third template filled with the checked answer of the second
    stage; the assistant is asked to check what the agent answered; the
    checked answer is appended and returned. *)
Lemma extract_stage3_call (pa pb : list string) (response2 : string)
  (st st' : State) (r : string) :
  extract_stage3 pa pb response2 st = (Ok r, st') ->
  exists template template_a ra w1 rv,
    nth_error pa 2 = Some template
    /\ nth_error pb 2 = Some template_a
    /\ chat_completions_create
         (env_text (getenv "API_KEY_AGENT")) (env_text (getenv "ORGANIZATION"))
         (messages_history st
          ++ [mkTurn user (replace "XXXresponse2XXX" response2 template)])%list
         (world st)
       = (ra, w1)
    /\ chat_completions_create
         (env_text (getenv "API_KEY_ASSISTANT")) (env_text (getenv "ORGANIZATION"))
         [assistant_system_turn;
          mkTurn user (replace "XXXagent3XXX" (answer_text ra) template_a)] w1
       = (rv, world st')
    /\ r = answer_text rv
    /\ messages_history st'
       = (messages_history st
          ++ [mkTurn user (replace "XXXresponse2XXX" response2 template);
              mkTurn assistant r])%list.
Proof.
  unfold extract_stage3. intros H.
  step H as template s R. apply index_ok in R. destruct R as [-> N1].
  step H as u s R. prim R.
  step H as agent3 s R. apply query_gpt_agent_call in R.
  destruct R as (ra & C1 & -> & M1). simpl in C1, M1.
  step H as u s1 R. prim R.
  step H as template_a s2 R. apply index_ok in R. destruct R as [-> N2].
  step H as u s2 R. prim R.
  step H as checked s2 R. apply query_gpt_assistant_call in R.
  destruct R as (rv & C2 & -> & M2). simpl in C2, M2.
  step H as u s3 R. prim R.
  step H as u s4 R. prim R. prim H.
  exists template, template_a, ra, (world s), rv.
  repeat split; auto.
  rewrite M2, M1, <- app_assoc. reflexivity.
Qed.

Lemma extract_begin_templates (st st' : State) (pa pb : list string) :
  extract_begin st = (Ok (pa, pb), st') ->
  pa = templates "prompts_gpt_agent.yaml"
  /\ pb = templates "prompts_gpt_assistant.yaml".
Proof.
  unfold extract_begin, load_prompts_from_yaml, templates. intros H.
  destruct (read_yaml "prompts_gpt_agent.yaml");
    destruct (read_yaml "prompts_gpt_assistant.yaml");
    cbv [bind ret print messages_history_append] in H;
    inversion H; auto.
Qed.

(** C8.  With the credentials set and three templates in each prompt file
    [extract_topics_one] returns.  When it returns, its result is the
    verified text of the third stage, split on commas with every piece
    stripped: piece by piece in the order of the text, one more piece than
    the text has commas, nothing merged or dropped.  The verified text of
    the third stage is what the assistant answered when it was asked, with
    its third template, to check the answer of the agent; that answer is
    what the agent gave to its third template filled with the verified text
    of the second stage, asked on the history of the two stages before.
    It is the content of the assistant turn appended last. *)
Theorem extract_topics_one_topics (st : State) :
  (extraction_ready ->
   exists topics st', extract_topics_one st = (Ok topics, st'))
  /\
  forall topics st',
  extract_topics_one st = (Ok topics, st') ->
  exists p1 p2 response1 response2 template template_a w ra w1 rv prompt3 response3,
    nth_error (templates "prompts_gpt_agent.yaml") 2 = Some template
    /\ nth_error (templates "prompts_gpt_assistant.yaml") 2 = Some template_a
    /\ prompt3 = replace "XXXresponse2XXX" response2 template
    /\ chat_completions_create
         (env_text (getenv "API_KEY_AGENT")) (env_text (getenv "ORGANIZATION"))
         (messages_history st
          ++ agent_system_turn :: dialogue [p1; p2] [response1; response2]
          ++ [mkTurn user prompt3])%list
         w
       = (ra, w1)
    /\ chat_completions_create
         (env_text (getenv "API_KEY_ASSISTANT")) (env_text (getenv "ORGANIZATION"))
         [assistant_system_turn;
          mkTurn user (replace "XXXagent3XXX" (answer_text ra) template_a)] w1
       = (rv, world st')
    /\ response3 = answer_text rv
    /\ messages_history st'
       = (messages_history st
          ++ agent_system_turn
             :: dialogue [p1; p2; prompt3] [response1; response2; response3])%list
    /\ last (messages_history st') agent_system_turn = mkTurn assistant response3
    /\ assistant_answer response3
    /\ topics = map strip (split "," response3)
    /\ List.length topics = S (count_char "," response3)
    /\ join "," (split "," response3) = response3.
Proof.
  split.
  { intros R. exact (extract_topics_one_returns R st). }
  intros topics st' H. unfold extract_topics_one in H.
  apply bind_ok in H. destruct H as ([pa pb] & s0 & B & H).
  apply bind_ok in H. destruct H as (r1 & s1 & R1 & H).
  apply bind_ok in H. destruct H as (r2 & s2 & R2 & H).
  apply bind_ok in H. destruct H as (r3 & s3 & R3 & H).
  inversion H; subst; clear H.
  pose proof (extract_begin_templates _ _ _ _ B) as [Pa Pb].
  apply extract_begin_ok in B.
  apply extract_stage1_ok in R1. destruct R1 as (p1 & E1 & _).
  apply extract_stage2_ok in R2. destruct R2 as (p2 & E2 & _).
  pose proof (extract_stage3_ok _ _ _ _ _ _ R3) as (p3 & E3 & V3).
  apply extract_stage3_call in R3.
  destruct R3 as (template & template_a & ra & w1 & rv & N1 & N2 & C1 & C2 & A & M).
  assert (Hh : messages_history s2
               = (messages_history st
                  ++ agent_system_turn :: dialogue [p1; p2] [r1; r2])%list).
  { rewrite E2, E1, B, <- !app_assoc. reflexivity. }
  exists p1, p2, r1, r2, template, template_a, (world s2), ra, w1, rv,
         (replace "XXXresponse2XXX" r2 template), r3.
  rewrite Hh in C1, M.
  split; [now rewrite <- Pa|]. split; [now rewrite <- Pb|].
  split; [reflexivity|].
  split; [rewrite <- C1; f_equal; now rewrite <- app_assoc|].
  split; [exact C2|]. split; [exact A|].
  split; [rewrite M, <- app_assoc; reflexivity|].
  split.
  { rewrite M.
    change [mkTurn user (replace "XXXresponse2XXX" r2 template); mkTurn assistant r3]
      with ([mkTurn user (replace "XXXresponse2XXX" r2 template)]
            ++ [mkTurn assistant r3])%list.
    rewrite app_assoc. apply last_last. }
  split; [exact V3|]. split; [reflexivity|]. split.
  - rewrite length_map. apply length_split_from_char.
  - apply join_split_from_char.
Qed.

(** *** Remote failures and the context of the assistant *)

(** C10.  When the credentials are present and the remote call of an agent
    query fails, [query_gpt_agent] returns the empty text, and the history
    it was given has gained exactly one turn, the user prompt, which stays
    there; the error is printed. *)
Theorem query_gpt_agent_remote_failure
  (prompt : string) (st : State) (message : string) (w : World) :
  falsy (getenv "API_KEY_AGENT") = false ->
  falsy (getenv "ORGANIZATION") = false ->
  chat_completions_create
    (env_text (getenv "API_KEY_AGENT")) (env_text (getenv "ORGANIZATION"))
    (messages_history st ++ [mkTurn user prompt])%list (world st)
  = (ApiError message, w) ->
  exists st',
    query_gpt_agent prompt st = (Ok EmptyString, st')
    /\ messages_history st' = (messages_history st ++ [mkTurn user prompt])%list
    /\ List.length (messages_history st') = S (List.length (messages_history st))
    /\ stdout st' = (stdout st ++ [Msg ("Error querying OpenAI API: " ++ message)])%list.
Proof.
  intros Hk Ho Hc. unfold query_gpt_agent. rewrite Hk, Ho.
  unfold bind, messages_history_append, get_messages_history, create, print, ret.
  cbn [world stdout messages_history publication]. rewrite Hc.
  eexists. split; [reflexivity|].
  cbn [world stdout messages_history publication].
  repeat split. rewrite length_app. simpl. lia.
Qed.

(** C6.  A call of [query_gpt_assistant] leaves [messages_history] as it
    was; its outcome, the state of the remote service and the output are
    the same whatever the history holds; and with the credentials present
    the messages it sends are the two-turn list made of the fixed system
    turn and the user prompt, built for that call. *)
Theorem query_gpt_assistant_frame (prompt : string) (st : State) :
  messages_history (snd (query_gpt_assistant prompt st)) = messages_history st
  /\ (forall mh,
        let run := query_gpt_assistant prompt (with_messages_history mh st) in
        fst run = fst (query_gpt_assistant prompt st)
        /\ world (snd run) = world (snd (query_gpt_assistant prompt st))
        /\ stdout (snd run) = stdout (snd (query_gpt_assistant prompt st))
        /\ messages_history (snd run) = mh)
  /\ (falsy (getenv "API_KEY_ASSISTANT") = false ->
      falsy (getenv "ORGANIZATION") = false ->
      let sent :=
        chat_completions_create
          (env_text (getenv "API_KEY_ASSISTANT")) (env_text (getenv "ORGANIZATION"))
          [assistant_system_turn; mkTurn user prompt] (world st) in
      fst (query_gpt_assistant prompt st) = Ok (answer_text (fst sent))
      /\ world (snd (query_gpt_assistant prompt st)) = snd sent).
Proof.
  unfold query_gpt_assistant, with_messages_history.
  destruct (falsy (getenv "API_KEY_ASSISTANT")).
  { cbn. repeat split; intros; discriminate. }
  destruct (falsy (getenv "ORGANIZATION")).
  { cbn. repeat split; intros; discriminate. }
  unfold bind, create, print, ret.
  cbn [world stdout messages_history publication].
  destruct (chat_completions_create _ _ _ (world st)) as [[text|e] w];
    cbn; repeat split; reflexivity.
Qed.

(** *** Counting and metrics *)

(** A successful parse leaves the state alone and yields two comma
    splits. *)
Lemma parse_ordered_ok (marker response : string) (st st' : State)
  (topics gold : list string) :
  parse_ordered marker response st = (Ok (topics, gold), st') ->
  st' = st /\ exists a b, topics = split "," a /\ gold = split "," b.
Proof.
  unfold parse_ordered. intros H.
  apply bind_ok in H. destruct H as (x & s1 & R1 & H). apply index_ok in R1.
  apply bind_ok in H. destruct H as (y & s2 & R2 & H). apply index_ok in R2.
  apply bind_ok in H. destruct H as (z & s3 & R3 & H). apply index_ok in R3.
  destruct R1 as [-> _]. destruct R2 as [-> _]. destruct R3 as [-> _].
  inversion H; subst. split; [reflexivity|]. eauto.
Qed.

(** C7.  [response_to_integer] never raises: on a text that [int] accepts
    it returns that integer and prints nothing; on any other text, such as
    ["abc"], it returns 0 after printing its message. *)
Theorem response_to_integer_total (response : string) (st : State) :
  (forall count,
      int_of_str int_max_str_digits response = Some count ->
      response_to_integer response st = (Ok count, st))
  /\ (int_of_str int_max_str_digits response = None ->
      response_to_integer response st =
        (Ok 0%Z,
         mkState (world st)
           (stdout st ++
            [Msg ("Error: The Evaluation procedure was partly not successful."
                  ++ "The evaluation count did not work as expected.")])%list
           (messages_history st) (publication st)))
  /\ (exists count st', response_to_integer response st = (Ok count, st'))
  /\ int_of_str int_max_str_digits "abc" = None
  /\ fst (response_to_integer "abc" st) = Ok 0%Z.
Proof.
  unfold response_to_integer.
  repeat split.
  - intros count H. now rewrite H.
  - intros H. now rewrite H.
  - destruct (int_of_str int_max_str_digits response); eexists; eexists; reflexivity.
Qed.

(** C9 (as the code has it).  Splitting on commas never yields the empty
    list (the empty text gives the one-element list of the empty text), so
    on lists obtained by such a split the precision and recall statements
    never take the branch of the sentinel: they print nothing and, for a
    count that [float] converts, give the count divided by the length; for
    an empty section of the answer the divisor is 1.  A verified response
    that is empty as a whole is not split on commas at all: it lacks the
    marker, and the parse raises [IndexError]. *)
Theorem split_comma_never_empty (text : string) (count : Z) (st : State) :
  (1 <= List.length (split "," text))%nat
  /\ split "," "" = [""]
  /\ snd (precision_of count (split "," text) st) = st
  /\ snd (recall_of count (split "," text) st) = st
  /\ (float_accepts count = true ->
      precision_of count (split "," text) st
        = (Ok (Fin (ratio count (List.length (split "," text)))), st)
      /\ recall_of count (split "," text) st
        = (Ok (Fin (ratio count (List.length (split "," text)))), st)
      /\ precision_of count (split "," "") st = (Ok (Fin (ratio count 1)), st)
      /\ recall_of count (split "," "") st = (Ok (Fin (ratio count 1)), st))
  /\ (forall marker response topics gold st',
        parse_ordered marker response st = (Ok (topics, gold), st') ->
        topics <> [] /\ gold <> []
        /\ snd (precision_of count topics st') = st'
        /\ snd (recall_of count gold st') = st'
        /\ (float_accepts count = true ->
            precision_of count topics st'
              = (Ok (Fin (ratio count (List.length topics))), st')
            /\ recall_of count gold st'
              = (Ok (Fin (ratio count (List.length gold))), st')))
  /\ (forall marker,
        marker <> "" -> parse_ordered marker "" st = (Raise IndexError, st)).
Proof.
  pose proof (split_from_length "," text 0 "") as Hl. fold (split "," text) in Hl.
  assert (Hz : (List.length (split "," text) =? 0)%nat = false)
    by (apply Nat.eqb_neq; lia).
  assert (P : forall (l : list string) (s : State),
             l <> [] ->
             precision_of count l s = (Ok (Fin (ratio count (List.length l))), s)
             /\ recall_of count l s = (Ok (Fin (ratio count (List.length l))), s)).
  { intros l s N. unfold precision_of, recall_of.
    destruct l; [congruence | split; reflexivity]. }
  assert (Nt : split "," text <> []) by apply split_nonempty.
  destruct (P (split "," text) st Nt) as [P1 P2].
  split; [exact Hl|]. split; [reflexivity|].
  split; [now rewrite P1|]. split; [now rewrite P2|].
  split; [intros _; repeat split; auto|]. split.
  - intros marker response topics gold st' H.
    apply parse_ordered_ok in H. destruct H as (_ & a & b & -> & ->).
    pose proof (split_nonempty "," a) as Na. pose proof (split_nonempty "," b) as Nb.
    destruct (P (split "," a) st' Na) as [Q1 _].
    destruct (P (split "," b) st' Nb) as [_ Q2].
    split; [exact Na|]. split; [exact Nb|].
    split; [now rewrite Q1|]. split; [now rewrite Q2|].
    intros _. split; assumption.
  - intros marker N. destruct marker as [|c marker]; [congruence|].
    unfold parse_ordered. rewrite split_absent by reflexivity. reflexivity.
Qed.

(** C3 (as the code has it).  The parse of a checked ordering answer
    succeeds, without touching the state, when the candidate marker and
    ["Human expert result:"] both occur in the answer.  When one of them
    is absent, the parse raises [IndexError]: no list is substituted, and
    whatever follows the parse is not run. *)
Theorem parse_ordered_markers (marker response : string) (st : State) :
  marker <> "" ->
  (contains marker response = true ->
   contains "Human expert result:" response = true ->
   exists topics gold,
     parse_ordered marker response st = (Ok (topics, gold), st)
     /\ topics <> [] /\ gold <> [])
  /\ (contains marker response = false
      \/ contains "Human expert result:" response = false ->
      parse_ordered marker response st = (Raise IndexError, st)
      /\ forall (B : Type) (k : list string * list string -> M B),
           bind (parse_ordered marker response) k st = (Raise IndexError, st)).
Proof.
  intros Hm.
  assert (Hh : "Human expert result:" <> "") by discriminate.
  split.
  - intros C1 C2. unfold parse_ordered, bind, index.
    destruct (nth_error (split marker response) 1) as [a|] eqn:E1.
    2:{ apply (split_second marker response Hm) in E1. congruence. }
    destruct (split_first "Human expert result:" a) as (b & E0).
    destruct (nth_error (split "Human expert result:" response) 1) as [c|] eqn:E2.
    2:{ apply (split_second "Human expert result:" response Hh) in E2. congruence. }
    unfold ret. rewrite E0. eexists. eexists. split; [reflexivity|].
    split; apply split_nonempty.
  - intros C.
    assert (P : parse_ordered marker response st = (Raise IndexError, st)).
    { unfold parse_ordered, bind, index.
      destruct (nth_error (split marker response) 1) as [a|] eqn:E1.
      - destruct C as [C|C].
        + apply (split_second marker response Hm) in C. congruence.
        + destruct (split_first "Human expert result:" a) as (b & E0).
          unfold ret. rewrite E0.
          apply (split_second "Human expert result:" response Hh) in C.
          rewrite C. reflexivity.
      - reflexivity. }
    split; [exact P|]. intros B k. now apply bind_raise.
Qed.

(** *** Bounds of the metrics *)

Lemma ratio_zero (n : nat) : ratio 0 n == 0.
Proof. unfold ratio. unfold Qdiv. apply Qmult_0_l. Qed.

Lemma inject_nat_pos (n : nat) : (0 < n)%nat -> 0 < inject_Z (Z.of_nat n).
Proof. intros H. change 0 with (inject_Z 0). rewrite <- Zlt_Qlt. lia. Qed.

Lemma ratio_bounds (c : Z) (n : nat) :
  (0 < n)%nat -> (0 <= c <= Z.of_nat n)%Z -> 0 <= ratio c n <= 1.
Proof.
  intros Hn [H0 H1]. pose proof (inject_nat_pos n Hn) as Hp. unfold ratio. split.
  - apply Qle_shift_div_l; [exact Hp|]. rewrite Qmult_0_l.
    change 0 with (inject_Z 0). now rewrite <- Zle_Qle.
  - apply Qle_shift_div_r; [exact Hp|]. rewrite Qmult_1_l. now rewrite <- Zle_Qle.
Qed.

Lemma ratio_pos (c : Z) (n : nat) : (0 < n)%nat -> (0 < c)%Z -> 0 < ratio c n.
Proof.
  intros Hn Hc. pose proof (inject_nat_pos n Hn) as Hp. unfold ratio.
  apply Qlt_shift_div_l; [exact Hp|]. rewrite Qmult_0_l.
  change 0 with (inject_Z 0). now rewrite <- Zlt_Qlt.
Qed.

Lemma inv_ge_1 (p : Q) : 0 < p -> p <= 1 -> 1 <= / p.
Proof.
  intros Hp H1. apply Qle_shift_inv_l; [exact Hp|]. now rewrite Qmult_1_l.
Qed.

(** The harmonic mean of two ratios in (0,1] lies in (0,1]. *)
Lemma hmean_pair (b : bool) (p r : Q) :
  0 < p -> p <= 1 -> 0 < r -> r <= 1 ->
  exists f, hmean b [Fin p; Fin r] = Ok (Fin f) /\ 0 < f /\ f <= 1.
Proof.
  intros Hp Hp1 Hr Hr1.
  assert (Lp : Qle_bool 0 p = true) by (apply Qle_bool_iff; lra).
  assert (Lr : Qle_bool 0 r = true) by (apply Qle_bool_iff; lra).
  assert (Zp : Qeq_bool p 0 = false).
  { destruct (Qeq_bool p 0) eqn:E; [|reflexivity]. apply Qeq_bool_iff in E. lra. }
  assert (Zr : Qeq_bool r 0 = false).
  { destruct (Qeq_bool r 0) eqn:E; [|reflexivity]. apply Qeq_bool_iff in E. lra. }
  unfold hmean. cbn [existsb is_nan lt0 eq0 orb]. rewrite Lp, Lr, Zp, Zr.
  cbn [negb orb sum_inv List.length].
  eexists. split; [reflexivity|].
  pose proof (inv_ge_1 p Hp Hp1). pose proof (inv_ge_1 r Hr Hr1).
  assert (Hd : 0 < / p + (/ r + 0)) by lra.
  change (inject_Z (Z.of_nat 2)) with (2 # 1).
  split.
  - apply Qlt_shift_div_l; [exact Hd|]. lra.
  - apply Qle_shift_div_r; [exact Hd|]. lra.
Qed.

(** C4 (as the code has it).  For non-empty candidate and gold lists and a
    match count between 0 and the length of the shorter list, the metric
    computation returns: precision and recall are the count divided by the
    two lengths and lie in [0,1]; F1 lies in [0,1] or is -1, and it is -1
    exactly when precision + recall = 0. *)
Theorem metrics_of_bounds (count : Z) (topics gold : list string) (st : State) :
  topics <> [] -> gold <> [] ->
  (0 <= count <= Z.of_nat (Nat.min (List.length topics) (List.length gold)))%Z ->
  exists p r f st',
    metrics_of count topics gold st = (Ok (Fin p, Fin r, Fin f), st')
    /\ p = ratio count (List.length topics)
    /\ r = ratio count (List.length gold)
    /\ 0 <= p <= 1 /\ 0 <= r <= 1
    /\ (0 <= f <= 1 \/ f == -1)
    /\ (f == -1 <-> p + r == 0).
Proof.
  intros Ht Hg Hc.
  assert (Lt : (0 < List.length topics)%nat) by (destruct topics; simpl; [congruence | lia]).
  assert (Lg : (0 < List.length gold)%nat) by (destruct gold; simpl; [congruence | lia]).
  assert (Zt : (List.length topics =? 0)%nat = false) by (apply Nat.eqb_neq; lia).
  assert (Zg : (List.length gold =? 0)%nat = false) by (apply Nat.eqb_neq; lia).
  pose proof (ratio_bounds count (List.length topics) Lt ltac:(lia)) as Bp.
  pose proof (ratio_bounds count (List.length gold) Lg ltac:(lia)) as Br.
  unfold metrics_of, precision_of, recall_of, f1_of. rewrite Zt, Zg.
  unfold bind at 1. unfold ret at 1. unfold bind at 1. unfold ret at 1.
  cbn [float_add eq0].
  set (p := ratio count (List.length topics)) in *.
  set (r := ratio count (List.length gold)) in *.
  assert (Hcases : (count = 0 \/ 0 < count)%Z) by lia.
  destruct Hcases as [E | Hpos].
  - assert (Ep : p == 0) by (unfold p; rewrite E; apply ratio_zero).
    assert (Er : r == 0) by (unfold r; rewrite E; apply ratio_zero).
    assert (Es : Qeq_bool (p + r) 0 = true) by (apply Qeq_bool_iff; lra).
    rewrite Es. exists p, r, (inject_Z (-1)). eexists.
    split; [reflexivity|]. repeat split; try tauto; try lra.
    right. reflexivity.
  - pose proof (ratio_pos count (List.length topics) Lt Hpos) as Pp.
    pose proof (ratio_pos count (List.length gold) Lg Hpos) as Pr.
    fold p in Pp. fold r in Pr.
    assert (Es : Qeq_bool (p + r) 0 = false).
    { destruct (Qeq_bool (p + r) 0) eqn:E; [|reflexivity].
      apply Qeq_bool_iff in E. lra. }
    rewrite Es.
    destruct (hmean_pair hmean_raises p r Pp (proj2 Bp) Pr (proj2 Br))
      as (f & Hf & F0 & F1).
    exists p, r, f, st. unfold bind, lift, ret. rewrite Hf.
    split; [reflexivity|]. repeat split; try tauto; try lra.
Qed.

(** *** The corpus-level means *)

(** The guard on the F1 lists: a list with an entry that is not [>= 0]
    gives -1 and the message, without calling [hmean]; otherwise the mean
    is what [hmean] gives. *)
Lemma f1_mean_guard (f1_list : list py_float) (st : State) :
  f1_mean f1_list st =
  if forallb ge0 f1_list then (hmean hmean_raises f1_list, st)
  else
    (Ok (Fin (inject_Z (-1))),
     mkState (world st)
       (stdout st ++
        [Msg "Error: Overall evaluation partly failed. F1 value of -1 means incorrect evaluation"])%list
       (messages_history st) (publication st)).
Proof. unfold f1_mean. destruct (forallb ge0 f1_list); reflexivity. Qed.

(** On a list of values that are all [>= 0], [hmean] does not raise. *)
Lemma hmean_nonnegative (a : list py_float) :
  forallb ge0 a = true -> exists x, hmean hmean_raises a = Ok x.
Proof.
  intros H. unfold hmean.
  assert (N : existsb is_nan a = false).
  { induction a as [|x a IH]; [reflexivity|]. simpl in *.
    apply andb_true_iff in H. destruct H as [Hx Ha].
    destruct x; [simpl; auto | discriminate]. }
  assert (L : existsb lt0 a = false).
  { induction a as [|x a IH]; [reflexivity|]. simpl in *.
    apply andb_true_iff in H. destruct H as [Hx Ha].
    destruct x; simpl in *; [rewrite Hx; simpl; auto | discriminate]. }
  rewrite N, L. destruct a; [eauto|]. destruct (existsb eq0 _); eauto.
Qed.

(** ** Further properties *)

(** *** Splitting at a known separator *)

Lemma prefix_app_self (sep t : string) : prefix sep (sep ++ t) = true.
Proof.
  induction sep as [|c sep IH]; simpl.
  - now destruct t.
  - destruct (ascii_dec c c); [exact IH | congruence].
Qed.

Lemma split_from_skip (sep u t cur : string) :
  split_from sep (u ++ t) (String.length u) cur = split_from sep t 0 cur.
Proof. induction u as [|c u IH]; simpl; [now destruct t | exact IH]. Qed.

Lemma prefix_other_char (c d : ascii) (sep s : string) :
  Ascii.eqb c d = false -> prefix (String c sep) (String d s) = false.
Proof.
  intros H. simpl. destruct (ascii_dec c d) as [->|]; [|reflexivity].
  now rewrite Ascii.eqb_refl in H.
Qed.

(** When the first character of the separator does not occur in [a], the
    first piece of [a ++ sep ++ t] is [a] and the rest is the split of [t]. *)
Lemma split_from_app_sep (c : ascii) (sep' a t : string) :
  count_char c a = 0%nat ->
  forall cur,
  split_from (String c sep') (a ++ String c sep' ++ t) 0 cur
  = (cur ++ a) :: split_from (String c sep') t 0 "".
Proof.
  intros H. induction a as [|d a IH]; intros cur.
  - change ("" ++ String c sep' ++ t) with (String c (sep' ++ t)).
    rewrite split_from_cons.
    change (String c (sep' ++ t)) with (String c sep' ++ t) at 1.
    rewrite prefix_app_self.
    change (String.length (String c sep') - 1)%nat with (String.length sep' - 0)%nat.
    rewrite Nat.sub_0_r, split_from_skip, append_empty_r. reflexivity.
  - simpl in H. destruct (Ascii.eqb c d) eqn:E; [discriminate H|].
    change (String d a ++ String c sep' ++ t)
      with (String d (a ++ String c sep' ++ t)).
    rewrite split_from_cons, (prefix_other_char c d sep' _ E).
    rewrite (IH H), append_snoc. reflexivity.
Qed.

Lemma split_app_sep (c : ascii) (sep' a t : string) :
  count_char c a = 0%nat ->
  split (String c sep') (a ++ String c sep' ++ t) = a :: split (String c sep') t.
Proof. intros H. unfold split. now rewrite split_from_app_sep. Qed.

Lemma split_from_cur (sep s : string) :
  forall cur,
  split_from sep s 0 cur
  = (cur ++ hd "" (split_from sep s 0 "")) :: tl (split_from sep s 0 "").
Proof.
  induction s as [|c s IH]; intros cur.
  - simpl. now rewrite append_empty_r.
  - rewrite !split_from_cons. destruct (prefix sep (String c s)).
    + simpl. now rewrite append_empty_r.
    + rewrite (IH (cur ++ String c "")), (IH ("" ++ String c "")).
      simpl. now rewrite append_snoc.
Qed.

Lemma count_char_app (c : ascii) (a b : string) :
  count_char c (a ++ b) = (count_char c a + count_char c b)%nat.
Proof. induction a as [|d a IH]; simpl; [reflexivity | rewrite IH; lia]. Qed.

Lemma join_cons2 (sep x y : string) (l : list string) :
  join sep (x :: y :: l) = x ++ sep ++ join sep (y :: l).
Proof. reflexivity. Qed.

(** X17.  Substituting a placeholder in a template.  When the template is
    [a ++ old ++ t] and the first character of the placeholder [old] does
    not occur in [a], the result is [a], then the value as it is, then the
    substitution applied to [t]: the value is not scanned again, even when
    it contains the placeholder.  A text in which the placeholder does not
    occur is returned unchanged. *)
Theorem replace_first_occurrence (c : ascii) (old' new a t : string) :
  count_char c a = 0%nat ->
  replace (String c old') new (a ++ String c old' ++ t)
    = a ++ new ++ replace (String c old') new t
  /\ (contains (String c old') t = false ->
      replace (String c old') new (a ++ String c old' ++ t) = a ++ new ++ t)
  /\ (contains (String c old') a = false ->
      replace (String c old') new a = a).
Proof.
  intros H.
  assert (E : replace (String c old') new (a ++ String c old' ++ t)
              = a ++ new ++ replace (String c old') new t).
  { unfold replace. rewrite (split_app_sep c old' a t H).
    pose proof (split_nonempty (String c old') t) as N.
    destruct (split (String c old') t) as [|y l]; [congruence|].
    apply join_cons2. }
  split; [exact E|]. split.
  - intros C. rewrite E. unfold replace. now rewrite (split_absent _ _ C).
  - intros C. unfold replace. now rewrite (split_absent _ _ C).
Qed.


(** *** Rendering a list and splitting it again *)

Lemma split_from_char_absent (c : ascii) (s : string) :
  count_char c s = 0%nat ->
  forall cur, split_from (String c "") s 0 cur = [cur ++ s].
Proof.
  induction s as [|d s IH]; intros H cur.
  - simpl. now rewrite append_empty_r.
  - simpl in H. destruct (Ascii.eqb c d) eqn:E; [discriminate H|].
    rewrite split_from_cons, prefix_char, E, (IH H), append_snoc. reflexivity.
Qed.

Lemma strip_leading_space (x : string) : strip (String " " x) = strip x.
Proof. reflexivity. Qed.

Lemma split_join_items (l : list string) :
  Forall (fun x => count_char "," x = 0%nat) l ->
  forall x, count_char "," x = 0%nat ->
  split "," (join ", " (x :: l)) = x :: map (append " ") l.
Proof.
  induction 1 as [|y r Hy Hr IH]; intros x Hx.
  - unfold split. simpl join. now rewrite (split_from_char_absent _ _ Hx).
  - rewrite join_cons2.
    change (x ++ ", " ++ join ", " (y :: r))
      with (x ++ "," ++ String " " (join ", " (y :: r))).
    rewrite (split_app_sep "," "" x _ Hx). f_equal.
    unfold split. rewrite split_from_cons.
    rewrite (prefix_other_char "," " " "" _ eq_refl).
    rewrite split_from_cur. fold (split "," (join ", " (y :: r))).
    rewrite (IH y Hy). reflexivity.
Qed.

(** X14.  A list of items none of which contains a comma, rendered by
    [list_to_comma_separated_string] and split on commas again, gives as
    many pieces as there were items, and after stripping the pieces are the
    stripped items, in order.  The empty list is the exception: it renders
    as the empty text, which splits into one empty piece. *)
Theorem split_join_round_trip (l : list string) :
  Forall (fun x => count_char "," x = 0%nat) l ->
  (l <> [] ->
   map strip (split "," (list_to_comma_separated_string l)) = map strip l
   /\ List.length (split "," (list_to_comma_separated_string l)) = List.length l)
  /\ split "," (list_to_comma_separated_string []) = [""].
Proof.
  intros H. split; [|reflexivity].
  intros N. destruct l as [|x l]; [congruence|].
  inversion H as [|? ? Hx Hl]; subst.
  unfold list_to_comma_separated_string. rewrite (split_join_items l Hl x Hx).
  split.
  - simpl. f_equal. rewrite map_map. apply map_ext. intros a.
    apply strip_leading_space.
  - simpl. now rewrite length_map.
Qed.

(** *** Parsing a well-formed ordering answer *)

(** X15.  A checked ordering answer of the expected shape is parsed into
    the lists it shows.  Let the answer be some text [a], the candidate
    marker, the text [x], ["Human expert result:"] and the text [y], where
    the first character of the marker does not occur in [a], no capital H
    occurs before ["Human expert result:"], the marker does not occur
    after its first occurrence and ["Human expert result:"] does not occur
    in [y].  Then the parse returns the comma split of [x] stripped and the
    comma split of [y] stripped, and leaves the state alone. *)
Theorem parse_ordered_well_formed
  (c : ascii) (marker' a x y : string) (st : State) :
  count_char c a = 0%nat ->
  count_char "H" (a ++ String c marker' ++ x) = 0%nat ->
  contains (String c marker') (x ++ "Human expert result:" ++ y) = false ->
  contains "Human expert result:" y = false ->
  parse_ordered (String c marker')
    (a ++ String c marker' ++ x ++ "Human expert result:" ++ y) st
  = (Ok (split "," (strip x), split "," (strip y)), st).
Proof.
  intros Ha HH Hm Hy.
  assert (Hx : count_char "H" x = 0%nat).
  { rewrite !count_char_app in HH. lia. }
  unfold parse_ordered.
  rewrite (split_app_sep c marker' a _ Ha), (split_absent _ _ Hm).
  unfold bind at 1. unfold index at 1. cbn [nth_error]. unfold ret at 1.
  rewrite (split_app_sep "H" "uman expert result:" x y Hx).
  unfold bind at 1. unfold index at 1. cbn [nth_error]. unfold ret at 1.
  replace (a ++ String c marker' ++ x ++ "Human expert result:" ++ y)
    with ((a ++ String c marker' ++ x) ++ "Human expert result:" ++ y)
    by (now rewrite !append_assoc).
  rewrite (split_app_sep "H" "uman expert result:" _ y HH), (split_absent _ _ Hy).
  reflexivity.
Qed.


(** *** Decimal numerals *)

Lemma all_digits_uint (d : Decimal.uint) :
  all_digits (NilEmpty.string_of_uint d) = true.
Proof. induction d; simpl; auto. Qed.

Lemma digit_not_space (c : ascii) (v : Z) :
  digit_of c = Some v -> int_isspace c = false.
Proof.
  unfold digit_of, int_isspace. intros H.
  destruct ((48 <=? nat_of_ascii c) && (nat_of_ascii c <=? 57))%nat eqn:E;
    [|discriminate H].
  apply andb_true_iff in E. destruct E as [E1 E2].
  apply Nat.leb_le in E1. apply Nat.leb_le in E2.
  repeat (apply orb_false_iff; split).
  - apply andb_false_iff. right. apply Nat.leb_gt. lia.
  - apply Nat.eqb_neq. lia.
  - apply Nat.eqb_neq. lia.
  - apply Nat.eqb_neq. lia.
Qed.

Lemma lstrip_digits (s : string) :
  all_digits s = true -> lstrip_with int_isspace s = s.
Proof.
  destruct s as [|c s]; [reflexivity|]. simpl.
  destruct (digit_of c) eqn:E; [|discriminate].
  intros _. now rewrite (digit_not_space c z E).
Qed.

Lemma rstrip_digits (s : string) :
  all_digits s = true -> rstrip_with int_isspace s = s.
Proof.
  induction s as [|c s IH]; [reflexivity|]. simpl.
  destruct (digit_of c) eqn:E; [|discriminate].
  intros H. rewrite (IH H). destruct s; [|reflexivity].
  now rewrite (digit_not_space c z E).
Qed.

Lemma int_digits_uint (d : Decimal.uint) :
  forall acc k prev,
  d <> Decimal.Nil \/ prev = true ->
  int_digits (NilEmpty.string_of_uint d) (Z.of_nat acc) k prev
  = Some (Z.of_nat (Nat.of_uint_acc d acc),
          (k + String.length (NilEmpty.string_of_uint d))%nat).
Proof.
  induction d; intros acc k prev H;
    try (cbn [NilEmpty.string_of_uint int_digits Nat.of_uint_acc String.length];
         change (digit_of "0") with (Some 0%Z);
         change (digit_of "1") with (Some 1%Z);
         change (digit_of "2") with (Some 2%Z);
         change (digit_of "3") with (Some 3%Z);
         change (digit_of "4") with (Some 4%Z);
         change (digit_of "5") with (Some 5%Z);
         change (digit_of "6") with (Some 6%Z);
         change (digit_of "7") with (Some 7%Z);
         change (digit_of "8") with (Some 8%Z);
         change (digit_of "9") with (Some 9%Z);
         cbv iota beta;
         match goal with
         | |- int_digits _ ?z _ _ = Some (Z.of_nat (Nat.of_uint_acc _ ?a), _) =>
             replace z with (Z.of_nat a)
               by (rewrite ?Nat.tail_mul_spec; lia)
         end;
         rewrite IHd by (right; reflexivity);
         f_equal; f_equal; lia).
  destruct H as [H|H]; [congruence|]. subst prev. simpl.
  f_equal. f_equal. lia.
Qed.

Lemma little_uint_not_nil (n : nat) :
  forall acc, acc <> Decimal.Nil -> Nat.to_little_uint n acc <> Decimal.Nil.
Proof.
  induction n as [|n IH]; intros acc H; simpl; [exact H|].
  apply IH. destruct acc; discriminate.
Qed.

Lemma uint_of_nat_not_nil (n : nat) : Nat.to_uint n <> Decimal.Nil.
Proof.
  intros E. unfold Nat.to_uint in E. apply rev_nil_inv in E.
  revert E. apply little_uint_not_nil. discriminate.
Qed.

Lemma int_digits_str_of_nat (n : nat) :
  int_digits (str_of_nat n) 0 0 false
  = Some (Z.of_nat n, String.length (str_of_nat n)).
Proof.
  unfold str_of_nat. change 0%Z with (Z.of_nat 0).
  rewrite (int_digits_uint (Nat.to_uint n) 0 0 false)
    by (left; apply uint_of_nat_not_nil).
  change (Nat.of_uint_acc (Nat.to_uint n) 0) with (Nat.of_uint (Nat.to_uint n)).
  now rewrite DecimalNat.Unsigned.of_to.
Qed.

Lemma first_digit_no_sign (s : string) (c : ascii) (v : Z) :
  digit_of c = Some v -> c <> "+"%char /\ c <> "-"%char.
Proof. intros H; split; intros ->; discriminate H. Qed.


Lemma strip_int_str_of_nat (n : nat) :
  strip_with int_isspace (str_of_nat n) = str_of_nat n.
Proof.
  unfold strip_with, str_of_nat.
  rewrite lstrip_digits by apply all_digits_uint.
  apply rstrip_digits, all_digits_uint.
Qed.

Lemma str_of_nat_first_digit (n : nat) :
  exists c s v, str_of_nat n = String c s /\ digit_of c = Some v.
Proof.
  unfold str_of_nat. pose proof (uint_of_nat_not_nil n) as H.
  destruct (Nat.to_uint n); [congruence| ..];
    cbn [NilEmpty.string_of_uint]; do 3 eexists; split; reflexivity.
Qed.

Lemma int_of_str_unsigned (limit : nat) (t : string) (c : ascii) (s : string) :
  strip_with int_isspace t = String c s ->
  c <> "+"%char -> c <> "-"%char ->
  int_of_str limit t
  = match int_digits (String c s) 0 0 false with
    | Some (v, n) =>
        if (negb (limit =? 0) && (limit <? n))%nat then None else Some v
    | None => None
    end.
Proof.
  intros E Np Nm. unfold int_of_str. rewrite E.
  destruct c as [[] [] [] [] [] [] [] []]; try reflexivity; congruence.
Qed.

Lemma int_of_str_numeral (limit n : nat) :
  limit = 0%nat \/ (String.length (str_of_nat n) <= limit)%nat ->
  int_of_str limit (str_of_nat n) = Some (Z.of_nat n)
  /\ int_of_str limit (String "-" (str_of_nat n)) = Some (- Z.of_nat n)%Z
  /\ int_of_str limit (String "+" (str_of_nat n)) = Some (Z.of_nat n).
Proof.
  intros L.
  assert (B : (negb (limit =? 0) && (limit <? String.length (str_of_nat n)))%nat
              = false).
  { destruct L as [->|L]; [reflexivity|].
    apply andb_false_iff. right. apply Nat.ltb_ge. exact L. }
  destruct (str_of_nat_first_digit n) as (c & s & v & E & D).
  destruct (first_digit_no_sign s c v D) as [Np Nm].
  assert (Sg : forall sign : ascii, digit_of sign = None ->
               strip_with int_isspace (String sign (str_of_nat n))
               = String sign (str_of_nat n) \/ int_isspace sign = true).
  { intros sign _. destruct (int_isspace sign) eqn:Es; [now right|left].
    unfold strip_with. cbn [lstrip_with]. rewrite Es. cbn [rstrip_with].
    pose proof (rstrip_digits (str_of_nat n)) as R.
    unfold str_of_nat in R at 1. rewrite R by apply all_digits_uint.
    rewrite E. reflexivity. }
  repeat split.
  - rewrite (int_of_str_unsigned limit (str_of_nat n) c s); auto.
    + rewrite <- E, int_digits_str_of_nat, B. reflexivity.
    + now rewrite strip_int_str_of_nat.
  - unfold int_of_str.
    destruct (Sg "-"%char eq_refl) as [S1|S1]; [|discriminate S1].
    rewrite S1. cbv iota beta. rewrite int_digits_str_of_nat, B. reflexivity.
  - unfold int_of_str.
    destruct (Sg "+"%char eq_refl) as [S1|S1]; [|discriminate S1].
    rewrite S1. cbv iota beta. rewrite int_digits_str_of_nat, B. reflexivity.
Qed.

(** X16.  The count stage reads decimal numerals back: for every natural
    number whose numeral fits the interpreter's digit limit,
    [response_to_integer] on the numeral returns the number, and on the
    numeral preceded by a minus sign its negation; nothing is printed. *)
Theorem response_to_integer_numeral (n : nat) (st : State) :
  int_max_str_digits = 0%nat
  \/ (String.length (str_of_nat n) <= int_max_str_digits)%nat ->
  response_to_integer (str_of_nat n) st = (Ok (Z.of_nat n), st)
  /\ response_to_integer (String "-" (str_of_nat n)) st = (Ok (- Z.of_nat n)%Z, st).
Proof.
  intros L. destruct (int_of_str_numeral int_max_str_digits n L) as (E1 & E2 & _).
  unfold response_to_integer. now rewrite E1, E2.
Qed.


(** *** The query functions: success and missing credentials *)

(** X1.  A successful agent query.  With the credentials set, when the
    remote call answers with a text, [query_gpt_agent] returns that text
    stripped; the messages it sent are the whole history followed by the
    new user prompt; afterwards the history holds exactly that list, and
    nothing was printed. *)
Theorem query_gpt_agent_success
  (prompt : string) (st : State) (text : string) (w : World) :
  falsy (getenv "API_KEY_AGENT") = false ->
  falsy (getenv "ORGANIZATION") = false ->
  chat_completions_create
    (env_text (getenv "API_KEY_AGENT")) (env_text (getenv "ORGANIZATION"))
    (messages_history st ++ [mkTurn user prompt])%list (world st)
  = (Completion text, w) ->
  query_gpt_agent prompt st
  = (Ok (strip text),
     mkState w (stdout st) (messages_history st ++ [mkTurn user prompt])%list
       (publication st)).
Proof.
  intros Hk Ho Hc. unfold query_gpt_agent. rewrite Hk, Ho.
  unfold bind, messages_history_append, get_messages_history, create, ret.
  cbn [world stdout messages_history publication]. rewrite Hc. reflexivity.
Qed.

(** X2.  A missing or empty credential is fatal before anything happens:
    when the key of the role or the organization is unset or empty, the
    query raises [ValueError] and the state is exactly as before, so no
    turn was appended and the remote service was not called. *)
Theorem query_without_credentials (prompt : string) (st : State) :
  (falsy (getenv "API_KEY_AGENT") = true \/ falsy (getenv "ORGANIZATION") = true ->
   query_gpt_agent prompt st = (Raise ValueError, st))
  /\ (falsy (getenv "API_KEY_ASSISTANT") = true \/ falsy (getenv "ORGANIZATION") = true ->
      query_gpt_assistant prompt st = (Raise ValueError, st)).
Proof.
  unfold query_gpt_agent, query_gpt_assistant. split; intros [H|H].
  - now rewrite H.
  - rewrite H. now destruct (falsy (getenv "API_KEY_AGENT")).
  - now rewrite H.
  - rewrite H. now destruct (falsy (getenv "API_KEY_ASSISTANT")).
Qed.

(** *** Pipelines that cannot start *)

(** X3.  When the agent's prompt file cannot be read, or holds no
    template, [extract_topics_one] raises [IndexError] at the first
    template access: the system turn has already been appended to the
    history, and the remote service was not called. *)
Theorem extract_topics_one_without_templates (st : State) :
  (exists message, read_yaml "prompts_gpt_agent.yaml" = YamlFailure message)
  \/ read_yaml "prompts_gpt_agent.yaml" = YamlPrompts [] ->
  exists st',
    extract_topics_one st = (Raise IndexError, st')
    /\ messages_history st' = (messages_history st ++ [agent_system_turn])%list
    /\ world st' = world st
    /\ publication st' = publication st.
Proof.
  intros H. unfold extract_topics_one, extract_begin, load_prompts_from_yaml.
  destruct H as [(message & E)|E]; rewrite E;
    destruct (read_yaml "prompts_gpt_assistant.yaml");
    eexists; (split; [reflexivity|]); cbn; auto.
Qed.

(** X6.  [eval_one] on a publication whose topics were never extracted
    (no ["skgc_topics"] key), with a readable prompt file for the agent and
    for the assistant: [KeyError] is raised before any remote call, and the
    history, the publication and the output are as before. *)
Theorem eval_one_without_topics (st : State) (l la : list string) :
  read_yaml "prompts_gpt_agent_eval.yaml" = YamlPrompts l -> l <> [] ->
  read_yaml "prompts_gpt_assistant_eval.yaml" = YamlPrompts la ->
  skgc_topics (publication st) = None ->
  eval_one st = (Raise KeyError, st).
Proof.
  intros E N Ea K. unfold eval_one, load_prompts_from_yaml, eval_stage1.
  rewrite E, Ea. destruct l as [|t l]; [congruence|].
  unfold bind, ret, index, get_publication, lookup. cbn. rewrite K.
  destruct st; reflexivity.
Qed.


(** *** Stripping *)

Lemma lstrip_head_clear (p : ascii -> bool) (s : string) :
  head_clear p (lstrip_with p s) = true.
Proof.
  induction s as [|c s IH]; [reflexivity|]. simpl.
  destruct (p c) eqn:E; [exact IH|]. simpl. now rewrite E.
Qed.

Lemma lstrip_fixed (p : ascii -> bool) (s : string) :
  head_clear p s = true -> lstrip_with p s = s.
Proof.
  destruct s as [|c s]; [reflexivity|]. simpl.
  now destruct (p c).
Qed.

Lemma rstrip_head_clear (p : ascii -> bool) (s : string) :
  head_clear p s = true -> head_clear p (rstrip_with p s) = true.
Proof.
  destruct s as [|c s]; [reflexivity|]. simpl. intros H.
  destruct (rstrip_with p s); [|exact H].
  destruct (p c) eqn:E; [reflexivity|]. simpl. now rewrite E.
Qed.

Lemma rstrip_last_clear (p : ascii -> bool) (s : string) :
  last_clear p (rstrip_with p s) = true.
Proof.
  induction s as [|c s IH]; [reflexivity|]. simpl.
  destruct (rstrip_with p s) as [|d r] eqn:E.
  - destruct (p c) eqn:Ec; [reflexivity|]. simpl. now rewrite Ec.
  - exact IH.
Qed.

Lemma rstrip_fixed (p : ascii -> bool) (s : string) :
  last_clear p s = true -> rstrip_with p s = s.
Proof.
  induction s as [|c s IH]; [reflexivity|]. intros H.
  destruct s as [|d s].
  - simpl in *. now destruct (p c).
  - change (last_clear p (String c (String d s))) with (last_clear p (String d s)) in H.
    change (rstrip_with p (String c (String d s)))
      with (match rstrip_with p (String d s) with
            | EmptyString => if p c then EmptyString else String c EmptyString
            | r => String c r
            end).
    now rewrite (IH H).
Qed.

(** Stripping leaves no white space at either end, and stripping again
    changes nothing. *)
Lemma strip_clear (s : string) :
  head_clear isspace (strip s) = true
  /\ last_clear isspace (strip s) = true
  /\ strip (strip s) = strip s.
Proof.
  unfold strip, strip_with.
  pose proof (rstrip_head_clear isspace _ (lstrip_head_clear isspace s)) as Hh.
  pose proof (rstrip_last_clear isspace (lstrip_with isspace s)) as Hl.
  repeat split; auto.
  rewrite (lstrip_fixed _ _ Hh). now apply rstrip_fixed.
Qed.


(** *** What extraction returns *)

Lemma extract_stage1_publication (pa pb : list string) (st st' : State) (r : string) :
  extract_stage1 pa pb st = (Ok r, st') -> publication st' = publication st.
Proof.
  unfold extract_stage1. intros H. repeat peel H.
  inversion H; subst; clear H. cbn. congruence.
Qed.

Lemma extract_stage2_publication (pa pb : list string) (r1 : string)
  (st st' : State) (r : string) :
  extract_stage2 pa pb r1 st = (Ok r, st') -> publication st' = publication st.
Proof.
  unfold extract_stage2. intros H. repeat peel H.
  inversion H; subst; clear H. cbn. congruence.
Qed.

Lemma extract_stage3_publication (pa pb : list string) (r2 : string)
  (st st' : State) (r : string) :
  extract_stage3 pa pb r2 st = (Ok r, st') -> publication st' = publication st.
Proof.
  unfold extract_stage3. intros H. repeat peel H.
  inversion H; subst; clear H. cbn. congruence.
Qed.

Lemma extract_begin_publication (st st' : State) (prompts : list string * list string) :
  extract_begin st = (Ok prompts, st') -> publication st' = publication st.
Proof.
  unfold extract_begin. intros H.
  apply bind_ok in H. destruct H as (pa & s1 & R1 & H).
  apply bind_ok in H. destruct H as (pb & s2 & R2 & H).
  apply load_prompts_frame in R1. apply load_prompts_frame in R2.
  destruct R1 as (_ & _ & E1). destruct R2 as (_ & _ & E2).
  repeat peel H. inversion H; subst; clear H. cbn. congruence.
Qed.

(** X4.  What [extract_topics_one] returns and leaves behind.  When it
    returns, the topic list is not empty, no topic has white space at
    either end (stripping a topic again changes nothing), the history has
    grown by exactly seven turns, and the publication is as it was: the
    topics are returned, not stored. *)
Theorem extract_topics_one_result (st st' : State) (topics : list string) :
  extract_topics_one st = (Ok topics, st') ->
  topics <> []
  /\ Forall (fun t => strip t = t
                      /\ head_clear isspace t = true
                      /\ last_clear isspace t = true) topics
  /\ List.length (messages_history st') = (List.length (messages_history st) + 7)%nat
  /\ publication st' = publication st.
Proof.
  intros H. unfold extract_topics_one in H.
  apply bind_ok in H. destruct H as ([pa pb] & s0 & B & H).
  apply bind_ok in H. destruct H as (r1 & s1 & R1 & H).
  apply bind_ok in H. destruct H as (r2 & s2 & R2 & H).
  apply bind_ok in H. destruct H as (r3 & s3 & R3 & H).
  inversion H; subst; clear H.
  pose proof (extract_begin_publication _ _ _ B) as P0.
  pose proof (extract_stage1_publication _ _ _ _ _ R1) as P1.
  pose proof (extract_stage2_publication _ _ _ _ _ _ R2) as P2.
  pose proof (extract_stage3_publication _ _ _ _ _ _ R3) as P3.
  apply extract_begin_ok in B.
  apply extract_stage1_ok in R1. destruct R1 as (p1 & E1 & _).
  apply extract_stage2_ok in R2. destruct R2 as (p2 & E2 & _).
  apply extract_stage3_ok in R3. destruct R3 as (p3 & E3 & _).
  repeat split.
  - pose proof (split_nonempty "," r3) as N.
    destruct (split "," r3); [congruence | discriminate].
  - apply Forall_forall. intros t Ht. apply in_map_iff in Ht.
    destruct Ht as (x & <- & _).
    destruct (strip_clear x) as (A & B' & C). auto.
  - rewrite E3, E2, E1, B, !length_app. simpl. lia.
  - congruence.
Qed.


(** *** What evaluation leaves behind *)

Lemma response_to_integer_frame (response : string) (st st' : State) (count : Z) :
  response_to_integer response st = (Ok count, st') ->
  messages_history st' = messages_history st /\ publication st' = publication st.
Proof.
  unfold response_to_integer.
  destruct (int_of_str int_max_str_digits response); intros H.
  - inversion H. auto.
  - apply bind_ok in H. destruct H as (u & s & R & H).
    inversion R; subst. inversion H; subst. auto.
Qed.

Lemma f1_of_frame (p r : py_float) (st st' : State) (f : py_float) :
  f1_of p r st = (Ok f, st') ->
  messages_history st' = messages_history st /\ publication st' = publication st.
Proof.
  unfold f1_of. destruct (eq0 (float_add p r)); intros H.
  - apply bind_ok in H. destruct H as (u & s & R & H).
    inversion R; subst. inversion H; subst. auto.
  - unfold lift in H. inversion H. auto.
Qed.

Lemma metrics_of_ok (count : Z) (topics gold : list string) (st st' : State)
  (p r f : py_float) :
  metrics_of count topics gold st = (Ok (p, r, f), st') ->
  messages_history st' = messages_history st
  /\ publication st' = publication st
  /\ (topics <> [] -> p = Fin (ratio count (List.length topics)))
  /\ (gold <> [] -> r = Fin (ratio count (List.length gold))).
Proof.
  unfold metrics_of. intros H.
  apply bind_ok in H. destruct H as (p' & s1 & R1 & H).
  apply bind_ok in H. destruct H as (r' & s2 & R2 & H).
  apply bind_ok in H. destruct H as (f' & s3 & R3 & H).
  inversion H; subst; clear H.
  apply f1_of_frame in R3. destruct R3 as [M3 P3].
  assert (A1 : messages_history s1 = messages_history st
               /\ publication s1 = publication st
               /\ (topics <> [] -> p = Fin (ratio count (List.length topics)))).
  { unfold precision_of in R1. destruct topics as [|t topics].
    - apply bind_ok in R1. destruct R1 as (u & s & R & R1).
      inversion R; subst. inversion R1; subst. cbn. repeat split; congruence.
    - inversion R1; subst. repeat split; reflexivity. }
  assert (A2 : messages_history s2 = messages_history s1
               /\ publication s2 = publication s1
               /\ (gold <> [] -> r = Fin (ratio count (List.length gold)))).
  { unfold recall_of in R2. destruct gold as [|g gold].
    - apply bind_ok in R2. destruct R2 as (u & s & R & R2).
      inversion R; subst. inversion R2; subst. cbn. repeat split; congruence.
    - inversion R2; subst. repeat split; reflexivity. }
  destruct A1 as (? & ? & ?). destruct A2 as (? & ? & ?).
  repeat split; try congruence; auto.
Qed.

(** Peels one statement off a successful run of an evaluation stage. *)
Ltac peel_eval H :=
  let a := fresh "a" in
  let s := fresh "s" in
  let R := fresh "R" in
  apply bind_ok in H; destruct H as (a & s & R & H);
  lazymatch type of R with
  | index _ _ _ = _ => apply index_ok in R; destruct R as [-> R]
  | lookup _ _ = _ => apply lookup_ok in R; destruct R as [-> R]
  | query_gpt_agent _ _ = _ =>
      apply query_gpt_agent_ok in R; destruct R as [R ?]
  | query_gpt_assistant _ _ = _ =>
      apply query_gpt_assistant_ok in R; destruct R as (R & ? & ?)
  | response_to_integer _ _ = _ =>
      apply response_to_integer_frame in R; destruct R as [R ?]
  | metrics_of _ _ _ _ = _ =>
      destruct a as [[? ?] ?]; apply metrics_of_ok in R;
      destruct R as (R & ? & ? & ?)
  | parse_ordered _ _ _ = _ =>
      destruct a as [? ?]; apply parse_ordered_ok in R;
      destruct R as (-> & ? & ? & ? & ?)
  | _ =>
      inversion R; subst; clear R;
      cbn [world stdout messages_history publication] in *
  end.

(** Ends a successful run at its [ret], keeping the recorded facts. *)
Ltac end_run H :=
  inversion H; subst; clear H;
  cbn [world stdout messages_history publication].

Lemma eval_stage1_ok (pa pb : list string) (st st' : State) (l1 l2 : list string) :
  eval_stage1 pa pb st = (Ok (l1, l2), st') ->
  exists prompt response,
    messages_history st' =
      (messages_history st ++ [mkTurn user prompt; mkTurn assistant response])%list
    /\ assistant_answer response
    /\ publication st' = set_skgc_ordered (map strip l1) (map strip l2) (publication st)
    /\ l1 <> [] /\ l2 <> [].
Proof.
  unfold eval_stage1. intros H. repeat peel_eval H. end_run H.
  do 2 eexists. repeat split.
  - rewrite R3, R1, <- app_assoc. reflexivity.
  - assumption.
  - congruence.
  - apply split_nonempty.
  - apply split_nonempty.
Qed.

Lemma eval_stage2_ok (pa pb : list string) (l1 l2 : list string) (st st' : State) (u : unit) :
  eval_stage2 pa pb l1 l2 st = (Ok u, st') ->
  exists prompt response count p r f,
    messages_history st' =
      (messages_history st ++ [mkTurn user prompt; mkTurn assistant response])%list
    /\ assistant_answer response
    /\ publication st' = set_skgc_metrics p r f (publication st)
    /\ (l1 <> [] -> p = Fin (ratio count (List.length l1)))
    /\ (l2 <> [] -> r = Fin (ratio count (List.length l2))).
Proof.
  unfold eval_stage2. intros H. repeat peel_eval H. end_run H.
  eexists. exists a2, a3, p, p0, p1.
  split; [rewrite R4, R3, R2, R0, <- app_assoc; reflexivity|].
  split; [assumption|].
  split; [rewrite H4, H3, H1, H0; reflexivity|].
  split; assumption.
Qed.

Lemma eval_stage3_ok (pa pb : list string) (st st' : State) (l1 l2 : list string) :
  eval_stage3 pa pb st = (Ok (l1, l2), st') ->
  exists prompt response,
    messages_history st' =
      (messages_history st ++ [mkTurn user prompt; mkTurn assistant response])%list
    /\ assistant_answer response
    /\ publication st' = set_csoc_ordered (map strip l1) (map strip l2) (publication st)
    /\ l1 <> [] /\ l2 <> [].
Proof.
  unfold eval_stage3. intros H. repeat peel_eval H. end_run H.
  do 2 eexists. repeat split.
  - rewrite R2, R0, <- app_assoc. reflexivity.
  - assumption.
  - congruence.
  - apply split_nonempty.
  - apply split_nonempty.
Qed.

Lemma eval_stage4_ok (pa pb : list string) (l1 l2 : list string) (st st' : State) (u : unit) :
  eval_stage4 pa pb l1 l2 st = (Ok u, st') ->
  exists prompt response count p r f,
    messages_history st' =
      (messages_history st ++ [mkTurn user prompt; mkTurn assistant response])%list
    /\ assistant_answer response
    /\ publication st' = set_csoc_metrics p r f (publication st)
    /\ (l1 <> [] -> p = Fin (ratio count (List.length l1)))
    /\ (l2 <> [] -> r = Fin (ratio count (List.length l2))).
Proof.
  unfold eval_stage4. intros H. repeat peel_eval H. end_run H.
  eexists. exists a2, a3, p, p0, p1.
  split; [rewrite R4, R3, R2, R0, <- app_assoc; reflexivity|].
  split; [assumption|].
  split; [rewrite H4, H3, H1, H0; reflexivity|].
  split; assumption.
Qed.

(** Everything a completed evaluation of one publication did. *)
Lemma eval_one_ok (st st' : State) (u : unit) :
  eval_one st = (Ok u, st') ->
  exists p1 p2 p3 p4 r1 r2 r3 r4 t1 g1 t2 g2 c1 c2 f1 f2,
    messages_history st' =
      (messages_history st ++ dialogue [p1; p2; p3; p4] [r1; r2; r3; r4])%list
    /\ Forall assistant_answer [r1; r2; r3; r4]
    /\ t1 <> [] /\ g1 <> [] /\ t2 <> [] /\ g2 <> []
    /\ publication st' =
       set_csoc_metrics (Fin (ratio c2 (List.length t2)))
         (Fin (ratio c2 (List.length g2))) f2
         (set_csoc_ordered (map strip t2) (map strip g2)
            (set_skgc_metrics (Fin (ratio c1 (List.length t1)))
               (Fin (ratio c1 (List.length g1))) f1
               (set_skgc_ordered (map strip t1) (map strip g1) (publication st)))).
Proof.
  unfold eval_one. intros H.
  apply bind_ok in H. destruct H as (pa & s1 & L1 & H).
  apply bind_ok in H. destruct H as (pb & s2 & L2 & H).
  apply load_prompts_frame in L1. destruct L1 as (M1 & _ & P1).
  apply load_prompts_frame in L2. destruct L2 as (M2 & _ & P2).
  apply bind_ok in H. destruct H as ([t1 g1] & s3 & S1 & H).
  apply eval_stage1_ok in S1.
  destruct S1 as (p1 & r1 & E1 & V1 & Q1 & N1 & N1').
  apply bind_ok in H. destruct H as (u2 & s4 & S2 & H).
  apply eval_stage2_ok in S2.
  destruct S2 as (p2 & r2 & c1 & x1 & y1 & f1 & E2 & V2 & Q2 & X1 & Y1).
  apply bind_ok in H. destruct H as ([t2 g2] & s5 & S3 & H).
  apply eval_stage3_ok in S3.
  destruct S3 as (p3 & r3 & E3 & V3 & Q3 & N3 & N3').
  apply eval_stage4_ok in H.
  destruct H as (p4 & r4 & c2 & x2 & y2 & f2 & E4 & V4 & Q4 & X2 & Y2).
  cbn [fst snd] in *.
  exists p1, p2, p3, p4, r1, r2, r3, r4, t1, g1, t2, g2, c1, c2, f1, f2.
  repeat split; auto.
  - rewrite E4, E3, E2, E1, M2, M1, <- !app_assoc. reflexivity.
  - rewrite Q4, Q3, Q2, Q1, P2, P1, (X1 N1), (Y1 N1'), (X2 N3), (Y2 N3').
    reflexivity.
Qed.

(** X5.  A completed [eval_one] appends exactly eight turns to the
    history it was given: four times the agent prompt as a user turn
    followed by the checked answer, an answer of the assistant role, as an
    assistant turn.  It stores all ten result keys on the publication and
    leaves the input keys and ["skgc_topics"] as they were. *)
Theorem eval_one_history_and_keys (st st' : State) (u : unit) :
  eval_one st = (Ok u, st') ->
  (exists prompts responses,
     List.length prompts = 4%nat /\ List.length responses = 4%nat
     /\ messages_history st' = (messages_history st ++ dialogue prompts responses)%list
     /\ List.length (messages_history st') = (List.length (messages_history st) + 8)%nat
     /\ map content (filter (is_role assistant) (dialogue prompts responses)) = responses
     /\ Forall assistant_answer responses)
  /\ (let pub := publication st' in
      skgc_topics_ordered pub <> None /\ gold_standard_ordered1 pub <> None
      /\ csoc_topics_ordered pub <> None /\ gold_standard_ordered2 pub <> None
      /\ skgc_precision pub <> None /\ skgc_recall pub <> None /\ skgc_f1 pub <> None
      /\ csoc_precision pub <> None /\ csoc_recall pub <> None /\ csoc_f1 pub <> None
      /\ title pub = title (publication st)
      /\ keywords pub = keywords (publication st)
      /\ abstract pub = abstract (publication st)
      /\ csoc_result pub = csoc_result (publication st)
      /\ gold_standard pub = gold_standard (publication st)
      /\ skgc_topics pub = skgc_topics (publication st)).
Proof.
  intros H. apply eval_one_ok in H.
  destruct H as (p1 & p2 & p3 & p4 & r1 & r2 & r3 & r4 & t1 & g1 & t2 & g2
                 & c1 & c2 & f1 & f2 & E & V & _ & _ & _ & _ & P).
  split.
  - exists [p1; p2; p3; p4], [r1; r2; r3; r4].
    repeat split; auto. rewrite E, length_app. reflexivity.
  - cbv zeta. rewrite P. cbn. repeat split; discriminate.
Qed.

(** X7.  The metrics a completed [eval_one] stores fit the lists it
    stores.  For the extracted topics and for the baseline alike, both
    stored lists are non-empty, their items are stripped, and there is one
    integer count such that the stored precision is the count divided by
    the length of the stored candidate list and the stored recall is the
    same count divided by the length of the stored gold list: neither is
    ever the -1 of an empty list. *)
Theorem eval_one_metrics_fit_lists (st st' : State) (u : unit) :
  eval_one st = (Ok u, st') ->
  (exists topics gold count,
     skgc_topics_ordered (publication st') = Some topics
     /\ gold_standard_ordered1 (publication st') = Some gold
     /\ topics <> [] /\ gold <> []
     /\ Forall (fun t => strip t = t) topics /\ Forall (fun t => strip t = t) gold
     /\ skgc_precision (publication st') = Some (Fin (ratio count (List.length topics)))
     /\ skgc_recall (publication st') = Some (Fin (ratio count (List.length gold))))
  /\ (exists topics gold count,
     csoc_topics_ordered (publication st') = Some topics
     /\ gold_standard_ordered2 (publication st') = Some gold
     /\ topics <> [] /\ gold <> []
     /\ Forall (fun t => strip t = t) topics /\ Forall (fun t => strip t = t) gold
     /\ csoc_precision (publication st') = Some (Fin (ratio count (List.length topics)))
     /\ csoc_recall (publication st') = Some (Fin (ratio count (List.length gold)))).
Proof.
  intros H. apply eval_one_ok in H.
  destruct H as (p1 & p2 & p3 & p4 & r1 & r2 & r3 & r4 & t1 & g1 & t2 & g2
                 & c1 & c2 & f1 & f2 & _ & _ & N1 & N2 & N3 & N4 & P).
  assert (S : forall l : list string, Forall (fun t => strip t = t) (map strip l)).
  { intros l. apply Forall_forall. intros t Ht. apply in_map_iff in Ht.
    destruct Ht as (x & <- & _). apply strip_clear. }
  assert (Z : forall l : list string, l <> [] -> map strip l <> []).
  { intros l Hl. destruct l; [congruence | discriminate]. }
  rewrite P. cbn. split.
  - exists (map strip t1), (map strip g1), c1. rewrite !length_map.
    repeat split; auto.
  - exists (map strip t2), (map strip g2), c2. rewrite !length_map.
    repeat split; auto.
Qed.


(** *** The mean of valid values *)

Lemma inject_nat_succ (n : nat) :
  inject_Z (Z.of_nat (S n)) == inject_Z (Z.of_nat n) + 1.
Proof. rewrite Nat2Z.inj_succ. unfold Z.succ. rewrite inject_Z_plus. reflexivity. Qed.

(** The reciprocals of values from the interval (0,1] are at least 1 each,
    so their sum is at least their number. *)
Lemma sum_inv_unit (a : list py_float) :
  Forall (fun x => exists q, x = Fin q /\ 0 < q <= 1) a ->
  inject_Z (Z.of_nat (List.length a)) <= sum_inv a
  /\ forallb ge0 a = true
  /\ existsb is_nan a = false /\ existsb lt0 a = false /\ existsb eq0 a = false.
Proof.
  intros H. induction H as [|x r (q & -> & H1 & H2) Hr IH].
  - cbn [sum_inv List.length existsb forallb]. change (inject_Z (Z.of_nat 0)) with 0.
    repeat split; try reflexivity; lra.
  - destruct IH as (I & G & N & L & Z).
    assert (J : 1 <= / q).
    { apply Qle_shift_inv_l; [exact H1 | lra]. }
    cbn [sum_inv existsb forallb is_nan lt0 eq0 ge0 List.length].
    rewrite inject_nat_succ, G, N, L, Z.
    assert (B1 : Qle_bool 0 q = true) by (apply Qle_bool_iff; lra).
    assert (B2 : Qeq_bool q 0 = false).
    { destruct (Qeq_bool q 0) eqn:E; [|reflexivity]. apply Qeq_bool_iff in E. lra. }
    rewrite B1, B2. repeat split; try reflexivity. lra.
Qed.

(** X8.  The guarded F1 mean of valid values.  For a non-empty list of
    values that are all greater than 0 and at most 1, the guarded mean is
    a number from 0 to 1: nothing is printed, the -1 of a failed evaluation
    is not produced, and [hmean] does not raise whatever it does on
    negative input.  (Every reciprocal is at least 1, so their sum is at
    least the number of values: a bound that rounding keeps.) *)
Theorem f1_mean_unit_interval (f1_list : list py_float) (st : State) :
  f1_list <> [] ->
  Forall (fun x => exists q, x = Fin q /\ 0 < q <= 1) f1_list ->
  exists f, f1_mean f1_list st = (Ok (Fin f), st) /\ 0 <= f <= 1.
Proof.
  intros Ne H. destruct (sum_inv_unit f1_list H) as (I & G & N & L & Z).
  rewrite f1_mean_guard, G. unfold hmean. rewrite N, L.
  destruct f1_list as [|x r]; [congruence|]. rewrite Z.
  eexists. split; [reflexivity|].
  set (n := inject_Z (Z.of_nat (List.length (x :: r)))) in *.
  set (S := sum_inv (x :: r)) in *.
  assert (Hn : 1 <= n).
  { unfold n. change 1 with (inject_Z 1). rewrite <- Zle_Qle. simpl List.length. lia. }
  assert (HS : 0 < S) by lra.
  split.
  - apply Qle_shift_div_l; [exact HS | lra].
  - apply Qle_shift_div_r; [exact HS | lra].
Qed.


(** *** The report on a corpus *)

Lemma collect_present (skgc csoc : Publication -> option py_float)
  (pubs : list Publication) (st : State) :
  present skgc pubs -> present csoc pubs ->
  collect skgc csoc pubs st = (Ok (values skgc pubs, values csoc pubs), st).
Proof.
  intros H1 H2. induction pubs as [|p r IH]; [reflexivity|].
  inversion H1 as [|? ? A1 B1]; inversion H2 as [|? ? A2 B2]; subst.
  cbn [collect values map]. unfold bind, lookup.
  destruct (skgc p) as [a|]; [|congruence].
  destruct (csoc p) as [b|]; [|congruence].
  unfold ret at 1 2. fold (values skgc r) (values csoc r).
  rewrite (IH B1 B2). reflexivity.
Qed.

Lemma sum_inv_positive (a : list py_float) :
  forallb ge0 a = true -> existsb eq0 a = false ->
  0 <= sum_inv a /\ (a <> [] -> 0 < sum_inv a).
Proof.
  induction a as [|x r IH]; intros G Z.
  - simpl. split; [lra | congruence].
  - simpl in G, Z. apply andb_true_iff in G. destruct G as [Gx Gr].
    apply orb_false_iff in Z. destruct Z as [Zx Zr].
    destruct (IH Gr Zr) as [I _]. destruct x as [q|]; [|discriminate Gx].
    simpl in Gx, Zx. apply Qle_bool_iff in Gx.
    assert (Hq : 0 < q).
    { destruct (Qlt_le_dec 0 q) as [P|P]; [exact P|].
      assert (E : q == 0) by lra. apply Qeq_bool_iff in E. congruence. }
    pose proof (Qinv_lt_0_compat q Hq) as Hi.
    cbn [sum_inv]. split; [lra | intros _; lra].
Qed.

(** On a non-empty list of values that are all [>= 0], [hmean] gives a
    number that is [>= 0]. *)
Lemma hmean_ge0_value (b : bool) (a : list py_float) :
  forallb ge0 a = true -> a <> [] ->
  exists f, hmean b a = Ok (Fin f) /\ 0 <= f.
Proof.
  intros G Na. unfold hmean.
  assert (N : existsb is_nan a = false).
  { clear Na. induction a as [|x r IH]; [reflexivity|]. simpl in *.
    apply andb_true_iff in G. destruct G as [Gx Gr].
    destruct x; [simpl; auto | discriminate]. }
  assert (L : existsb lt0 a = false).
  { clear Na N. induction a as [|x r IH]; [reflexivity|]. simpl in *.
    apply andb_true_iff in G. destruct G as [Gx Gr].
    destruct x; simpl in *; [rewrite Gx; simpl; auto | discriminate]. }
  rewrite N, L. destruct a as [|x r]; [congruence|].
  destruct (existsb eq0 (x :: r)) eqn:Z.
  - exists 0. split; [reflexivity | lra].
  - destruct (sum_inv_positive (x :: r) G Z) as [_ P].
    eexists. split; [reflexivity|].
    apply Qle_shift_div_l; [apply P; discriminate|].
    rewrite Qmult_0_l. change 0 with (inject_Z 0). rewrite <- Zle_Qle. lia.
Qed.

Lemma bind_print (B : Type) (text : string) (k : unit -> M B) (st : State) :
  bind (print text) k st
  = k tt (mkState (world st) (stdout st ++ [Msg text])%list
            (messages_history st) (publication st)).
Proof. reflexivity. Qed.

Lemma bind_print_num (B : Type) (text : string) (x : py_float)
  (k : unit -> M B) (st : State) :
  bind (print_num text x) k st
  = k tt (mkState (world st) (stdout st ++ [MsgNum text x])%list
            (messages_history st) (publication st)).
Proof. reflexivity. Qed.

Lemma bind_lift_ok (A B : Type) (a : A) (k : A -> M B) (st : State) :
  bind (lift (Ok a)) k st = k a st.
Proof. reflexivity. Qed.

Lemma f1_mean_failed (f1_list : list py_float) (st : State) :
  forallb ge0 f1_list = false ->
  f1_mean f1_list st
  = (Ok (Fin (inject_Z (-1))),
     mkState (world st)
       (stdout st ++
        [Msg "Error: Overall evaluation partly failed. F1 value of -1 means incorrect evaluation"])%list
       (messages_history st) (publication st)).
Proof. intros H. rewrite f1_mean_guard. now rewrite H. Qed.

Lemma f1_mean_valid (f1_list : list py_float) (st : State) (x : py_float) :
  forallb ge0 f1_list = true -> hmean hmean_raises f1_list = Ok x ->
  f1_mean f1_list st = (Ok x, st).
Proof. intros H E. rewrite f1_mean_guard. now rewrite H, E. Qed.

(** Runs the printing statements at the head of a computation. *)
Ltac run_lines :=
  repeat (first [rewrite bind_print | rewrite bind_print_num | rewrite bind_lift_ok];
          cbn [world stdout messages_history publication]).

(** X10.  One failed evaluation decides the verdict.  Take a corpus whose
    records hold all six metrics, with precision and recall values that are
    all [>= 0].  If some F1 value of the extracted topics is not [>= 0]
    while every F1 value of the baseline is, the report returns, prints -1
    as the F1 mean of SKGC, and its last line says that the CSOC approach
    yielded better results, whatever the other records hold.  If both
    sides have an F1 value that is not [>= 0], both means are -1 and the
    last line says that the approaches performed identically. *)
Theorem overall_comparison_failed_f1 (pubs : list Publication) (st : State) :
  present skgc_precision pubs -> present csoc_precision pubs ->
  present skgc_recall pubs -> present csoc_recall pubs ->
  present skgc_f1 pubs -> present csoc_f1 pubs ->
  forallb ge0 (values skgc_precision pubs) = true ->
  forallb ge0 (values csoc_precision pubs) = true ->
  forallb ge0 (values skgc_recall pubs) = true ->
  forallb ge0 (values csoc_recall pubs) = true ->
  forallb ge0 (values skgc_f1 pubs) = false ->
  exists st',
    overall_comparison pubs st = (Ok tt, st')
    /\ In (MsgNum "F1 mean of SKGC appproach: " (Fin (inject_Z (-1)))) (stdout st')
    /\ (forallb ge0 (values csoc_f1 pubs) = true ->
        last (stdout st') (Msg "")
        = Msg ("According to the automatic evaluation, the CSOC approach yielded better results than the SKGC"
               ++ " approach."))
    /\ (forallb ge0 (values csoc_f1 pubs) = false ->
        last (stdout st') (Msg "")
        = Msg ("According to the automatic evaluation, the SKGC and the CSOC approach performed overall"
               ++ " identically.")).
Proof.
  intros P1 P2 P3 P4 P5 P6 G1 G2 G3 G4 F.
  assert (Ne : pubs <> []).
  { intros ->. discriminate F. }
  assert (Nv : forall key, values key pubs <> []).
  { intros key. destruct pubs; [congruence | discriminate]. }
  destruct (hmean_ge0_value hmean_raises _ G1 (Nv _)) as (m1 & E1 & _).
  destruct (hmean_ge0_value hmean_raises _ G2 (Nv _)) as (m2 & E2 & _).
  destruct (hmean_ge0_value hmean_raises _ G3 (Nv _)) as (m3 & E3 & _).
  destruct (hmean_ge0_value hmean_raises _ G4 (Nv _)) as (m4 & E4 & _).
  unfold overall_comparison. run_lines.
  rewrite (bind_step _ _ _ _ _ (collect_present _ _ pubs _ P1 P2)).
  cbn [fst snd]. rewrite E1, E2. run_lines.
  rewrite (bind_step _ _ _ _ _ (collect_present _ _ pubs _ P3 P4)).
  cbn [fst snd]. rewrite E3, E4. run_lines.
  rewrite (bind_step _ _ _ _ _ (collect_present _ _ pubs _ P5 P6)).
  cbn [fst snd].
  rewrite (bind_step _ _ _ _ _ (f1_mean_failed _ _ F)).
  cbn [world stdout messages_history publication].
  destruct (forallb ge0 (values csoc_f1 pubs)) eqn:C.
  - destruct (hmean_ge0_value hmean_raises _ C (Nv _)) as (m & E & Hm).
    rewrite (bind_step _ _ _ _ _ (f1_mean_valid _ _ _ C E)). run_lines.
    assert (T1 : float_gt (Fin (inject_Z (-1))) (Fin m) = false).
    { simpl. apply negb_false_iff. apply Qle_bool_iff.
      change (inject_Z (-1)) with (-1 # 1). lra. }
    assert (T2 : float_gt (Fin m) (Fin (inject_Z (-1))) = true).
    { simpl. apply negb_true_iff. destruct (Qle_bool m (inject_Z (-1))) eqn:B; [|reflexivity].
      apply Qle_bool_iff in B. change (inject_Z (-1)) with (-1 # 1) in B. lra. }
    rewrite T1, T2. unfold print. eexists. split; [reflexivity|].
    cbn [stdout]. split; [|split; [intros _ | discriminate]].
    + apply in_or_app. left. apply in_or_app. left. apply in_or_app. left.
      apply in_or_app. right. left. reflexivity.
    + apply last_last.
  - rewrite (bind_step _ _ _ _ _ (f1_mean_failed _ _ C)). run_lines.
    change (float_gt (Fin (inject_Z (-1))) (Fin (inject_Z (-1)))) with false.
    cbv iota. unfold print. eexists. split; [reflexivity|].
    cbn [stdout]. split; [|split; [discriminate | intros _]].
    + apply in_or_app. left. apply in_or_app. left. apply in_or_app. left.
      apply in_or_app. right. left. reflexivity.
    + apply last_last.
Qed.


(** *** The loops over the corpus *)

Lemma list_update_app {A : Type} (done : list A) (x p : A) (rest : list A) :
  list_update (List.length done) x (done ++ p :: rest) = (done ++ x :: rest)%list.
Proof. induction done as [|d done IH]; simpl; [reflexivity | now rewrite IH]. Qed.

Lemma nth_error_app_here {A : Type} (done : list A) (p : A) (rest : list A) :
  nth_error (done ++ p :: rest) (List.length done) = Some p.
Proof. induction done as [|d done IH]; simpl; [reflexivity | exact IH]. Qed.

Lemma extract_topics_one_ok (st st' : State) (topics : list string) :
  extract_topics_one st = (Ok topics, st') ->
  exists p1 p2 p3 r1 r2 r3,
    messages_history st'
    = (messages_history st ++ agent_system_turn :: dialogue [p1; p2; p3] [r1; r2; r3])%list
    /\ Forall assistant_answer [r1; r2; r3]
    /\ topics = map strip (split "," r3)
    /\ publication st' = publication st.
Proof.
  intros H. unfold extract_topics_one in H.
  apply bind_ok in H. destruct H as ([pa pb] & s0 & B & H).
  apply bind_ok in H. destruct H as (r1 & s1 & R1 & H).
  apply bind_ok in H. destruct H as (r2 & s2 & R2 & H).
  apply bind_ok in H. destruct H as (r3 & s3 & R3 & H).
  inversion H; subst; clear H.
  pose proof (extract_begin_publication _ _ _ B) as P0.
  pose proof (extract_stage1_publication _ _ _ _ _ R1) as P1.
  pose proof (extract_stage2_publication _ _ _ _ _ _ R2) as P2.
  pose proof (extract_stage3_publication _ _ _ _ _ _ R3) as P3.
  apply extract_begin_ok in B.
  apply extract_stage1_ok in R1. destruct R1 as (p1 & E1 & V1).
  apply extract_stage2_ok in R2. destruct R2 as (p2 & E2 & V2).
  apply extract_stage3_ok in R3. destruct R3 as (p3 & E3 & V3).
  exists p1, p2, p3, r1, r2, r3. repeat split; auto.
  - rewrite E3, E2, E1, B, <- !app_assoc. reflexivity.
  - congruence.
Qed.

(** What the extraction loop does when it completes. *)
Lemma extract_topics_loop_ok (total : nat) (todo : list Publication) :
  forall (done : list Publication) (count : nat) (r r' : Run) (u : unit),
  publications r = (done ++ todo)%list ->
  count = S (List.length done) ->
  extract_topics_loop total count todo r = (Ok u, r') ->
  exists ledgers todo',
    messages_history_all r' = (messages_history_all r ++ ledgers)%list
    /\ publications r' = (done ++ todo')%list
    /\ Forall2 (fun pub pub' =>
                  exists topics, topics <> [] /\ pub' = set_skgc_topics topics pub)
               todo todo'
    /\ Forall2 (fun pub mh =>
                  exists p1 p2 p3 r1 r2 r3,
                    mh = agent_system_turn :: dialogue [p1; p2; p3] [r1; r2; r3]
                    /\ Forall assistant_answer [r1; r2; r3]
                    /\ skgc_topics pub = Some (map strip (split "," r3)))
               todo' ledgers.
Proof.
  induction todo as [|pub rest IH]; intros done count r r' u Hp Hc H.
  - inversion H; subst. exists [], []. rewrite !List.app_nil_r.
    rewrite List.app_nil_r in Hp. repeat split; auto.
  - cbn [extract_topics_loop] in H. cbv zeta in H.
    match type of H with
    | context [extract_topics_one ?s] =>
        destruct (extract_topics_one s) as [[topics|e] st] eqn:E
    end; [|discriminate H].
    apply extract_topics_one_ok in E.
    destruct E as (p1 & p2 & p3 & r1 & r2 & r3 & M & V & T & P).
    cbn [enter messages_history publication app] in M, P.
    apply (IH (done ++ [set_skgc_topics topics pub])%list) in H.
    + destruct H as (ledgers & todo' & A1 & A2 & A3 & A4).
      cbn [messages_history_all leave run_print] in A1.
      cbn [publications leave run_print] in A2.
      exists (messages_history st :: ledgers), (set_skgc_topics topics pub :: todo').
      repeat split.
      * rewrite A1, <- app_assoc. reflexivity.
      * rewrite A2, <- app_assoc. reflexivity.
      * constructor; [|exact A3]. exists topics. split; [|reflexivity].
        subst topics. pose proof (split_nonempty "," r3) as N.
        destruct (split "," r3); [congruence | discriminate].
      * constructor; [|exact A4].
        exists p1, p2, p3, r1, r2, r3. rewrite M. repeat split; auto.
        cbn. now rewrite T.
    + cbn [publications leave run_print]. rewrite Hp, Hc, P.
      cbn [Nat.sub]. rewrite Nat.sub_0_r, list_update_app, <- app_assoc.
      reflexivity.
    + rewrite length_app. simpl. lia.
Qed.

(** X11.  A completed [extract_topics_all] adds one history per
    publication to [messages_history_all], in the order of the
    publications; each is started afresh and consists of the system turn
    followed by three pairs of user prompt and assistant answer, so no turn
    of one publication appears in the history of another.  Every
    publication gets a non-empty ["skgc_topics"] list, cut from the last
    answer in its own history, and is otherwise unchanged. *)
Theorem extract_topics_all_histories (r r' : Run) (u : unit) :
  extract_topics_all r = (Ok u, r') ->
  exists ledgers,
    messages_history_all r' = (messages_history_all r ++ ledgers)%list
    /\ List.length ledgers = List.length (publications r)
    /\ List.length (publications r') = List.length (publications r)
    /\ Forall2 (fun pub pub' =>
                  exists topics, topics <> [] /\ pub' = set_skgc_topics topics pub)
               (publications r) (publications r')
    /\ Forall2 (fun pub mh =>
                  exists p1 p2 p3 r1 r2 r3,
                    mh = agent_system_turn :: dialogue [p1; p2; p3] [r1; r2; r3]
                    /\ Forall assistant_answer [r1; r2; r3]
                    /\ skgc_topics pub = Some (map strip (split "," r3)))
               (publications r') ledgers.
Proof.
  intros H. unfold extract_topics_all in H. cbv zeta in H.
  apply (extract_topics_loop_ok _ _ []) in H; [|reflexivity|reflexivity].
  destruct H as (ledgers & todo' & A1 & A2 & A3 & A4).
  cbn [publications messages_history_all run_print app] in *.
  exists ledgers. rewrite A2.
  pose proof (Forall2_length A3) as L1. pose proof (Forall2_length A4) as L2.
  repeat split; auto; congruence.
Qed.


Lemma eval_one_relates (st st' : State) (u : unit) :
  eval_one st = (Ok u, st') ->
  extended_by_evaluation (messages_history st) (messages_history st')
  /\ evaluated (publication st) (publication st').
Proof.
  intros H. apply eval_one_ok in H.
  destruct H as (p1 & p2 & p3 & p4 & r1 & r2 & r3 & r4 & t1 & g1 & t2 & g2
                 & c1 & c2 & f1 & f2 & E & V & N1 & N2 & N3 & N4 & P).
  split.
  - exists p1, p2, p3, p4, r1, r2, r3, r4. auto.
  - exists t1, g1, t2, g2, c1, c2, f1, f2. auto.
Qed.

(** What the evaluation loop does when it completes: it needs, and
    extends, one history per publication, starting at position [count]. *)
Lemma eval_loop_ok (total : nat) (todo : list Publication) :
  forall (done : list Publication) (hdone htodo : list (list Turn))
         (count : nat) (r r' : Run) (u : unit),
  publications r = (done ++ todo)%list ->
  messages_history_all r = (hdone ++ htodo)%list ->
  count = List.length done -> count = List.length hdone ->
  eval_loop total count todo r = (Ok u, r') ->
  exists todo' htodo',
    publications r' = (done ++ todo')%list
    /\ messages_history_all r'
       = (hdone ++ htodo' ++ skipn (List.length todo) htodo)%list
    /\ Forall2 evaluated todo todo'
    /\ Forall2 extended_by_evaluation (firstn (List.length todo) htodo) htodo'
    /\ (List.length todo <= List.length htodo)%nat.
Proof.
  induction todo as [|pub rest IH];
    intros done hdone htodo count r r' u Hp Hm Hc Hc' H.
  - inversion H; subst. exists [], []. cbn [List.length firstn skipn app].
    split; [exact Hp|]. split; [exact Hm|].
    split; [constructor|]. split; [constructor | lia].
  - cbn [eval_loop] in H. cbv zeta in H.
    cbn [messages_history_all run_print] in H.
    destruct htodo as [|mh htodo].
    { rewrite Hm, List.app_nil_r, Hc' in H.
      rewrite (proj2 (nth_error_None hdone (List.length hdone)) (le_n _)) in H.
      discriminate H. }
    rewrite Hm, Hc', nth_error_app_here in H.
    match type of H with
    | context [eval_one ?s] => destruct (eval_one s) as [[v|e] st] eqn:E
    end; [|discriminate H].
    apply eval_one_relates in E. destruct E as [Em Ep].
    cbn [enter messages_history publication] in Em, Ep.
    apply (IH (done ++ [publication st])%list (hdone ++ [messages_history st])%list htodo)
      in H.
    + destruct H as (todo' & htodo' & A1 & A2 & A3 & A4 & A5).
      exists (publication st :: todo'), (messages_history st :: htodo').
      repeat split.
      * rewrite A1, <- app_assoc. reflexivity.
      * rewrite A2, <- app_assoc. reflexivity.
      * constructor; assumption.
      * cbn [List.length firstn]. constructor; assumption.
      * simpl. lia.
    + cbn [publications leave run_print]. rewrite Hp.
      replace (List.length hdone) with (List.length done) by congruence.
      rewrite list_update_app, <- app_assoc. reflexivity.
    + cbn [messages_history_all leave run_print]. rewrite Hm.
      rewrite list_update_app, <- app_assoc. reflexivity.
    + rewrite length_app. simpl. lia.
    + rewrite length_app. simpl. lia.
Qed.

(** X12.  [eval_all] needs a history for every publication.  When it
    completes, [messages_history_all] held at least as many histories as
    there are publications; the first ones, one per publication and in
    order, are each extended by the eight turns of the evaluation, later
    ones are untouched, and every publication holds the results of its
    evaluation.  With no history at all and at least one publication it
    raises [IndexError] right after the first progress lines, before
    any remote call. *)
Theorem eval_all_histories (r : Run) :
  (forall u r',
     eval_all r = (Ok u, r') ->
     (List.length (publications r) <= List.length (messages_history_all r))%nat
     /\ Forall2 evaluated (publications r) (publications r')
     /\ exists extended,
          messages_history_all r'
          = (extended ++ skipn (List.length (publications r))
                           (messages_history_all r))%list
          /\ Forall2 extended_by_evaluation
               (firstn (List.length (publications r)) (messages_history_all r))
               extended)
  /\ (messages_history_all r = [] -> publications r <> [] ->
      eval_all r
      = (Raise IndexError,
         mkRun (run_world r)
           (run_stdout r ++
            [Msg (repeat_string "-" 160); Msg (repeat_string "-" 160);
             Msg ("Publication 1 of " ++ str_of_nat (List.length (publications r))
                  ++ ": Evaluation");
             Msg (repeat_string "-" 160)])%list
           (publications r) [])).
Proof.
  split.
  - intros u r' H. unfold eval_all in H.
    apply (eval_loop_ok _ _ [] [] (messages_history_all r)) in H; try reflexivity.
    destruct H as (todo' & htodo' & A1 & A2 & A3 & A4 & A5).
    cbn [app] in A1, A2. rewrite A1. repeat split; auto.
    exists htodo'. auto.
  - intros Hm Hp. unfold eval_all. destruct (publications r) as [|pub rest] eqn:E;
      [congruence|].
    cbn [eval_loop]. cbv zeta. cbn [messages_history_all run_print].
    rewrite Hm. cbn [nth_error]. unfold run_print.
    cbn [run_world run_stdout publications messages_history_all].
    rewrite E, Hm, <- !app_assoc. reflexivity.
Qed.


Lemma Forall2_chain {A B C : Type} (P : A -> B -> Prop) (Q : B -> C -> Prop)
  (l1 : list A) (l2 : list B) (l3 : list C) :
  Forall2 P l1 l2 -> Forall2 Q l2 l3 ->
  Forall2 (fun a c => exists b, P a b /\ Q b c) l1 l3.
Proof.
  intros H. revert l3. induction H as [|a b l1 l2 Hab H IH]; intros l3 H3.
  - inversion H3. constructor.
  - inversion H3 as [|? c ? l3' Hbc H3']; subst. constructor; eauto.
Qed.

Lemma Forall2_right {A B : Type} (P : A -> B -> Prop) (Q : B -> Prop)
  (l1 : list A) (l2 : list B) :
  Forall2 P l1 l2 -> (forall a b, P a b -> Q b) -> Forall Q l2.
Proof. intros H HQ. induction H; constructor; eauto. Qed.

(** X13.  Extraction followed by evaluation.  When [extract_topics_all],
    started with an empty [messages_history_all], and then [eval_all] both
    complete, there is exactly one history per publication, and each
    history has fifteen turns: the system turn followed by seven pairs of
    a user prompt and an answer of the assistant role (three from the
    extraction, four from the evaluation).  Every publication holds its
    extracted topics and the results of its evaluation. *)
Theorem extraction_then_evaluation (r r1 r2 : Run) (u1 u2 : unit) :
  messages_history_all r = [] ->
  extract_topics_all r = (Ok u1, r1) ->
  eval_all r1 = (Ok u2, r2) ->
  List.length (messages_history_all r2) = List.length (publications r)
  /\ Forall (fun mh =>
               exists prompts responses,
                 List.length prompts = 7%nat /\ List.length responses = 7%nat
                 /\ mh = agent_system_turn :: dialogue prompts responses
                 /\ Forall assistant_answer responses
                 /\ List.length mh = 15%nat)
            (messages_history_all r2)
  /\ Forall2 (fun pub pub' =>
                exists topics,
                  topics <> [] /\ evaluated (set_skgc_topics topics pub) pub')
             (publications r) (publications r2).
Proof.
  intros H0 H1 H2. unfold extract_topics_all in H1. cbv zeta in H1.
  apply (extract_topics_loop_ok _ _ []) in H1; [|reflexivity|reflexivity].
  destruct H1 as (ledgers & pubs1 & A1 & A2 & A3 & A4).
  cbn [publications messages_history_all run_print app] in *.
  rewrite H0 in A1. cbn [app] in A1.
  unfold eval_all in H2.
  apply (eval_loop_ok _ _ [] [] (messages_history_all r1)) in H2; try reflexivity.
  destruct H2 as (pubs2 & extended & B1 & B2 & B3 & B4 & B5).
  cbn [app] in B1, B2.
  pose proof (Forall2_length A3) as L3. pose proof (Forall2_length A4) as L4.
  rewrite A1, A2 in *. rewrite firstn_all2 in B4 by lia.
  rewrite skipn_all2, List.app_nil_r in B2 by lia.
  pose proof (Forall2_length B4) as L5.
  rewrite B1, B2. split; [lia|]. split.
  - apply (Forall2_right _ _ _ _ (Forall2_chain _ _ _ _ _ A4 B4)).
    intros pub mh' (mh & (p1 & p2 & p3 & r1' & r2' & r3 & -> & V & _) & E).
    destruct E as (p4 & p5 & p6 & p7 & r4 & r5 & r6 & r7 & -> & V').
    exists [p1; p2; p3; p4; p5; p6; p7], [r1'; r2'; r3; r4; r5; r6; r7].
    repeat split; auto.
    inversion V as [|? ? V1 Va]; inversion Va as [|? ? V2 Vb];
      inversion Vb as [|? ? V3 _]; subst.
    inversion V' as [|? ? V4 Vc]; inversion Vc as [|? ? V5 Vd];
      inversion Vd as [|? ? V6 Ve]; inversion Ve as [|? ? V7 _]; subst.
    repeat constructor; assumption.
  - eapply Forall2_impl; [|exact (Forall2_chain _ _ _ _ _ A3 B3)].
    intros pub pub' (mid & (topics & N & ->) & E). exists topics. auto.
Qed.


(** *** The report *)

Lemma details_table_results (pub : Publication) :
  has_results pub = is_some (details_table pub).
Proof.
  unfold has_results, details_table.
  destruct (skgc_topics_ordered pub); [|reflexivity].
  destruct (gold_standard_ordered1 pub); [|reflexivity].
  destruct (gold_standard_ordered2 pub); [|reflexivity].
  destruct (csoc_topics_ordered pub); [|reflexivity].
  destruct (skgc_precision pub); [|reflexivity].
  destruct (skgc_recall pub); [|reflexivity].
  destruct (skgc_f1 pub); [|reflexivity].
  destruct (csoc_precision pub); [|reflexivity].
  destruct (csoc_recall pub); [|reflexivity].
  destruct (csoc_f1 pub); reflexivity.
Qed.

Lemma details_loop_console (total : nat) (todo : list Publication) :
  forall count p,
    console (snd (details_loop total count todo p))
    = (console p ++ tables total count todo)%list.
Proof.
  induction todo as [|pub rest IH]; intros count p; cbn [details_loop tables].
  - cbn [snd]. now rewrite List.app_nil_r.
  - destruct (details_table pub) as [lines|].
    + rewrite IH. cbn [emit console]. now rewrite <- !app_assoc.
    + cbn [snd emit console]. now rewrite List.app_nil_r.
Qed.

Lemma details_loop_result (total : nat) (todo : list Publication) :
  forall count p,
    fst (details_loop total count todo p)
    = if forallb has_results todo then Completed tt
      else Stopped (Raised (Terminal.Builtin KeyError)).
Proof.
  induction todo as [|pub rest IH]; intros count p; cbn [details_loop forallb].
  - reflexivity.
  - rewrite details_table_results.
    destruct (details_table pub) as [lines|]; cbn [is_some andb fst].
    + apply IH.
    + reflexivity.
Qed.

Lemma tables_app (total : nat) (done todo : list Publication) (pub : Publication) :
  forallb has_results done = true -> has_results pub = false ->
  forall count,
    tables total count (done ++ pub :: todo)
    = (tables total count done
       ++ details_head total (count + List.length done) pub)%list.
Proof.
  intros D P. induction done as [|d done IH]; intros count.
  - cbn [app tables List.length]. rewrite details_table_results in P.
    destruct (details_table pub); [discriminate P|].
    now rewrite Nat.add_0_r, List.app_nil_r.
  - cbn [forallb] in D. apply andb_true_iff in D. destruct D as [Dd D].
    cbn [app tables List.length]. rewrite details_table_results in Dd.
    destruct (details_table d) as [lines|]; [|discriminate Dd].
    rewrite (IH D), <- !app_assoc, Nat.add_succ_r. reflexivity.
Qed.

(** What only writes to [sys.stdout] keeps what [emit] keeps. *)
Lemma details_loop_emits (I : Process -> Prop) :
  (forall lines p, I p -> I (emit lines p)) ->
  forall total todo count p, I p -> I (snd (details_loop total count todo p)).
Proof.
  intros K total todo. induction todo as [|pub rest IH]; intros count p H; [exact H|].
  cbn [details_loop]. destruct (details_table pub) as [lines|].
  - apply IH. apply K, K, H.
  - cbn [snd]. apply K, H.
Qed.

Lemma report_body_emits (I : Process -> Prop) :
  (forall lines p, I p -> I (emit lines p)) ->
  forall pubs p, I p -> I (snd (report_body pubs p)).
Proof.
  intros K pubs p H. unfold report_body.
  match goal with
  | |- context [details_loop ?n ?c ?l ?q] =>
      pose proof (details_loop_emits I K n l c q (K _ _ H)) as D;
      destruct (details_loop n c l q) as [[u|e] q']
  end; cbn [snd] in *.
  - destruct (printed (overall_comparison pubs) (service q')) as [result lines].
    destruct result; cbn [snd]; apply K, D.
  - exact D.
Qed.

Lemma file_name_loop_kept (I : Process -> Prop) :
  (forall lines p, I p -> I (emit lines p)) ->
  (forall lines p, I p -> I (with_stdin lines p)) ->
  forall lines p, I p -> I (snd (file_name_loop lines p)).
Proof.
  intros Ke Ki. induction lines as [|file_name rest IH]; intros p H;
    cbn [file_name_loop].
  - cbn [snd]. apply Ki, Ke, H.
  - destruct (endswith ".txt" file_name).
    + cbn [snd]. apply Ki, Ke, H.
    + apply IH. apply Ke, Ke, H.
Qed.

Lemma save_choice_loop_kept (I : Process -> Prop) :
  (forall lines p, I p -> I (emit lines p)) ->
  (forall lines p, I p -> I (with_stdin lines p)) ->
  forall lines p, I p -> I (snd (save_choice_loop lines p)).
Proof.
  intros Ke Ki.
  induction lines as [|choice rest IH]; intros p H; cbn [save_choice_loop].
  - cbn [snd]. apply Ki, Ke, H.
  - destruct (String.eqb (Terminal.upper choice) "A").
    + match goal with
      | |- context [file_name_loop rest ?q] =>
          pose proof (file_name_loop_kept I Ke Ki rest q (Ke _ _ H)) as F;
          destruct (file_name_loop rest q) as [[file_name|e] q']; exact F
      end.
    + destruct (String.eqb (Terminal.upper choice) "B").
      * cbn [snd]. apply Ki, Ke, H.
      * apply IH. apply Ke, Ke, H.
Qed.

Lemma print_eval_details_kept (I : Process -> Prop) :
  kept I -> forall pubs p, I p -> I (snd (print_eval_details pubs p)).
Proof.
  intros K pubs p H. pose proof K as (Ke & Ki & Kw & Ks & Kf).
  unfold print_eval_details.
  match goal with
  | |- context [save_choice_loop ?l ?q] =>
      pose proof (save_choice_loop_kept I Ke Ki l q (Ke _ _ H)) as S;
      destruct (save_choice_loop l q) as [[[file_bool file_name]|e] q']
  end; cbn [snd] in *; [|exact S].
  destruct (open_error file_name) as [message|]; [exact S|].
  match goal with
  | |- context [report_body pubs ?q] =>
      assert (R : I (snd (report_body pubs q)));
      [apply (report_body_emits I Ke); destruct file_bool; [apply Ks|]; apply Kf, S|];
      destruct (report_body pubs q) as [[u|e] q'']
  end; cbn [snd] in *; [|exact R].
  destruct file_bool; [apply Ks|]; exact R.
Qed.

Lemma emit_console (lines : list Output) sin con dsk srv :
  emit lines (mkProcess sin con dsk None srv)
  = mkProcess sin (con ++ lines)%list dsk None srv.
Proof. reflexivity. Qed.

(** The question of the report with [sys.stdout] on the console: answers
    that are neither A nor B are asked again. *)
Lemma save_choice_loop_declined (bad : list string) (b : string) (rest : list string) :
  Forall (fun line => is_save_choice line = false) bad ->
  Terminal.upper b = "B" ->
  forall sin con dsk srv,
  exists asked,
    save_choice_loop (bad ++ b :: rest) (mkProcess sin con dsk None srv)
    = (Completed (false, "file_name.txt"),
       mkProcess rest (con ++ asked) dsk None srv)
    /\ List.length asked = (2 * List.length bad + 1)%nat.
Proof.
  intros B Hb. induction B as [|x bad Hx B IH]; intros sin con dsk srv.
  - cbn [app save_choice_loop]. rewrite Hb, emit_console.
    exists [say "Please enter A or B: "]. split; reflexivity.
  - cbn [app save_choice_loop]. unfold is_save_choice in Hx.
    apply orb_false_iff in Hx. destruct Hx as [Ha Hb'].
    rewrite Ha, Hb'. rewrite !emit_console.
    destruct (IH sin ((con ++ [say "Please enter A or B: "])
                      ++ [say "Invalid input. Please enter 'A' or 'B'"])%list dsk srv)
      as (asked & E & L).
    exists ([say "Please enter A or B: "; say "Invalid input. Please enter 'A' or 'B'"]
            ++ asked)%list.
    split.
    + rewrite E. rewrite <- !app_assoc. reflexivity.
    + rewrite length_app, L. cbn [List.length]. lia.
Qed.

Lemma file_name_loop_skips (bad : list string) (file_name : string) (rest : list string) :
  Forall (fun name => endswith ".txt" name = false) bad ->
  endswith ".txt" file_name = true ->
  forall sin con dsk srv,
  exists asked,
    file_name_loop (bad ++ file_name :: rest) (mkProcess sin con dsk None srv)
    = (Completed file_name, mkProcess rest (con ++ asked) dsk None srv)
    /\ List.length asked = (2 * List.length bad + 1)%nat.
Proof.
  intros B Hf. induction B as [|x bad Hx B IH]; intros sin con dsk srv.
  - cbn [app file_name_loop]. rewrite Hf, emit_console.
    eexists [_]. split; reflexivity.
  - cbn [app file_name_loop]. rewrite Hx.
    rewrite !emit_console.
    match goal with
    | |- context [file_name_loop _ (mkProcess _ ?c _ _ _)] =>
        destruct (IH sin c dsk srv) as (asked & E & L)
    end.
    eexists (_ :: _ :: asked). split.
    + rewrite E. rewrite <- !app_assoc. reflexivity.
    + cbn [List.length]. rewrite L. lia.
Qed.


(** X25.  Declining the text file still opens one.  When the user answers
    the question of [print_eval_details] with B (after any number of
    answers that are neither A nor B), the file ["file_name.txt"] is opened
    for writing all the same: if that succeeds the file is left empty,
    whatever it held before and however the report ends, no other file is
    touched and [sys.stdout] stays the console; if it fails, the report
    ends in that [OSError] although no file was asked for. *)
Theorem print_eval_details_declined (pubs : list Publication) (p : Process)
  (bad : list string) (b : string) (rest : list string) :
  sys_stdout p = None ->
  process_stdin p = (bad ++ b :: rest)%list ->
  Forall (fun line => is_save_choice line = false) bad ->
  Terminal.upper b = "B" ->
  (open_error "file_name.txt" = None ->
   disk (snd (print_eval_details pubs p)) "file_name.txt" = Some (TextFile [])
   /\ (forall name, name <> "file_name.txt" ->
       disk (snd (print_eval_details pubs p)) name = disk p name)
   /\ process_stdin (snd (print_eval_details pubs p)) = rest
   /\ sys_stdout (snd (print_eval_details pubs p)) = None)
  /\ (forall message, open_error "file_name.txt" = Some message ->
      fst (print_eval_details pubs p) = Stopped (OSError message)
      /\ disk (snd (print_eval_details pubs p)) = disk p).
Proof.
  intros Hs Hi B Hb. destruct p as [sin con dsk so srv].
  cbn [sys_stdout process_stdin disk] in *. subst so sin.
  unfold print_eval_details. rewrite emit_console. cbn [process_stdin].
  match goal with
  | |- context [save_choice_loop _ (mkProcess ?i ?c _ _ _)] =>
      destruct (save_choice_loop_declined bad b rest B Hb i c dsk srv) as (asked & E & _)
  end.
  rewrite E. split.
  - intros O. rewrite O.
    match goal with
    | |- context [report_body pubs ?q] =>
        assert (R : disk (snd (report_body pubs q)) = disk q
                    /\ process_stdin (snd (report_body pubs q)) = rest
                    /\ sys_stdout (snd (report_body pubs q)) = None);
        [ apply (report_body_emits
                   (fun q' => disk q' = disk q /\ process_stdin q' = rest
                              /\ sys_stdout q' = None));
          [ intros lines q' (H1 & H2 & H3); unfold emit;
            cbn [disk process_stdin sys_stdout]; rewrite H3; auto
          | cbn; auto ]
        | destruct (report_body pubs q) as [[u|e] q'] ]
    end; cbn [snd] in *; destruct R as (R1 & R2 & R3); rewrite R1;
      cbn [write_file disk]; (split; [reflexivity|]);
      (split; [|auto]); intros name N; apply String.eqb_neq in N; now rewrite N.
  - intros message O. rewrite O. split; reflexivity.
Qed.

(** X26.  The saved report.  When the user answers A and then gives a
    name that ends with [.txt] (names that do not are asked again) and the
    file can be opened, the file holds exactly the lines of the report that
    appear on the console after the questions, and none of the questions;
    no other file is touched, the lines of input after the name are left
    unread, and when the report completes [sys.stdout] is the console
    again. *)
Theorem print_eval_details_saved (pubs : list Publication) (p : Process)
  (a : string) (bad : list string) (file_name : string) (rest : list string) :
  sys_stdout p = None ->
  process_stdin p = (a :: bad ++ file_name :: rest)%list ->
  Terminal.upper a = "A" ->
  Forall (fun name => endswith ".txt" name = false) bad ->
  endswith ".txt" file_name = true ->
  open_error file_name = None ->
  exists asked report,
    console (snd (print_eval_details pubs p)) = (console p ++ asked ++ report)%list
    /\ List.length asked = (5 + 2 * List.length bad)%nat
    /\ disk (snd (print_eval_details pubs p)) file_name = Some (TextFile report)
    /\ (forall name, name <> file_name ->
        disk (snd (print_eval_details pubs p)) name = disk p name)
    /\ process_stdin (snd (print_eval_details pubs p)) = rest
    /\ (fst (print_eval_details pubs p) = Completed tt ->
        sys_stdout (snd (print_eval_details pubs p)) = None).
Proof.
  intros Hs Hi Ha B Hf O. destruct p as [sin con dsk so srv].
  cbn [sys_stdout process_stdin disk console] in *. subst so sin.
  unfold print_eval_details. rewrite emit_console. cbn [process_stdin save_choice_loop].
  rewrite Ha, emit_console.
  change (String.eqb "A" "A") with true. cbv iota.
  match goal with
  | |- context [file_name_loop _ (mkProcess ?i ?c _ _ _)] =>
      destruct (file_name_loop_skips bad file_name rest B Hf i c dsk srv)
        as (asked & E & L)
  end.
  rewrite E, O.
  match goal with
  | |- context [report_body pubs ?q] =>
      assert (R : (fun q' => sys_stdout q' = Some file_name
                               /\ process_stdin q' = rest
                               /\ (forall name, name <> file_name -> disk q' name = dsk name)
                               /\ exists report,
                                    console q' = (console q ++ report)%list
                                    /\ disk q' file_name = Some (TextFile report))
                    (snd (report_body pubs q)));
      [ apply report_body_emits;
        [ intros lines q' (H1 & H2 & H3 & report & H4 & H5);
          unfold emit; cbn [disk process_stdin sys_stdout console];
          rewrite H1; split; [reflexivity|]; split; [exact H2|]; split;
          [ intros name N; rewrite (proj2 (String.eqb_neq _ _) N); now apply H3
          | exists (report ++ lines)%list;
            rewrite H4, H5, String.eqb_refl, <- app_assoc; split; reflexivity ]
        | cbn [with_sys_stdout write_file sys_stdout process_stdin disk console];
          split; [reflexivity|]; split; [reflexivity|]; split;
          [ intros name N; now rewrite (proj2 (String.eqb_neq _ _) N)
          | exists []; rewrite List.app_nil_r, String.eqb_refl; split; reflexivity ] ]
      | destruct (report_body pubs q) as [[u|e] q'] ]
  end; cbn [snd fst] in *;
    destruct R as (R1 & R2 & R3 & report & R4 & R5).
  - exists (([say "Would you like to save the evaluation details to a txt-file?";
              say "A: Yes"; say "B: No"] ++ [say "Please enter A or B: "]) ++ asked)%list,
           report.
    cbn [with_sys_stdout write_file sys_stdout process_stdin disk console] in *.
    rewrite R4, R5, <- !app_assoc. repeat split; auto.
    rewrite !length_app, L. cbn [List.length]. lia.
  - exists (([say "Would you like to save the evaluation details to a txt-file?";
              say "A: Yes"; say "B: No"] ++ [say "Please enter A or B: "]) ++ asked)%list,
           report.
    cbn [with_sys_stdout write_file sys_stdout process_stdin disk console] in *.
    rewrite R4, R5, <- !app_assoc. repeat split; auto.
    + rewrite !length_app, L. cbn [List.length]. lia.
    + intros H. discriminate H.
Qed.

(** The report on a corpus with a record that was never evaluated.
    When the first record without one of the ten result keys comes after
    records that have them all, the body of the report raises [KeyError]
    there: it has printed the two heading lines, the tables of the records
    before and the number and title of that record, and nothing else, so
    the overall comparison is not reached.  Whatever the user answers,
    [print_eval_details] does not complete on such a corpus. *)
Theorem print_eval_details_unevaluated
  (done todo : list Publication) (pub : Publication) (p : Process) :
  forallb has_results done = true -> has_results pub = false ->
  (fst (report_body (done ++ pub :: todo) p)
   = Stopped (Raised (Terminal.Builtin KeyError))
   /\ console (snd (report_body (done ++ pub :: todo) p))
      = (console p
         ++ [say (repeat_string "-" 160); say "Evaluation details:"]
         ++ tables (List.length (done ++ pub :: todo)) 1 done
         ++ details_head (List.length (done ++ pub :: todo))
              (S (List.length done)) pub)%list)
  /\ fst (print_eval_details (done ++ pub :: todo) p) <> Completed tt.
Proof.
  intros D P.
  assert (F : forallb has_results (done ++ pub :: todo) = false).
  { rewrite forallb_app. cbn [forallb]. rewrite P. now rewrite andb_false_r. }
  assert (R : forall q,
             fst (report_body (done ++ pub :: todo) q)
             = Stopped (Raised (Terminal.Builtin KeyError))).
  { intros q. unfold report_body.
    match goal with
    | |- context [details_loop ?n ?c ?l ?q0] =>
        pose proof (details_loop_result n l c q0) as E;
        destruct (details_loop n c l q0) as [[u|e] q']
    end; cbn [fst] in *; rewrite F in E; [discriminate E | exact E]. }
  split; [split; [apply R|]|].
  - unfold report_body.
    match goal with
    | |- context [details_loop ?n ?c ?l ?q0] =>
        pose proof (details_loop_result n l c q0) as E;
        pose proof (details_loop_console n l c q0) as C;
        destruct (details_loop n c l q0) as [[u|e] q']
    end; cbn [fst snd] in *; rewrite F in E; [discriminate E|].
    rewrite C, (tables_app _ _ _ _ D P). cbn [emit console].
    rewrite <- !app_assoc. reflexivity.
  - unfold print_eval_details.
    match goal with
    | |- context [save_choice_loop ?l ?q] =>
        destruct (save_choice_loop l q) as [[[file_bool file_name]|e] q']
    end; [|discriminate].
    destruct (open_error file_name); [discriminate|].
    match goal with
    | |- context [report_body ?l ?q] =>
        pose proof (R q) as E; destruct (report_body l q) as [[u|e] q'']
    end; [discriminate E | discriminate].
Qed.

Lemma save_json_loop_saves (pubs : list Publication)
  (bad : list string) (file_name : string) (rest : list string) :
  Forall (fun name => open_error name <> None) bad ->
  open_error file_name = None ->
  forall sin con dsk srv,
    fst (save_json_loop pubs (bad ++ file_name :: rest) (mkProcess sin con dsk None srv))
    = Completed tt
    /\ disk (snd (save_json_loop pubs (bad ++ file_name :: rest)
                   (mkProcess sin con dsk None srv))) file_name
       = Some (JsonFile pubs)
    /\ (forall name, name <> file_name ->
        disk (snd (save_json_loop pubs (bad ++ file_name :: rest)
                     (mkProcess sin con dsk None srv))) name = dsk name)
    /\ process_stdin (snd (save_json_loop pubs (bad ++ file_name :: rest)
                             (mkProcess sin con dsk None srv))) = rest
    /\ List.length (console (snd (save_json_loop pubs (bad ++ file_name :: rest)
                                    (mkProcess sin con dsk None srv))))
       = (List.length con + 2 * List.length bad + 2)%nat.
Proof.
  intros B O. induction B as [|x bad Hx B IH]; intros sin con dsk srv.
  - cbn [app save_json_loop]. rewrite O, !emit_console.
    cbn [write_file emit with_stdin fst snd disk process_stdin console sys_stdout service].
    rewrite String.eqb_refl. repeat split; auto.
    + intros name N. now rewrite (proj2 (String.eqb_neq _ _) N).
    + rewrite !length_app. cbn [List.length]. lia.
  - cbn [app save_json_loop]. destruct (open_error x) as [message|]; [|congruence].
    rewrite !emit_console.
    match goal with
    | |- context [save_json_loop _ _ (mkProcess ?i ?c _ _ _)] =>
        destruct (IH i c dsk srv) as (I1 & I2 & I3 & I4 & I5)
    end.
    repeat split; auto.
    rewrite I5, !length_app. cbn [List.length]. lia.
Qed.

Lemma save_json_loop_eof (pubs : list Publication) (lines : list string) :
  Forall (fun name => open_error name <> None) lines ->
  forall sin con dsk srv,
    fst (save_json_loop pubs lines (mkProcess sin con dsk None srv))
    = Stopped (Raised Terminal.EOFError)
    /\ disk (snd (save_json_loop pubs lines (mkProcess sin con dsk None srv))) = dsk.
Proof.
  intros B. induction B as [|x lines Hx B IH]; intros sin con dsk srv.
  - cbn [save_json_loop]. rewrite emit_console. split; reflexivity.
  - cbn [save_json_loop]. destruct (open_error x) as [message|]; [|congruence].
    rewrite !emit_console. apply IH.
Qed.

(** Saving the results.  [skgc_topics_and_eval_to_json] asks for a
    name until a file can be opened: every name that cannot be opened for
    writing is answered by one message and a new prompt, and the first that
    can be opened receives the records; the name is not required to end
    with [.json], and no other file is touched.  When no name can be
    opened the function ends in [EOFError] and nothing is written. *)
Theorem skgc_topics_and_eval_to_json_saves (pubs : list Publication) (p : Process) :
  sys_stdout p = None ->
  (forall bad file_name rest,
     process_stdin p = (bad ++ file_name :: rest)%list ->
     Forall (fun name => open_error name <> None) bad ->
     open_error file_name = None ->
     fst (skgc_topics_and_eval_to_json pubs p) = Completed tt
     /\ disk (snd (skgc_topics_and_eval_to_json pubs p)) file_name = Some (JsonFile pubs)
     /\ (forall name, name <> file_name ->
         disk (snd (skgc_topics_and_eval_to_json pubs p)) name = disk p name)
     /\ process_stdin (snd (skgc_topics_and_eval_to_json pubs p)) = rest
     /\ List.length (console (snd (skgc_topics_and_eval_to_json pubs p)))
        = (List.length (console p) + 2 * List.length bad + 2)%nat)
  /\ (Forall (fun name => open_error name <> None) (process_stdin p) ->
      fst (skgc_topics_and_eval_to_json pubs p) = Stopped (Raised Terminal.EOFError)
      /\ disk (snd (skgc_topics_and_eval_to_json pubs p)) = disk p).
Proof.
  intros Hs. destruct p as [sin con dsk so srv]. cbn [sys_stdout] in Hs. subst so.
  unfold skgc_topics_and_eval_to_json. cbn [process_stdin disk console]. split.
  - intros bad file_name rest -> B O. now apply save_json_loop_saves.
  - intros B. now apply save_json_loop_eof.
Qed.


(** *** The whole program *)

Lemma from_terminal_kept (I : Process -> Prop) :
  (forall lines p, I p -> I (emit lines p)) ->
  (forall lines p, I p -> I (with_stdin lines p)) ->
  forall (A : Type)
         (f : Terminal.Terminal -> Terminal.Outcome A * Terminal.Terminal) p,
    I p -> I (snd (from_terminal f p)).
Proof.
  intros Ke Ki A f p H. unfold from_terminal.
  destruct (f _) as [o t]. cbn [snd]. apply Ki, Ke, H.
Qed.

Lemma from_run_kept (I : Process -> Prop) :
  (forall lines p, I p -> I (emit lines p)) ->
  (forall w p, I p -> I (with_service w p)) ->
  forall f pubs mha p, I p -> I (snd (from_run f pubs mha p)).
Proof.
  intros Ke Kw f pubs mha p H. unfold from_run.
  destruct (f _) as [[u|e] r]; cbn [snd]; apply Kw, Ke, H.
Qed.

Lemma main_input_kept (I : Process -> Prop) :
  (forall lines p, I p -> I (emit lines p)) ->
  (forall lines p, I p -> I (with_stdin lines p)) ->
  forall p, I p -> I (snd (main_input p)).
Proof.
  intros Ke Ki p H. unfold main_input.
  pose proof (from_terminal_kept I Ke Ki _ (Terminal.get_publications_data files) p H) as T.
  destruct (from_terminal (Terminal.get_publications_data files) p)
    as [[[[|pub [|pub2 l]]|]|e] q]; cbn [snd] in *;
    try (apply Ke, T); try exact T.
  match goal with
  | |- context [from_terminal ?f q] =>
      pose proof (from_terminal_kept I Ke Ki _ f q T) as S;
      destruct (from_terminal f q) as [[sel|e] q']
  end; cbn [snd] in *; [apply Ke, S | exact S].
Qed.

Lemma save_json_loop_stopped (I : Process -> Prop) :
  (forall lines p, I p -> I (emit lines p)) ->
  (forall lines p, I p -> I (with_stdin lines p)) ->
  forall data lines p e,
    I p -> fst (save_json_loop data lines p) = Stopped e ->
    I (snd (save_json_loop data lines p)).
Proof.
  intros Ke Ki data lines. induction lines as [|x lines IH]; intros p e H S;
    cbn [save_json_loop] in *.
  - cbn [snd]. apply Ki, Ke, H.
  - destruct (open_error x) as [message|].
    + apply (IH _ e); [apply Ke, Ke, H | exact S].
    + discriminate S.
Qed.

Lemma save_json_loop_completed (data : list Publication) (lines : list string) :
  forall p,
    sys_stdout p = None ->
    fst (save_json_loop data lines p) = Completed tt ->
    exists file_name,
      open_error file_name = None
      /\ disk (snd (save_json_loop data lines p)) file_name = Some (JsonFile data).
Proof.
  induction lines as [|x lines IH]; intros p Hs S; cbn [save_json_loop] in *.
  - discriminate S.
  - destruct (open_error x) as [message|] eqn:O.
    + apply IH; [exact Hs | exact S].
    + exists x. split; [exact O|].
      cbn [snd with_stdin emit write_file disk sys_stdout]. rewrite Hs.
      now rewrite String.eqb_refl.
Qed.

Lemma print_eval_details_console (pubs : list Publication) (p : Process) :
  sys_stdout p = None ->
  fst (print_eval_details pubs p) = Completed tt ->
  sys_stdout (snd (print_eval_details pubs p)) = None.
Proof.
  intros Hs. unfold print_eval_details.
  match goal with
  | |- context [save_choice_loop ?l ?q] =>
      pose proof (save_choice_loop_kept (fun q' => sys_stdout q' = None)) as S;
      specialize (S (fun _ _ H => H) (fun _ _ H => H) l q Hs);
      destruct (save_choice_loop l q) as [[[file_bool file_name]|e] q']
  end; cbn [snd fst] in *; [|discriminate].
  destruct (open_error file_name); [discriminate|].
  destruct file_bool.
  - destruct (report_body pubs _) as [[u|e] q'']; [reflexivity | discriminate].
  - match goal with
    | |- context [report_body pubs ?q] =>
        pose proof (report_body_emits (fun q' => sys_stdout q' = None)
                      (fun _ _ H => H) pubs q S) as R;
        destruct (report_body pubs q) as [[u|e] q'']
    end; cbn [snd fst] in *; [intros _; exact R | discriminate].
Qed.

Lemma from_run_extract (pubs pubs' : list Publication) (mha' : list (list Turn))
  (p p' : Process) :
  from_run extract_topics_all pubs [] p = (Completed (pubs', mha'), p') ->
  Forall2 (fun pub pub' => exists topics, topics <> [] /\ pub' = set_skgc_topics topics pub)
    pubs pubs'.
Proof.
  unfold from_run.
  destruct (extract_topics_all _) as [[u|e] r] eqn:E; [|discriminate].
  intros H. inversion H; subst; clear H.
  unfold extract_topics_all in E. cbv zeta in E.
  apply (extract_topics_loop_ok _ _ []) in E; [|reflexivity|reflexivity].
  destruct E as (ledgers & todo' & _ & A2 & A3 & _).
  cbn [publications run_print app] in *. now rewrite A2.
Qed.

Lemma from_run_eval (pubs pubs' : list Publication) (mha mha' : list (list Turn))
  (p p' : Process) :
  from_run eval_all pubs mha p = (Completed (pubs', mha'), p') ->
  Forall2 evaluated pubs pubs'.
Proof.
  unfold from_run.
  destruct (eval_all _) as [[u|e] r] eqn:E; [|discriminate].
  intros H. inversion H; subst; clear H.
  unfold eval_all in E. cbn [publications] in E.
  apply (eval_loop_ok _ _ [] [] mha) in E; try reflexivity.
  destruct E as (todo' & htodo' & A1 & _ & A3 & _).
  cbn [app] in A1. now rewrite A1.
Qed.

Lemma evaluated_results (pub pub' : Publication) :
  evaluated pub pub' ->
  has_results pub' = true /\ skgc_topics pub' = skgc_topics pub.
Proof.
  intros (t1 & g1 & t2 & g2 & c1 & c2 & f1 & f2 & _ & _ & _ & _ & ->).
  split; reflexivity.
Qed.

(** X28.  A run that fails saves no results.  When [main] ends in an
    exception, at whatever stage (input, extraction, evaluation, report or
    the final question), no JSON file has been written: every JSON file on
    the disk was there before, with the same records.  The results of the
    publications processed before the failure are lost. *)
Theorem main_failure_saves_no_results (p : Process) (e : process_exn) :
  fst (main p) = Stopped e ->
  forall name data,
    disk (snd (main p)) name = Some (JsonFile data) ->
    disk p name = Some (JsonFile data).
Proof.
  set (I := fun q : Process =>
              forall name data,
                disk q name = Some (JsonFile data) -> disk p name = Some (JsonFile data)).
  assert (Ke : forall lines q, I q -> I (emit lines q)).
  { intros lines q H name data. unfold emit. cbn [disk].
    destruct (sys_stdout q) as [f|]; [|apply H].
    destruct (String.eqb name f); [discriminate | apply H]. }
  assert (Ki : forall lines q, I q -> I (with_stdin lines q)) by (intros ? ? H; exact H).
  assert (Kw : forall w q, I q -> I (with_service w q)) by (intros ? ? H; exact H).
  assert (Ks : forall t q, I q -> I (with_sys_stdout t q)) by (intros ? ? H; exact H).
  assert (Kf : forall f q, I q -> I (write_file f (TextFile []) q)).
  { intros f q H name data. cbn [write_file disk].
    destruct (String.eqb name f); [discriminate | apply H]. }
  assert (K : kept I) by (repeat split; assumption).
  assert (H0 : I p) by (intros name data H; exact H).
  intros S. change (I (snd (main p))). revert S. unfold main.
  pose proof (main_input_kept I Ke Ki p H0) as H1.
  destruct (main_input p) as [[[pubs|]|e1] p1]; cbn [snd fst] in *;
    [ | discriminate | intros _; exact H1 ].
  pose proof (from_run_kept I Ke Kw extract_topics_all pubs [] p1 H1) as H2.
  destruct (from_run extract_topics_all pubs [] p1) as [[[pubs1 mha1]|e2] p2];
    cbn [snd fst] in *; [ | intros _; exact H2 ].
  pose proof (from_run_kept I Ke Kw eval_all pubs1 mha1 p2 H2) as H3.
  destruct (from_run eval_all pubs1 mha1 p2) as [[[pubs2 mha2]|e3] p3];
    cbn [snd fst] in *; [ | intros _; exact H3 ].
  pose proof (print_eval_details_kept I K pubs2 _
                (Ke _ _ H3 : I (print_messages_history mha2 p3))) as H4.
  destruct (print_eval_details pubs2 (print_messages_history mha2 p3)) as [[u|e4] p4];
    cbn [snd fst] in *; [ | intros _; exact H4 ].
  unfold skgc_topics_and_eval_to_json. intros S.
  apply (save_json_loop_stopped I Ke Ki _ _ _ e H4 S).
Qed.

(** X29.  A run that completes has saved complete records.  When [main],
    started with the console as [sys.stdout], returns normally, then
    either nothing was read (the last line on the console says so; no file
    is touched and the service was not called), or a JSON file has been
    written in which every record holds its extracted topics and all ten
    results of the evaluation. *)
Theorem main_completed_saves_results (p : Process) :
  sys_stdout p = None ->
  fst (main p) = Completed tt ->
  (last (console (snd (main p))) (say "")
   = say ("An unexpected error while reading the data occurred."
          ++ " Please restart the program.")
   /\ disk (snd (main p)) = disk p
   /\ service (snd (main p)) = service p)
  \/ (exists file_name data,
        open_error file_name = None
        /\ disk (snd (main p)) file_name = Some (JsonFile data)
        /\ Forall (fun pub => skgc_topics pub <> None /\ has_results pub = true) data).
Proof.
  intros Hs. unfold main.
  set (I := fun q : Process =>
              sys_stdout q = None /\ disk q = disk p).
  assert (Ke : forall lines q, I q -> I (emit lines q)).
  { intros lines q [H1 H2]. unfold I, emit. cbn [disk sys_stdout]. now rewrite H1. }
  assert (Ki : forall lines q, I q -> I (with_stdin lines q)) by (intros ? ? H; exact H).
  assert (Kw : forall w q, I q -> I (with_service w q)) by (intros ? ? H; exact H).
  assert (H0 : I p) by (split; [exact Hs | reflexivity]).
  pose proof (main_input_kept I Ke Ki p H0) as H1.
  destruct (main_input p) as [[[pubs|]|e1] p1] eqn:E1; cbn [snd fst] in *;
    [ | | discriminate ].
  - intros S. right.
    destruct (from_run extract_topics_all pubs [] p1) as [[[pubs1 mha1]|e2] p2] eqn:E2;
      [|discriminate S].
    pose proof (from_run_kept I Ke Kw extract_topics_all pubs [] p1 H1) as H2.
    rewrite E2 in H2. cbn [snd] in H2.
    destruct (from_run eval_all pubs1 mha1 p2) as [[[pubs2 mha2]|e3] p3] eqn:E3;
      [|discriminate S].
    pose proof (from_run_kept I Ke Kw eval_all pubs1 mha1 p2 H2) as H3.
    rewrite E3 in H3. cbn [snd] in H3.
    pose proof (print_eval_details_console pubs2 (print_messages_history mha2 p3)
                  (proj1 (Ke _ _ H3))) as H4.
    destruct (print_eval_details pubs2 (print_messages_history mha2 p3))
      as [[u|e4] p4]; [|discriminate S].
    cbn [snd fst] in *. destruct u. specialize (H4 eq_refl).
    unfold skgc_topics_and_eval_to_json in *.
    destruct (save_json_loop_completed pubs2 _ p4 H4 S) as (file_name & O & D).
    exists file_name, pubs2. split; [exact O|]. split; [exact D|].
    apply from_run_extract in E2. apply from_run_eval in E3.
    clear - E2 E3. revert pubs E2. induction E3 as [|pub1 pub2 l1 l2 Ev _ IH];
      intros pubs E2; [constructor|].
    inversion E2 as [|pub0 ? l0 ? (topics & _ & T) E2']; subst.
    constructor; [|apply (IH _ E2')].
    destruct (evaluated_results _ _ Ev) as [R T]. rewrite T. split; [discriminate | exact R].
  - intros _. left. clear H1.
    unfold main_input in E1.
    pose proof (from_terminal_kept
                  (fun q => I q /\ service q = service p)
                  ltac:(intros lines q [A B]; split; [apply Ke, A | exact B])
                  ltac:(intros lines q H; exact H)
                  _ (Terminal.get_publications_data files) p
                  (conj H0 eq_refl)) as T.
    destruct (from_terminal (Terminal.get_publications_data files) p)
      as [[[[|pub [|pub2 l]]|]|e] q]; cbn [snd] in *.
    + inversion E1; subst. destruct T as [[T1 T2] T3].
      cbn [emit console disk service]. rewrite T1.
      split; [apply last_last | split; assumption].
    + discriminate E1.
    + destruct (from_terminal _ q) as [[sel|e] q']; discriminate E1.
    + inversion E1; subst. destruct T as [[T1 T2] T3].
      cbn [emit console disk service]. rewrite T1.
      split; [apply last_last | split; assumption].
    + discriminate E1.
Qed.


Lemma from_terminal_record (A : Type)
  (f : Terminal.Terminal -> Terminal.Outcome A * Terminal.Terminal)
  (o : Terminal.Outcome A) (t : Terminal.Terminal) sin con dsk srv :
  f (Terminal.mkTerminal sin []) = (o, t) ->
  from_terminal f (mkProcess sin con dsk None srv)
  = (ending o,
     mkProcess (Terminal.stdin t) (con ++ map Shown (Terminal.written t))%list
       dsk None srv).
Proof.
  intros E. unfold from_terminal. cbn [process_stdin]. rewrite E. reflexivity.
Qed.

Lemma from_run_record (f : Run -> Result unit * Run)
  (pubs : list Publication) (mha : list (list Turn))
  (result : Result unit) (r : Run) sin con dsk srv :
  f (mkRun srv [] pubs mha) = (result, r) ->
  from_run f pubs mha (mkProcess sin con dsk None srv)
  = (match result with
     | Ok _ => Completed (publications r, messages_history_all r)
     | Raise e => Stopped (Raised (Terminal.Builtin e))
     end,
     mkProcess sin (con ++ map Printed (run_stdout r))%list dsk None (run_world r)).
Proof.
  intros E. unfold from_run. cbn [service]. rewrite E. destruct result; reflexivity.
Qed.

Lemma get_publications_data_file (c name : string) (rest : list string)
  (data : list Terminal.Entry) :
  Terminal.lower c = "f" ->
  files name = Terminal.Json data ->
  exists out,
    Terminal.get_publications_data files (Terminal.mkTerminal (c :: name :: rest) [])
    = (match Terminal.read_entries data None None None None None with
       | Terminal.Done pubs => Terminal.Done (Some pubs)
       | Terminal.Failed e => Terminal.Failed e
       end,
       Terminal.mkTerminal rest out).
Proof.
  intros Hc Hf.
  unfold Terminal.get_publications_data, Terminal.user_selection_file_or_text.
  cbn [Terminal.stdin Terminal.written app Terminal.file_or_text_loop].
  rewrite Hc. change (String.eqb "f" "f") with true. cbn [orb].
  cbv iota. change (String.eqb "f" "t") with false. cbv iota.
  unfold Terminal.read_publication_from_file.
  cbn [Terminal.stdin Terminal.written Terminal.read_file_loop]. rewrite Hf.
  destruct (Terminal.read_entries data None None None None None);
    eexists; reflexivity.
Qed.

Lemma select_publications_empty (choice : string) (rest : list string)
  (pubs : list Publication) :
  (Terminal.upper choice = "B" /\ (List.length pubs <= 2)%nat)
  \/ (Terminal.upper choice = "C" /\ (List.length pubs <= 36)%nat) ->
  exists out,
    Terminal.select_publications int_max_str_digits pubs
      (Terminal.mkTerminal (choice :: rest) [])
    = (Terminal.Done [], Terminal.mkTerminal rest out).
Proof.
  intros H. unfold Terminal.select_publications.
  cbn [Terminal.stdin Terminal.written Terminal.select_loop].
  destruct H as [[Hc L]|[Hc L]]; rewrite Hc.
  - change (String.eqb "B" "A") with false. change (String.eqb "B" "B") with true.
    cbv iota. rewrite skipn_all2; [eexists; reflexivity|].
    rewrite length_firstn. lia.
  - change (String.eqb "C" "A") with false. change (String.eqb "C" "B") with false.
    change (String.eqb "C" "C") with true.
    cbv iota. rewrite skipn_all2; [eexists; reflexivity|].
    rewrite length_firstn. lia.
Qed.

Lemma printed_overall_comparison_nothing (w : World) :
  printed (overall_comparison []) w
  = (Ok tt,
     [Msg ""; Msg (repeat_string "-" 160);
      Msg "Overall comparison between SKGC and CSOC: Precision mean comparison";
      MsgNum "Precision mean of SKGC appproach: " NaN;
      MsgNum "Precision mean of CSOC appproach: " NaN;
      Msg (repeat_string "-" 160);
      Msg "Overall comparison between SKGC and CSOC: Recall mean comparison";
      MsgNum "Recall mean of SKGC appproach: " NaN;
      MsgNum "Recall mean of CSOC appproach: " NaN;
      Msg (repeat_string "-" 160);
      Msg "Overall comparison between SKGC and CSOC: F1 mean comparison";
      MsgNum "F1 mean of SKGC appproach: " NaN;
      MsgNum "F1 mean of CSOC appproach: " NaN;
      Msg (repeat_string "-" 160);
      Msg ("According to the automatic evaluation, the SKGC and the CSOC approach performed overall"
           ++ " identically.")]).
Proof.
  cbv beta iota delta [printed overall_comparison bind ret lift print print_num
                       collect lookup f1_mean hmean existsb forallb float_gt
                       fst snd world stdout messages_history publication app].
  reflexivity.
Qed.

Lemma report_body_nothing sin con dsk srv :
  exists lines,
    report_body [] (mkProcess sin con dsk None srv)
    = (Completed tt,
       mkProcess sin
         ((con ++ [say (repeat_string "-" 160); say "Evaluation details:"]) ++ lines)%list
         dsk None srv)
    /\ In (Printed (MsgNum "F1 mean of SKGC appproach: " NaN)) lines
    /\ In (Printed (MsgNum "F1 mean of CSOC appproach: " NaN)) lines
    /\ In (say ("According to the automatic evaluation, the SKGC and the CSOC approach performed overall"
                ++ " identically.")) lines.
Proof.
  unfold report_body. cbn [details_loop List.length].
  rewrite emit_console. cbn [service].
  rewrite printed_overall_comparison_nothing, emit_console.
  eexists. split; [reflexivity|].
  cbn [map]. unfold say. split; [|split].
  - do 11 right. left. reflexivity.
  - do 12 right. left. reflexivity.
  - do 14 right. left. reflexivity.
Qed.

Lemma print_eval_details_nothing (answer : string) (rest : list string) :
  Terminal.upper answer = "B" ->
  open_error "file_name.txt" = None ->
  forall con dsk srv,
  exists lines,
    print_eval_details [] (mkProcess (answer :: rest) con dsk None srv)
    = (Completed tt,
       mkProcess rest (con ++ lines)%list
         (fun name => if String.eqb name "file_name.txt"
                      then Some (TextFile []) else dsk name)
         None srv)
    /\ In (Printed (MsgNum "F1 mean of SKGC appproach: " NaN)) lines
    /\ In (Printed (MsgNum "F1 mean of CSOC appproach: " NaN)) lines
    /\ In (say ("According to the automatic evaluation, the SKGC and the CSOC approach performed overall"
                ++ " identically.")) lines.
Proof.
  intros Ha O con dsk srv. unfold print_eval_details.
  rewrite emit_console. cbn [process_stdin].
  match goal with
  | |- context [save_choice_loop _ (mkProcess ?i ?k _ _ _)] =>
      destruct (save_choice_loop_declined [] answer rest (Forall_nil _) Ha i k dsk srv)
        as (asked & E & _)
  end.
  cbn [app] in E. rewrite E, O. unfold write_file.
  cbn [process_stdin console disk sys_stdout service].
  match goal with
  | |- context [report_body [] (mkProcess ?i ?k ?d None ?s)] =>
      destruct (report_body_nothing i k d s) as (lines & E4 & I1 & I2 & I3)
  end.
  rewrite E4. rewrite <- !app_assoc.
  eexists. split; [reflexivity|].
  repeat split; do 3 (apply in_or_app; right); assumption.
Qed.

(** A file without entries.  When the user chooses the file and
    names a JSON file that holds an empty object, [main] prints that an
    unexpected error occurred and returns normally: nothing is processed,
    the service is not called, no file is written and the following lines
    of input are left unread. *)
Theorem main_nothing_read (p : Process) (c name : string) (rest : list string) :
  sys_stdout p = None ->
  process_stdin p = c :: name :: rest ->
  Terminal.lower c = "f" ->
  files name = Terminal.Json [] ->
  fst (main p) = Completed tt
  /\ last (console (snd (main p))) (say "")
     = say ("An unexpected error while reading the data occurred."
            ++ " Please restart the program.")
  /\ service (snd (main p)) = service p
  /\ disk (snd (main p)) = disk p
  /\ process_stdin (snd (main p)) = rest.
Proof.
  intros Hs Hi Hc Hf. destruct p as [sin con dsk so srv].
  cbn [sys_stdout process_stdin disk console service] in *. subst so sin.
  destruct (get_publications_data_file c name rest [] Hc Hf) as (out & E).
  cbn [Terminal.read_entries] in E.
  unfold main, main_input. rewrite (from_terminal_record _ _ _ _ _ _ _ _ E).
  cbn [ending Terminal.stdin Terminal.written]. rewrite emit_console.
  cbn [fst snd console service disk process_stdin].
  repeat split. apply last_last.
Qed.

(** X30.  An empty selection is processed like any other.  When two or
    more publications were read from the file and the user chooses mode B
    with no more than two, or mode C with no more than 36 publications,
    the selection is empty and [main] goes on regardless: the service is
    never called, the report (declined here with B) prints [nan] as both
    F1 means and the verdict that both approaches performed identically,
    and the JSON file that is written holds no record. *)
Theorem main_empty_selection (p : Process)
  (c name choice answer json_name : string) (rest : list string)
  (data : list Terminal.Entry) (pubs : list Publication) :
  sys_stdout p = None ->
  process_stdin p = c :: name :: choice :: answer :: json_name :: rest ->
  Terminal.lower c = "f" ->
  files name = Terminal.Json data ->
  Terminal.read_entries data None None None None None = Terminal.Done pubs ->
  (2 <= List.length pubs)%nat ->
  (Terminal.upper choice = "B" /\ (List.length pubs <= 2)%nat)
  \/ (Terminal.upper choice = "C" /\ (List.length pubs <= 36)%nat) ->
  Terminal.upper answer = "B" ->
  open_error "file_name.txt" = None ->
  open_error json_name = None ->
  fst (main p) = Completed tt
  /\ service (snd (main p)) = service p
  /\ disk (snd (main p)) json_name = Some (JsonFile [])
  /\ In (Printed (MsgNum "F1 mean of SKGC appproach: " NaN)) (console (snd (main p)))
  /\ In (Printed (MsgNum "F1 mean of CSOC appproach: " NaN)) (console (snd (main p)))
  /\ In (say ("According to the automatic evaluation, the SKGC and the CSOC approach performed overall"
              ++ " identically."))
        (console (snd (main p)))
  /\ process_stdin (snd (main p)) = rest.
Proof.
  intros Hs Hi Hc Hf Hr L2 Hsel Ha O1 O2. destruct p as [sin con dsk so srv].
  cbn [sys_stdout process_stdin disk console service] in *. subst so sin.
  destruct (get_publications_data_file c name (choice :: answer :: json_name :: rest)
              data Hc Hf) as (out & E).
  rewrite Hr in E.
  destruct (select_publications_empty choice (answer :: json_name :: rest) pubs Hsel)
    as (out2 & E2).
  unfold main, main_input. rewrite (from_terminal_record _ _ _ _ _ _ _ _ E).
  destruct pubs as [|pub1 [|pub2 pubs]]; cbn [List.length] in L2; [lia | lia |].
  cbn [ending Terminal.stdin Terminal.written].
  rewrite (from_terminal_record _ _ _ _ _ _ _ _ E2).
  cbn [ending Terminal.stdin Terminal.written List.length selected_lines].
  rewrite emit_console.
  rewrite (from_run_record extract_topics_all [] [] (Ok tt)
             (mkRun srv [Msg (repeat_string "-" 160); Msg (repeat_string "-" 160);
                         Msg "Topic extraction and evaluation process"] [] [])
             _ _ _ _ eq_refl).
  cbn [publications messages_history_all run_stdout run_world].
  rewrite (from_run_record eval_all [] [] (Ok tt) (mkRun srv [] [] []) _ _ _ _ eq_refl).
  cbn [publications messages_history_all run_stdout run_world].
  unfold print_messages_history. rewrite emit_console.
  match goal with
  | |- context [print_eval_details [] (mkProcess _ ?k _ _ _)] =>
      destruct (print_eval_details_nothing answer (json_name :: rest) Ha O1 k dsk srv)
        as (lines & E3 & I1 & I2 & I3)
  end.
  rewrite E3. unfold skgc_topics_and_eval_to_json.
  cbn [process_stdin save_json_loop]. rewrite O2. rewrite !emit_console.
  unfold write_file. cbn [process_stdin console disk sys_stdout service].
  rewrite !emit_console. unfold with_stdin.
  cbn [fst snd process_stdin console disk sys_stdout service].
  rewrite String.eqb_refl.
  repeat split; auto.
  all: apply in_or_app; left; apply in_or_app; left; apply in_or_app; right; assumption.
Qed.


(** *** The first prompt of the extraction *)

Lemma replace_once (c : ascii) (old' new a t : string) :
  count_char c a = 0%nat ->
  contains (String c old') t = false ->
  replace (String c old') new (a ++ String c old' ++ t) = a ++ new ++ t.
Proof.
  intros H C. unfold replace. rewrite (split_app_sep c old' a t H).
  rewrite (split_absent _ _ C). reflexivity.
Qed.

Lemma fill_three (a b c d title_text keywords_text abstract_text : string) :
  count_char "X" (a ++ title_text ++ b ++ keywords_text ++ c) = 0%nat ->
  contains "XXXtitleXXX" (b ++ "XXXkeywordsXXX" ++ c ++ "XXXabstractXXX" ++ d) = false ->
  contains "XXXkeywordsXXX" (c ++ "XXXabstractXXX" ++ d) = false ->
  contains "XXXabstractXXX" d = false ->
  replace "XXXabstractXXX" abstract_text
    (replace "XXXkeywordsXXX" keywords_text
       (replace "XXXtitleXXX" title_text
          (a ++ "XXXtitleXXX" ++ b ++ "XXXkeywordsXXX" ++ c ++ "XXXabstractXXX" ++ d)))
  = a ++ title_text ++ b ++ keywords_text ++ c ++ abstract_text ++ d.
Proof.
  intros N C1 C2 C3.
  rewrite !count_char_app in N.
  assert (Na : count_char "X" a = 0%nat) by lia.
  assert (Nb : count_char "X" (a ++ title_text ++ b) = 0%nat)
    by (rewrite !count_char_app; lia).
  assert (Nc : count_char "X" ((a ++ title_text ++ b) ++ keywords_text ++ c) = 0%nat)
    by (rewrite !count_char_app; lia).
  rewrite (replace_once "X" "XXtitleXXX" title_text a
             (b ++ "XXXkeywordsXXX" ++ c ++ "XXXabstractXXX" ++ d) Na C1).
  rewrite <- (append_assoc title_text b), <- (append_assoc a).
  rewrite (replace_once "X" "XXkeywordsXXX" keywords_text (a ++ title_text ++ b)
             (c ++ "XXXabstractXXX" ++ d) Nb C2).
  rewrite <- (append_assoc keywords_text c), <- (append_assoc (a ++ title_text ++ b)).
  rewrite (replace_once "X" "XXabstractXXX" abstract_text
             ((a ++ title_text ++ b) ++ keywords_text ++ c) d Nc C3).
  now rewrite !append_assoc.
Qed.

Lemma extract_begin_prompts (st st' : State) (pa pb l : list string) :
  read_yaml "prompts_gpt_agent.yaml" = YamlPrompts l ->
  extract_begin st = (Ok (pa, pb), st') -> pa = map strip l.
Proof.
  intros Y. unfold extract_begin, load_prompts_from_yaml at 1. rewrite Y. intros H.
  apply bind_ok in H. destruct H as (pa' & s1 & R1 & H).
  inversion R1; subst; clear R1.
  apply bind_ok in H. destruct H as (pb' & s2 & R2 & H).
  apply bind_ok in H. destruct H as (u & s3 & R3 & H).
  now inversion H.
Qed.

Lemma extract_stage1_prompt (pa pb : list string) (st st' : State) (r : string) :
  extract_stage1 pa pb st = (Ok r, st') ->
  exists template,
    nth_error pa 0 = Some template
    /\ messages_history st' =
       (messages_history st
        ++ [mkTurn user
              (replace "XXXabstractXXX" (abstract (publication st))
                 (replace "XXXkeywordsXXX"
                    (list_to_comma_separated_string (keywords (publication st)))
                    (replace "XXXtitleXXX" (title (publication st)) template)));
            mkTurn assistant r])%list.
Proof.
  unfold extract_stage1. intros H. repeat peel H.
  close_run H. eexists. split; [eassumption | reflexivity].
Qed.

(** X27.  The first prompt of the extraction is the first template with
    its three placeholders filled in.  Let the stripped first template of
    the agent be [a], the title placeholder, [b], the keywords
    placeholder, [c], the abstract placeholder and [d], where no capital X
    occurs in [a], [b], [c], the title or the rendered keywords and no
    placeholder occurs again after its place.  Then, when
    [extract_topics_one] returns, the second turn it has appended to the
    history (after the system turn) is the user prompt made of [a], the
    title, [b], the keywords separated by comma and space, [c], the
    abstract as it is (whatever it contains) and [d]. *)
Theorem extract_topics_one_first_prompt (st st' : State) (topics : list string)
  (template : string) (templates : list string) (a b c d : string) :
  read_yaml "prompts_gpt_agent.yaml" = YamlPrompts (template :: templates) ->
  strip template
  = a ++ "XXXtitleXXX" ++ b ++ "XXXkeywordsXXX" ++ c ++ "XXXabstractXXX" ++ d ->
  count_char "X"
    (a ++ title (publication st) ++ b
     ++ list_to_comma_separated_string (keywords (publication st)) ++ c) = 0%nat ->
  contains "XXXtitleXXX" (b ++ "XXXkeywordsXXX" ++ c ++ "XXXabstractXXX" ++ d) = false ->
  contains "XXXkeywordsXXX" (c ++ "XXXabstractXXX" ++ d) = false ->
  contains "XXXabstractXXX" d = false ->
  extract_topics_one st = (Ok topics, st') ->
  nth_error (messages_history st') (S (List.length (messages_history st)))
  = Some (mkTurn user
            (a ++ title (publication st) ++ b
             ++ list_to_comma_separated_string (keywords (publication st)) ++ c
             ++ abstract (publication st) ++ d)).
Proof.
  intros Y T N C1 C2 C3 H. unfold extract_topics_one in H.
  apply bind_ok in H. destruct H as ([pa pb] & s0 & B & H).
  apply bind_ok in H. destruct H as (r1 & s1 & R1 & H).
  apply bind_ok in H. destruct H as (r2 & s2 & R2 & H).
  apply bind_ok in H. destruct H as (r3 & s3 & R3 & H).
  inversion H; subst; clear H.
  pose proof (extract_begin_prompts _ _ _ _ _ Y B) as Pa.
  pose proof (extract_begin_publication _ _ _ B) as P0.
  apply extract_begin_ok in B.
  apply extract_stage1_prompt in R1. destruct R1 as (t0 & I0 & E1).
  apply extract_stage2_ok in R2. destruct R2 as (p2 & E2 & _).
  apply extract_stage3_ok in R3. destruct R3 as (p3 & E3 & _).
  rewrite Pa in I0. cbn [map nth_error] in I0. inversion I0; subst t0; clear I0.
  rewrite T, P0, (fill_three _ _ _ _ _ _ _ N C1 C2 C3) in E1.
  rewrite E3, E2, E1, B, <- !app_assoc.
  rewrite nth_error_app2; [|lia].
  replace (S (List.length (messages_history st)) - List.length (messages_history st))%nat
    with 1%nat by lia.
  reflexivity.
Qed.

End Pipeline.

Arguments Completed {A} a.
Arguments Stopped {A} e.

(** ** Properties of the input functions *)

Import Terminal.

(** *** Choosing between file and text *)

Lemma file_or_text_loop_result (lines : list string) :
  forall out c t',
  file_or_text_loop lines out = (Done c, t') -> c = "f" \/ c = "t".
Proof.
  induction lines as [|line rest IH]; intros out c t' H.
  - discriminate H.
  - cbn [file_or_text_loop] in H.
    destruct (String.eqb (lower line) "f") eqn:Ef.
    + inversion H. left. now apply String.eqb_eq.
    + destruct (String.eqb (lower line) "t") eqn:Et.
      * inversion H. right. now apply String.eqb_eq.
      * cbn [orb] in H. now apply IH in H.
Qed.

Lemma file_or_text_loop_skips (bad : list string) :
  forall good rest out,
  Forall (fun line => is_file_or_text line = false) bad ->
  is_file_or_text good = true ->
  file_or_text_loop (bad ++ good :: rest) out
  = (Done (lower good),
     mkTerminal rest
       (out ++
        flat_map (fun _ =>
                    [Text "Please enter 'f' or 't': ";
                     Text "It seems like you didn't enter 'f' or 't'. Please enter either 'f' or 't'."])
                 bad
        ++ [Text "Please enter 'f' or 't': "])%list).
Proof.
  induction bad as [|line bad IH]; intros good rest out Hb Hg.
  - cbn [app file_or_text_loop flat_map]. unfold is_file_or_text in Hg.
    rewrite Hg. reflexivity.
  - inversion Hb as [|? ? Hl Hr]; subst. unfold is_file_or_text in Hl.
    cbn [app file_or_text_loop flat_map]. rewrite Hl.
    rewrite (IH good rest _ Hr Hg).
    rewrite <- !app_assoc. reflexivity.
Qed.

Lemma file_or_text_loop_eof (lines : list string) :
  forall out,
  Forall (fun line => is_file_or_text line = false) lines ->
  fst (file_or_text_loop lines out) = Failed EOFError.
Proof.
  induction lines as [|line rest IH]; intros out H.
  - reflexivity.
  - inversion H as [|? ? Hl Hr]; subst. unfold is_file_or_text in Hl.
    cbn [file_or_text_loop]. rewrite Hl. now apply IH.
Qed.

(** X18.  [user_selection_file_or_text] returns nothing but ["f"] or
    ["t"].  It returns at the first line whose lower-case form is one of
    the two, with that form as its result; every line before it is
    answered by one complaint, and the lines after it are left unread.
    When no line qualifies it ends in [EOFError]. *)
Theorem user_selection_file_or_text_answer (t : Terminal) :
  (forall c t', user_selection_file_or_text t = (Done c, t') -> c = "f" \/ c = "t")
  /\ (forall bad good rest,
        stdin t = (bad ++ good :: rest)%list ->
        Forall (fun line => is_file_or_text line = false) bad ->
        is_file_or_text good = true ->
        exists t',
          user_selection_file_or_text t = (Done (lower good), t')
          /\ stdin t' = rest
          /\ List.length (written t')
             = (List.length (written t) + 2 + 2 * List.length bad)%nat)
  /\ (Forall (fun line => is_file_or_text line = false) (stdin t) ->
      fst (user_selection_file_or_text t) = Failed EOFError).
Proof.
  unfold user_selection_file_or_text. split; [|split].
  - intros c t'. apply file_or_text_loop_result.
  - intros bad good rest E Hb Hg. rewrite E.
    rewrite (file_or_text_loop_skips bad good rest _ Hb Hg).
    eexists. split; [reflexivity|]. split; [reflexivity|].
    cbn [written]. rewrite !length_app. cbn [List.length].
    assert (L : forall (A : Type) (x y : Written) (l : list A),
                List.length (flat_map (fun _ => [x; y]) l) = (2 * List.length l)%nat).
    { intros A x y l. induction l as [|a l IH]; simpl; [reflexivity | rewrite IH; lia]. }
    rewrite L. lia.
  - apply file_or_text_loop_eof.
Qed.

(** *** Entering one publication *)

Lemma map_strip_split_clear (s : string) :
  map strip (split "," s) <> []
  /\ Forall (fun item => strip item = item) (map strip (split "," s)).
Proof.
  split.
  - pose proof (split_nonempty "," s) as N.
    destruct (split "," s); [congruence | discriminate].
  - apply Forall_forall. intros item H. apply in_map_iff in H.
    destruct H as (x & <- & _). apply strip_clear.
Qed.

(** X19.  [user_text_publication] reads exactly five lines.  The
    publication it returns has the stripped first line as title and the
    stripped third as abstract; its keywords, its baseline result and its
    gold standard are the second, fourth and fifth line split on commas
    with the pieces stripped, so each of the three lists has at least one
    item: a line left empty gives the list of one empty text, not the
    empty list.  None of the keys the pipelines add is present.  With
    fewer than five lines to read it ends in [EOFError]. *)
Theorem user_text_publication_result (t : Terminal) :
  (forall l1 l2 l3 l4 l5 rest,
     stdin t = l1 :: l2 :: l3 :: l4 :: l5 :: rest ->
     exists pub t',
       user_text_publication t = (Done pub, t')
       /\ stdin t' = rest
       /\ title pub = strip l1 /\ abstract pub = strip l3
       /\ keywords pub = map strip (split "," l2)
       /\ csoc_result pub = map strip (split "," l4)
       /\ gold_standard pub = map strip (split "," l5)
       /\ keywords pub <> [] /\ csoc_result pub <> [] /\ gold_standard pub <> []
       /\ (l4 = "" -> csoc_result pub = [""])
       /\ (l5 = "" -> gold_standard pub = [""])
       /\ skgc_topics pub = None /\ skgc_f1 pub = None /\ csoc_f1 pub = None)
  /\ ((List.length (stdin t) < 5)%nat ->
      fst (user_text_publication t) = Failed EOFError).
Proof.
  split.
  - intros l1 l2 l3 l4 l5 rest E. unfold user_text_publication, input, write.
    rewrite E. cbn [stdin written].
    eexists. eexists. split; [reflexivity|]. cbn.
    repeat split; try apply map_strip_split_clear; intros ->; reflexivity.
  - intros L. unfold user_text_publication, input, write.
    destruct (stdin t) as [|l1 [|l2 [|l3 [|l4 [|l5 rest]]]]]; cbn; try reflexivity.
    simpl in L. lia.
Qed.

(** *** Selecting publications *)

Lemma select_one_loop_result (limit : nat) (pubs : list Publication)
  (lines : list string) :
  forall out sel t',
  select_one_loop limit pubs lines out = (Done sel, t') ->
  exists i pub, nth_error pubs i = Some pub /\ sel = [pub].
Proof.
  induction lines as [|line rest IH]; intros out sel t' H.
  - discriminate H.
  - cbn [select_one_loop] in H. cbv zeta in H.
    destruct (isdigit line).
    + destruct (int_of_str limit line) as [n|]; [|discriminate H].
      destruct ((1 <=? n) && (n <=? Z.of_nat (List.length pubs)))%Z.
      * destruct (nth_error pubs (Z.to_nat (n - 1))) as [pub|] eqn:E;
          [|discriminate H].
        inversion H; subst. eauto.
      * now apply IH in H.
    + now apply IH in H.
Qed.

Lemma select_loop_result (limit : nat) (pubs : list Publication)
  (lines : list string) :
  forall out sel t',
  select_loop limit pubs lines out = (Done sel, t') ->
  sel = pubs
  \/ sel = skipn 2 (firstn 36 pubs)
  \/ sel = skipn 36 (firstn 70 pubs)
  \/ exists i pub, nth_error pubs i = Some pub /\ sel = [pub].
Proof.
  induction lines as [|line rest IH]; intros out sel t' H.
  - discriminate H.
  - cbn [select_loop] in H. cbv zeta in H.
    destruct (String.eqb (upper line) "A"); [inversion H; auto|].
    destruct (String.eqb (upper line) "B"); [inversion H; auto|].
    destruct (String.eqb (upper line) "C"); [inversion H; auto|].
    destruct (String.eqb (upper line) "D").
    + apply select_one_loop_result in H. auto.
    + now apply IH in H.
Qed.

Lemma slice_segment {A : Type} (i j : nat) (l : list A) :
  skipn i (firstn (i + j) l) = firstn j (skipn i l).
Proof.
  revert l. induction i as [|i IH]; intros l; [reflexivity|].
  destruct l as [|x l]; [simpl; now rewrite firstn_nil|]. simpl. apply IH.
Qed.

Lemma single_segment {A : Type} (i : nat) (l : list A) (x : A) :
  nth_error l i = Some x -> [x] = firstn 1 (skipn i l).
Proof.
  revert l. induction i as [|i IH]; intros l H; destruct l as [|y l];
    try discriminate H.
  - inversion H. reflexivity.
  - simpl. now apply IH.
Qed.

(** X20.  Whatever the user types, when [select_publications] returns,
    its result is the whole list (choice A), its third to thirty-sixth
    item (choice B), its thirty-seventh to seventieth item (choice C), or
    one single item of it (choice D).  So the result is always a run of
    consecutive publications of the list, in their order, and choices B
    and C give at most thirty-four publications. *)
Theorem select_publications_result (limit : nat) (pubs : list Publication)
  (t t' : Terminal) (sel : list Publication) :
  select_publications limit pubs t = (Done sel, t') ->
  (sel = pubs
   \/ sel = skipn 2 (firstn 36 pubs)
   \/ sel = skipn 36 (firstn 70 pubs)
   \/ exists i pub, nth_error pubs i = Some pub /\ sel = [pub])
  /\ (exists i n, sel = firstn n (skipn i pubs))
  /\ (List.length (skipn 2 (firstn 36 pubs)) <= 34)%nat
  /\ (List.length (skipn 36 (firstn 70 pubs)) <= 34)%nat.
Proof.
  intros H. unfold select_publications in H. apply select_loop_result in H.
  split; [exact H|]. split; [|split].
  - destruct H as [->|[->|[->|(i & pub & E & ->)]]].
    + exists 0%nat, (List.length pubs). cbn [skipn]. now rewrite firstn_all.
    + exists 2%nat, 34%nat. apply (slice_segment 2 34).
    + exists 36%nat, 34%nat. apply (slice_segment 36 34).
    + exists i, 1%nat. now apply single_segment.
  - rewrite length_skipn, length_firstn. lia.
  - rewrite length_skipn, length_firstn. lia.
Qed.

Lemma all_chars_digits (s : string) :
  all_digits s = true -> all_chars isdigit_char s = true.
Proof.
  induction s as [|c s IH]; [reflexivity|]. simpl.
  destruct (digit_of c) eqn:E; [|discriminate].
  intros H. rewrite (IH H), andb_true_r.
  unfold digit_of in E. unfold isdigit_char.
  destruct ((48 <=? nat_of_ascii c) && (nat_of_ascii c <=? 57))%nat;
    [reflexivity | discriminate E].
Qed.

Lemma isdigit_str_of_nat (n : nat) : isdigit (str_of_nat n) = true.
Proof.
  destruct (str_of_nat_first_digit n) as (c & s & v & E & D).
  unfold isdigit. rewrite E. rewrite <- E.
  apply all_chars_digits. unfold str_of_nat. apply all_digits_uint.
Qed.

(** X21.  Choice D of [select_publications].  After a line whose
    upper-case form is ["D"], the decimal numeral of a number [n] between
    1 and the number of publications selects the [n]-th publication alone
    and leaves the following lines unread.  A line that [isdigit] accepts
    but [int] rejects (a superscript digit, or a numeral beyond the
    interpreter's digit limit) is not asked again: [ValueError] is
    raised. *)
Theorem select_publications_by_number (limit : nat) (pubs : list Publication)
  (d : string) (rest : list string) (out : list Written) :
  upper d = "D" ->
  (forall n pub,
     nth_error pubs n = Some pub ->
     limit = 0%nat \/ (String.length (str_of_nat (S n)) <= limit)%nat ->
     exists t',
       select_publications limit pubs (mkTerminal (d :: str_of_nat (S n) :: rest) out)
       = (Done [pub], t')
       /\ stdin t' = rest)
  /\ (forall line,
        isdigit line = true -> int_of_str limit line = None ->
        fst (select_publications limit pubs (mkTerminal (d :: line :: rest) out))
        = Failed (Builtin ValueError)).
Proof.
  intros D.
  assert (S0 : forall lines o,
             select_loop limit pubs (d :: lines) o
             = select_one_loop limit pubs lines
                 (o ++
                  [Text (str_of_nat (List.length pubs)
                         ++ " publications were read in from the file."
                         ++ " Please input A, B, C or D to choose the further process.");
                   Text "A: Use all publications that were read in.";
                   Text "B: Training mode: Use every second publication that was read in, starting with 3, then 5, 7, ...";
                   Text "C: Testing mode: Use every second publication that was read in, starting with 4, then 6, 8, ...";
                   Text "D: Use only one publication which will be selected in the next step.";
                   Text "Please enter your choice (A, B, C, or D): "])%list).
  { intros lines o. cbn [select_loop]. cbv zeta. rewrite D. reflexivity. }
  split.
  - intros n pub E L. unfold select_publications. cbn [stdin written].
    rewrite S0. cbn [select_one_loop]. cbv zeta.
    rewrite isdigit_str_of_nat.
    destruct (int_of_str_numeral limit (S n) L) as (I & _). rewrite I.
    assert (B : ((1 <=? Z.of_nat (S n)) && (Z.of_nat (S n) <=? Z.of_nat (List.length pubs)))%Z
                = true).
    { apply andb_true_iff. split; apply Z.leb_le; [lia|].
      assert (n < List.length pubs)%nat by (apply nth_error_Some; congruence). lia. }
    rewrite B.
    replace (Z.to_nat (Z.of_nat (S n) - 1)) with n by lia.
    rewrite E. eexists. split; reflexivity.
  - intros line Hd Hi. unfold select_publications. cbn [stdin written].
    rewrite S0. cbn [select_one_loop]. cbv zeta. rewrite Hd, Hi. reflexivity.
Qed.

(** *** Reading the JSON file *)

Lemma read_entries_bound (entries : list Entry) :
  forall t k a c g,
  read_entries entries (Some t) (Some k) (Some a) (Some c) (Some g)
  = Done (inherit_all (new_publication (strip t) k (strip a) c g) entries).
Proof.
  induction entries as [|value rest IH]; intros t k a c g; [reflexivity|].
  cbn [read_entries inherit_all]. cbv zeta. unfold assign, inherit.
  destruct (entry_title value), (entry_keywords value), (entry_abstract value),
    (entry_cso_final value), (entry_gold_majority value);
    rewrite IH; reflexivity.
Qed.

(** X22.  Missing keys in the JSON file.  The five local variables of the
    reading loop survive from one entry to the next.  When the first
    entry has all five keys, the loop never fails: it returns one
    publication per entry, and an entry that lacks a key gets the value
    the previous publication has (title and abstract are stripped,
    the lists are taken as they are).  When the first entry lacks one of
    the keys, the loop raises [UnboundLocalError]. *)
Theorem read_entries_inherits (first : Entry) (rest : list Entry) :
  (forall t k a c g,
     first = mkEntry (Some t) (Some k) (Some a) (Some c) (Some g) ->
     let pub := new_publication (strip t) k (strip a) c g in
     read_entries (first :: rest) None None None None None
     = Done (pub :: inherit_all pub rest)
     /\ List.length (pub :: inherit_all pub rest) = S (List.length rest))
  /\ (entry_title first = None \/ entry_keywords first = None
      \/ entry_abstract first = None \/ entry_cso_final first = None
      \/ entry_gold_majority first = None ->
      read_entries (first :: rest) None None None None None
      = Failed UnboundLocalError).
Proof.
  split.
  - intros t k a c g -> pub. split.
    + cbn [read_entries]. cbv zeta. cbn [assign entry_title entry_keywords
        entry_abstract entry_cso_final entry_gold_majority].
      now rewrite read_entries_bound.
    + cbn [List.length]. f_equal. generalize pub. clear.
      induction rest as [|e rest IH]; intros pub; [reflexivity|].
      simpl. now rewrite IH.
  - intros H. cbn [read_entries]. cbv zeta. unfold assign.
    destruct (entry_title first), (entry_keywords first), (entry_abstract first),
      (entry_cso_final first), (entry_gold_majority first);
      try reflexivity; destruct H as [H|[H|[H|[H|H]]]]; discriminate H.
Qed.




(** *** Getting the publications *)

(** X24.  [get_publications_data] never returns [None]: the fall-through
    of its [if] is not reachable.  When the user chooses text, the result
    is a list of exactly one publication, which has none of the keys the
    pipelines add. *)
Theorem get_publications_data_result
  (files : string -> FileContent) (t t' : Terminal)
  (result : option (list Publication)) :
  get_publications_data files t = (Done result, t') ->
  result <> None
  /\ (forall c t1, user_selection_file_or_text t = (Done c, t1) -> c = "t" ->
      exists pub, result = Some [pub] /\ skgc_topics pub = None).
Proof.
  unfold get_publications_data.
  destruct (user_selection_file_or_text t) as [[c|e] t1] eqn:E; [|discriminate].
  pose proof (file_or_text_loop_result _ _ _ _ E) as C.
  intros H. split.
  - destruct C as [->| ->]; cbn in H.
    + destruct (read_publication_from_file files t1) as [[pubs|e] t2];
        inversion H; discriminate.
    + destruct (user_text_publication t1) as [[pub|e] t2];
        inversion H; discriminate.
  - intros c' t1' Ec ->. inversion Ec; subst. cbn in H.
    unfold user_text_publication, input, write in H.
    destruct (stdin t1') as [|l1 [|l2 [|l3 [|l4 [|l5 rest]]]]]; cbn in H;
      try discriminate H.
    inversion H; subst. eexists. split; reflexivity.
Qed.

(** ** The claims on concrete inputs *)

(** C1.  On a corpus whose one record has a negative precision, the mean
    of the precision values is not forced to -1: the unguarded [hmean]
    either raises [ValueError], ending the report, or gives [nan], which is
    printed as the mean.  The F1 mean of the same record, whose F1 value is
    not [>= 0], is forced to -1 by the guard. *)
Theorem overall_comparison_negative_precision (World : Type) (st : State World) :
  fst (overall_comparison World true [Sample.negative_precision_paper] st)
    = Raise ValueError
  /\ (let run := overall_comparison World false [Sample.negative_precision_paper] st in
      fst run = Ok tt
      /\ In (MsgNum "Precision mean of SKGC appproach: " NaN) (stdout World (snd run))
      /\ In (MsgNum "Recall mean of SKGC appproach: " NaN) (stdout World (snd run))
      /\ In (MsgNum "F1 mean of SKGC appproach: " (Fin (inject_Z (-1))))
            (stdout World (snd run))
      /\ ~ In (MsgNum "Precision mean of SKGC appproach: " (Fin (inject_Z (-1))))
              (skipn (List.length (stdout World st)) (stdout World (snd run)))).
Proof.
  split; [reflexivity|].
  cbv zeta. split; [reflexivity|].
  assert (E : exists out,
             stdout World (snd (overall_comparison World false
                                  [Sample.negative_precision_paper] st))
             = (stdout World st ++ out)%list
             /\ In (MsgNum "Precision mean of SKGC appproach: " NaN) out
             /\ In (MsgNum "Recall mean of SKGC appproach: " NaN) out
             /\ In (MsgNum "F1 mean of SKGC appproach: " (Fin (inject_Z (-1)))) out
             /\ ~ In (MsgNum "Precision mean of SKGC appproach: " (Fin (inject_Z (-1)))) out).
  { eexists. split.
    - cbn. rewrite <- !app_assoc. cbn [app]. reflexivity.
    - cbn. repeat split; auto 30.
      intros H. repeat (destruct H as [H|H]; [discriminate H|]). exact H. }
  destruct E as (out & -> & I1 & I2 & I3 & N).
  repeat split; try (apply in_or_app; right; assumption).
  rewrite skipn_app, skipn_all, Nat.sub_diag. exact N.
Qed.

(** A record with negative precision and recall does reach the report:
    when [hmean] gives [nan] on negative input, an evaluation whose first
    count answer is ["-1"] completes and stores precision -1, recall -1 and
    F1 [nan] for the extracted topics. *)
Example eval_one_stores_negative_precision :
  let st := mkState nat 0%nat [] [] Sample.paper in
  let run :=
    eval_one nat Sample.scripted_service Sample.environment Sample.prompt_files
      4300 false st in
  fst run = Ok tt
  /\ skgc_precision (publication nat (snd run)) = Some (Fin (ratio (-1) 1))
  /\ skgc_recall (publication nat (snd run)) = Some (Fin (ratio (-1) 1))
  /\ skgc_f1 (publication nat (snd run)) = Some NaN
  /\ csoc_precision (publication nat (snd run)) = Some (Fin (ratio 1 1))
  /\ ratio (-1) 1 == inject_Z (-1).
Proof.
  cbv zeta. repeat split; vm_compute; reflexivity.
Qed.


(** C9, as stated, fails: when the remote calls fail, the verified
    response of the first evaluation stage is the empty text; it is not
    split into a list of length 1: the parse raises [IndexError] at the
    marker, and neither an ordered list nor a precision is stored. *)
Lemma split_comma_never_empty_counterexample :
  let st := mkState nat 0%nat [] [agent_system_turn] Sample.paper in
  let run :=
    eval_one nat Sample.failing_service Sample.environment Sample.prompt_files
      4300 true st in
  fst (query_gpt_assistant nat Sample.failing_service Sample.environment "check" st)
  = Ok ""
  /\ parse_ordered nat "Your result:" "" st = (Raise IndexError, st)
  /\ fst run = Raise IndexError
  /\ skgc_topics_ordered (publication nat (snd run)) = None
  /\ skgc_precision (publication nat (snd run)) = None.
Proof.
  cbv zeta. repeat split; vm_compute; reflexivity.
Qed.

(** C4, as stated, fails: the count stage accepts the answer ["2"], and
    with one candidate and one gold topic the precision is then 2. *)
Lemma metrics_of_bounds_counterexample :
  let st := mkState nat 0%nat [] [] Sample.paper in
  fst (response_to_integer nat 4300 "2" st) = Ok 2%Z
  /\ exists f,
       fst (metrics_of nat true 2 ["a"] ["b"] st)
       = Ok (Fin (ratio 2 1), Fin (ratio 2 1), Fin f)
       /\ ~ ratio 2 1 <= 1.
Proof.
  cbv zeta. split; [reflexivity|]. eexists. split; [reflexivity|].
  intros H. apply Qle_bool_iff in H. discriminate H.
Qed.

(** C3, as stated, fails: a checked answer without the markers makes the
    parse, and with it [eval_one], raise [IndexError]; no ordered list is
    stored for the publication. *)
Lemma parse_ordered_markers_counterexample :
  let st := mkState nat 0%nat [] [] Sample.paper in
  let run :=
    eval_one nat Sample.steady_service Sample.environment Sample.prompt_files
      4300 true st in
  fst (parse_ordered nat "Your result:" "nlp, graphs ,nlp" st) = Raise IndexError
  /\ fst run = Raise IndexError
  /\ skgc_topics_ordered (publication nat (snd run)) = None
  /\ gold_standard_ordered1 (publication nat (snd run)) = None.
Proof.
  cbv zeta. repeat split; vm_compute; reflexivity.
Qed.

(** *** The theorems at work on the sample collaborators *)

Lemma extract_stages_ledger_witness :
  let st := mkState nat 0%nat [] [] Sample.paper in
  let run :=
    extract_stages nat Sample.steady_service Sample.environment Sample.prompt_files
      3 st in
  fst run = Ok ["nlp, graphs ,nlp"; "nlp, graphs ,nlp"; "nlp, graphs ,nlp"]
  /\ List.length (filter (is_role assistant) (messages_history nat (snd run))) = 3%nat
  /\ hd_error (messages_history nat (snd run)) = Some agent_system_turn
  /\ exists responses st', run = (Ok responses, st').
Proof.
  cbv zeta. split; [vm_compute; reflexivity|].
  destruct (extract_stages_ledger nat Sample.steady_service Sample.environment
              Sample.prompt_files 3
              (mkState nat 0%nat [] [] Sample.paper))
    as (T & L); [lia|].
  assert (R : extraction_ready Sample.environment Sample.prompt_files).
  { repeat split; try reflexivity;
      (eexists; split; [reflexivity | simpl; lia]). }
  destruct (L ["nlp, graphs ,nlp"; "nlp, graphs ,nlp"; "nlp, graphs ,nlp"]
              (snd (extract_stages nat Sample.steady_service Sample.environment
                      Sample.prompt_files 3 (mkState nat 0%nat [] [] Sample.paper))))
    as (prompts & _ & _ & _ & _ & _ & _ & H).
  - vm_compute. reflexivity.
  - destruct (H eq_refl) as (H1 & H2 & _).
    split; [exact H1|]. split; [exact H2 | exact (T R)].
Defined.

Lemma extract_topics_one_topics_witness :
  let st := mkState nat 0%nat [] [] Sample.paper in
  let run :=
    extract_topics_one nat Sample.steady_service Sample.environment
      Sample.prompt_files st in
  fst run = Ok ["nlp"; "graphs"; "nlp"]
  /\ exists template_a ra w1 rv response3,
       nth_error (templates Sample.prompt_files "prompts_gpt_assistant.yaml") 2
         = Some template_a
       /\ Sample.steady_service "secret" "secret"
            [assistant_system_turn;
             mkTurn user (replace "XXXagent3XXX" (answer_text ra) template_a)] w1
          = (rv, world nat (snd run))
       /\ response3 = answer_text rv
       /\ last (messages_history nat (snd run)) agent_system_turn
          = mkTurn assistant response3
       /\ ["nlp"; "graphs"; "nlp"] = map strip (split "," response3)
       /\ exists topics st', run = (Ok topics, st').
Proof.
  cbv zeta. split; [vm_compute; reflexivity|].
  destruct (extract_topics_one_topics nat Sample.steady_service Sample.environment
              Sample.prompt_files (mkState nat 0%nat [] [] Sample.paper))
    as (T & L).
  assert (R : extraction_ready Sample.environment Sample.prompt_files).
  { repeat split; try reflexivity;
      (eexists; split; [reflexivity | simpl; lia]). }
  destruct (L ["nlp"; "graphs"; "nlp"]
              (snd (extract_topics_one nat Sample.steady_service Sample.environment
                      Sample.prompt_files (mkState nat 0%nat [] [] Sample.paper))))
    as (p1 & p2 & r1 & r2 & template & template_a & w & ra & w1 & rv & prompt3
        & response3 & _ & N & _ & _ & C & A & _ & H1 & _ & H2 & _).
  - vm_compute. reflexivity.
  - exists template_a, ra, w1, rv, response3.
    split; [exact N|]. split; [exact C|]. split; [exact A|].
    split; [exact H1|]. split; [exact H2 | exact (T R)].
Defined.

Lemma query_gpt_agent_remote_failure_witness :
  let st := mkState nat 0%nat [] [mkTurn system "hello"] Sample.paper in
  exists st',
    query_gpt_agent nat Sample.failing_service Sample.environment "prompt" st
      = (Ok "", st')
    /\ messages_history nat st' = [mkTurn system "hello"; mkTurn user "prompt"].
Proof.
  cbv zeta.
  destruct (query_gpt_agent_remote_failure nat Sample.failing_service
              Sample.environment "prompt"
              (mkState nat 0%nat [] [mkTurn system "hello"] Sample.paper)
              "Connection error." 1%nat)
    as (st' & H1 & H2 & _).
  - reflexivity.
  - reflexivity.
  - reflexivity.
  - exists st'. split; assumption.
Defined.

Lemma query_gpt_assistant_frame_witness :
  let st := mkState nat 0%nat [] [mkTurn system "hello"] Sample.paper in
  let run := query_gpt_assistant nat Sample.steady_service Sample.environment "check" st in
  fst run = Ok "nlp, graphs ,nlp"
  /\ messages_history nat (snd run) = [mkTurn system "hello"].
Proof.
  cbv zeta.
  destruct (query_gpt_assistant_frame nat Sample.steady_service Sample.environment
              "check" (mkState nat 0%nat [] [mkTurn system "hello"] Sample.paper))
    as (H1 & _ & H3).
  destruct (H3 eq_refl eq_refl) as (H4 & _).
  split; [exact H4 | exact H1].
Defined.

Lemma response_to_integer_total_witness :
  let st := mkState nat 0%nat [] [] Sample.paper in
  response_to_integer nat 4300 "12" st = (Ok 12%Z, st)
  /\ fst (response_to_integer nat 4300 "abc" st) = Ok 0%Z
  /\ stdout nat (snd (response_to_integer nat 4300 "abc" st))
     = [Msg ("Error: The Evaluation procedure was partly not successful."
             ++ "The evaluation count did not work as expected.")].
Proof.
  cbv zeta.
  destruct (response_to_integer_total nat 4300 "12"
              (mkState nat 0%nat [] [] Sample.paper)) as (H1 & _).
  destruct (response_to_integer_total nat 4300 "abc"
              (mkState nat 0%nat [] [] Sample.paper)) as (_ & H2 & _ & _ & H3).
  split; [apply H1; reflexivity|].
  split; [exact H3|]. rewrite (H2 eq_refl). reflexivity.
Defined.

Lemma split_comma_never_empty_witness :
  let st := mkState nat 0%nat [] [] Sample.paper in
  let response := "Your result: Human expert result:" in
  parse_ordered nat "Your result:" response st = (Ok ([""], [""]), st)
  /\ precision_of nat 2 [""] st = (Ok (Fin (ratio 2 1)), st)
  /\ recall_of nat 2 [""] st = (Ok (Fin (ratio 2 1)), st)
  /\ precision_of nat 2 (split "," "") st = (Ok (Fin (ratio 2 1)), st)
  /\ parse_ordered nat "Your result:" "" st = (Raise IndexError, st).
Proof.
  cbv zeta.
  destruct (split_comma_never_empty nat "" 2
              (mkState nat 0%nat [] [] Sample.paper))
    as (_ & _ & _ & _ & H5 & H6 & H7).
  split; [vm_compute; reflexivity|].
  destruct (H6 "Your result:" "Your result: Human expert result:" [""] [""]
              (mkState nat 0%nat [] [] Sample.paper)) as (_ & _ & _ & _ & F).
  - vm_compute. reflexivity.
  - destruct (F eq_refl) as (P & R). destruct (H5 eq_refl) as (_ & _ & E & _).
    split; [exact P|]. split; [exact R|]. split; [exact E|].
    apply H7. discriminate.
Defined.

Lemma parse_ordered_markers_witness :
  let st := mkState nat 0%nat [] [] Sample.paper in
  (exists topics gold,
      parse_ordered nat "CSOC result:"
        "CSOC result: graphs Human expert result: graphs, nlp" st
      = (Ok (topics, gold), st))
  /\ parse_ordered nat "CSOC result:" "graphs; nlp" st = (Raise IndexError, st)
  /\ parse_ordered nat "CSOC result:" "CSOC result: graphs" st = (Raise IndexError, st).
Proof.
  cbv zeta.
  assert (M : "CSOC result:" <> "") by discriminate.
  destruct (parse_ordered_markers nat "CSOC result:"
              "CSOC result: graphs Human expert result: graphs, nlp"
              (mkState nat 0%nat [] [] Sample.paper) M) as (H1 & _).
  destruct (parse_ordered_markers nat "CSOC result:" "graphs; nlp"
              (mkState nat 0%nat [] [] Sample.paper) M) as (_ & H2).
  destruct (parse_ordered_markers nat "CSOC result:" "CSOC result: graphs"
              (mkState nat 0%nat [] [] Sample.paper) M) as (_ & H3).
  split.
  - destruct (H1 eq_refl eq_refl) as (topics & gold & E & _).
    exists topics, gold. exact E.
  - split.
    + apply H2. left. reflexivity.
    + apply H3. right. reflexivity.
Defined.

Lemma metrics_of_bounds_witness :
  let st := mkState nat 0%nat [] [] Sample.paper in
  exists p r f st',
    metrics_of nat true 2 ["neural networks"; "nlp"]
      ["neural network"; "natural language processing"; "nlp"] st
    = (Ok (Fin p, Fin r, Fin f), st')
    /\ p == 1 /\ r == 2 # 3 /\ 0 <= f <= 1.
Proof.
  cbv zeta.
  destruct (metrics_of_bounds nat true 2 ["neural networks"; "nlp"]
              ["neural network"; "natural language processing"; "nlp"]
              (mkState nat 0%nat [] [] Sample.paper))
    as (p & r & f & st' & E & Hp & Hr & _ & _ & Hf & Hi).
  - discriminate.
  - discriminate.
  - simpl. lia.
  - exists p, r, f, st'. split; [exact E|].
    split; [rewrite Hp; reflexivity|].
    split; [rewrite Hr; reflexivity|].
    destruct Hf as [Hf|Hf]; [exact Hf|].
    apply Hi in Hf. rewrite Hp, Hr in Hf. discriminate Hf.
Defined.

(** *** The further properties at work on the sample collaborators *)

Lemma query_gpt_agent_success_witness :
  query_gpt_agent nat Sample.steady_service Sample.environment "prompt"
    (mkState nat 0%nat [] [mkTurn system "hello"] Sample.paper)
  = (Ok "nlp, graphs ,nlp",
     mkState nat 1%nat [] [mkTurn system "hello"; mkTurn user "prompt"] Sample.paper).
Proof.
  exact (query_gpt_agent_success nat Sample.steady_service Sample.environment
           "prompt" (mkState nat 0%nat [] [mkTurn system "hello"] Sample.paper)
           " nlp, graphs ,nlp " 1%nat eq_refl eq_refl eq_refl).
Defined.

Lemma query_without_credentials_witness :
  let st := mkState nat 0%nat [] [mkTurn system "hello"] Sample.paper in
  query_gpt_agent nat Sample.steady_service Sample.no_environment "prompt" st
    = (Raise ValueError, st)
  /\ query_gpt_assistant nat Sample.steady_service Sample.no_environment "prompt" st
    = (Raise ValueError, st).
Proof.
  cbv zeta.
  destruct (query_without_credentials nat Sample.steady_service Sample.no_environment
              "prompt" (mkState nat 0%nat [] [mkTurn system "hello"] Sample.paper))
    as [A B].
  split; [apply A | apply B]; left; reflexivity.
Defined.

Lemma extract_topics_one_without_templates_witness :
  exists st',
    extract_topics_one nat Sample.steady_service Sample.environment
      Sample.no_prompt_files (mkState nat 0%nat [] [] Sample.fresh_paper)
    = (Raise IndexError, st')
    /\ messages_history nat st' = [agent_system_turn]
    /\ world nat st' = 0%nat.
Proof.
  destruct (extract_topics_one_without_templates nat Sample.steady_service
              Sample.environment Sample.no_prompt_files
              (mkState nat 0%nat [] [] Sample.fresh_paper))
    as (st' & A & B & C & _).
  - left. eexists. reflexivity.
  - exists st'. repeat split; assumption.
Defined.

Lemma extract_topics_one_result_witness :
  let run :=
    extract_topics_one nat Sample.steady_service Sample.environment
      Sample.prompt_files (mkState nat 0%nat [] [] Sample.fresh_paper) in
  fst run = Ok ["nlp"; "graphs"; "nlp"]
  /\ List.length (messages_history nat (snd run)) = 7%nat
  /\ publication nat (snd run) = Sample.fresh_paper.
Proof.
  cbv zeta. split; [vm_compute; reflexivity|].
  destruct (extract_topics_one_result nat Sample.steady_service Sample.environment
              Sample.prompt_files (mkState nat 0%nat [] [] Sample.fresh_paper)
              (snd (extract_topics_one nat Sample.steady_service Sample.environment
                      Sample.prompt_files (mkState nat 0%nat [] [] Sample.fresh_paper)))
              ["nlp"; "graphs"; "nlp"])
    as (_ & _ & L & P).
  - vm_compute. reflexivity.
  - split; [exact L | exact P].
Defined.

Lemma eval_one_history_and_keys_witness :
  let run :=
    eval_one nat Sample.scripted_service Sample.environment Sample.prompt_files
      4300 false (mkState nat 0%nat [] [agent_system_turn] Sample.paper) in
  fst run = Ok tt
  /\ List.length (messages_history nat (snd run)) = 9%nat
  /\ skgc_f1 (publication nat (snd run)) <> None.
Proof.
  cbv zeta. split; [vm_compute; reflexivity|].
  destruct (eval_one_history_and_keys nat Sample.scripted_service Sample.environment
              Sample.prompt_files 4300 false
              (mkState nat 0%nat [] [agent_system_turn] Sample.paper)
              (snd (eval_one nat Sample.scripted_service Sample.environment
                      Sample.prompt_files 4300 false
                      (mkState nat 0%nat [] [agent_system_turn] Sample.paper)))
              tt)
    as ((prompts & responses & _ & _ & _ & L & _) & K).
  - vm_compute. reflexivity.
  - split; [exact L|]. apply K.
Defined.

Lemma eval_one_without_topics_witness :
  let st := mkState nat 0%nat [] [agent_system_turn] Sample.fresh_paper in
  eval_one nat Sample.steady_service Sample.environment Sample.prompt_files
    4300 true st
  = (Raise KeyError, st).
Proof.
  cbv zeta.
  apply (eval_one_without_topics nat Sample.steady_service Sample.environment
           Sample.prompt_files 4300 true _
           ["first XXXtitleXXX"; "second"; "third"; "fourth"]
           ["first XXXtitleXXX"; "second"; "third"; "fourth"]).
  - reflexivity.
  - discriminate.
  - reflexivity.
  - reflexivity.
Defined.

Lemma eval_one_metrics_fit_lists_witness :
  let run :=
    eval_one nat Sample.scripted_service Sample.environment Sample.prompt_files
      4300 false (mkState nat 0%nat [] [agent_system_turn] Sample.paper) in
  exists topics gold count,
    skgc_topics_ordered (publication nat (snd run)) = Some topics
    /\ gold_standard_ordered1 (publication nat (snd run)) = Some gold
    /\ skgc_precision (publication nat (snd run))
       = Some (Fin (ratio count (List.length topics)))
    /\ skgc_recall (publication nat (snd run))
       = Some (Fin (ratio count (List.length gold))).
Proof.
  cbv zeta.
  destruct (eval_one_metrics_fit_lists nat Sample.scripted_service Sample.environment
              Sample.prompt_files 4300 false
              (mkState nat 0%nat [] [agent_system_turn] Sample.paper)
              (snd (eval_one nat Sample.scripted_service Sample.environment
                      Sample.prompt_files 4300 false
                      (mkState nat 0%nat [] [agent_system_turn] Sample.paper)))
              tt)
    as ((topics & gold & count & A & B & _ & _ & _ & _ & C & D) & _).
  - vm_compute. reflexivity.
  - exists topics, gold, count. repeat split; assumption.
Defined.

Lemma f1_mean_unit_interval_witness :
  let st := mkState nat 0%nat [] [] Sample.paper in
  exists f,
    f1_mean nat true [Fin (1 # 2); Fin 1] st = (Ok (Fin f), st)
    /\ 0 <= f <= 1.
Proof.
  cbv zeta.
  apply (f1_mean_unit_interval nat true [Fin (1 # 2); Fin 1]).
  - discriminate.
  - constructor.
    + exists (1 # 2). split; [reflexivity|]. split; [reflexivity | discriminate].
    + constructor; [|constructor].
      exists 1. split; [reflexivity|]. split; [reflexivity | discriminate].
Defined.

Lemma overall_comparison_failed_f1_witness :
  exists st',
    overall_comparison nat true [Sample.failed_f1_paper]
      (mkState nat 0%nat [] [] Sample.paper) = (Ok tt, st')
    /\ last (stdout nat st') (Msg "")
       = Msg ("According to the automatic evaluation, the CSOC approach yielded better results than the SKGC"
              ++ " approach.").
Proof.
  destruct (overall_comparison_failed_f1 nat true [Sample.failed_f1_paper]
              (mkState nat 0%nat [] [] Sample.paper))
    as (st' & A & _ & B & _);
    try (constructor; [discriminate | constructor]); try reflexivity.
  exists st'. split; [exact A | apply B; reflexivity].
Defined.

Lemma extract_topics_all_histories_witness :
  let r := mkRun nat 0%nat [] [Sample.fresh_paper; Sample.fresh_paper] [] in
  let run :=
    extract_topics_all nat Sample.steady_service Sample.environment
      Sample.prompt_files r in
  fst run = Ok tt
  /\ exists ledgers,
       messages_history_all nat (snd run) = ledgers
       /\ List.length ledgers = 2%nat.
Proof.
  cbv zeta. split; [vm_compute; reflexivity|].
  destruct (extract_topics_all_histories nat Sample.steady_service Sample.environment
              Sample.prompt_files
              (mkRun nat 0%nat [] [Sample.fresh_paper; Sample.fresh_paper] [])
              (snd (extract_topics_all nat Sample.steady_service Sample.environment
                      Sample.prompt_files
                      (mkRun nat 0%nat [] [Sample.fresh_paper; Sample.fresh_paper] [])))
              tt)
    as (ledgers & A & B & _).
  - vm_compute. reflexivity.
  - exists ledgers. split; [exact A | exact B].
Defined.

Lemma eval_all_histories_witness :
  fst (eval_all nat Sample.scripted_service Sample.environment Sample.prompt_files
         4300 false (mkRun nat 0%nat [] [Sample.paper] []))
  = Raise IndexError
  /\ (let r := mkRun nat 0%nat [] [Sample.paper] [[agent_system_turn]] in
      let run :=
        eval_all nat Sample.scripted_service Sample.environment
          Sample.prompt_files 4300 false r in
      fst run = Ok tt
      /\ Forall2 evaluated [Sample.paper] (publications nat (snd run))).
Proof.
  split.
  - destruct (eval_all_histories nat Sample.scripted_service Sample.environment
                Sample.prompt_files 4300 false (mkRun nat 0%nat [] [Sample.paper] []))
      as (_ & B).
    rewrite B; [reflexivity | reflexivity | discriminate].
  - cbv zeta. split; [vm_compute; reflexivity|].
    destruct (eval_all_histories nat Sample.scripted_service Sample.environment
                Sample.prompt_files 4300 false
                (mkRun nat 0%nat [] [Sample.paper] [[agent_system_turn]]))
      as (A & _).
    destruct (A tt (snd (eval_all nat Sample.scripted_service Sample.environment
                           Sample.prompt_files 4300 false
                           (mkRun nat 0%nat [] [Sample.paper] [[agent_system_turn]]))))
      as (_ & E & _).
    + vm_compute. reflexivity.
    + exact E.
Defined.

Lemma extraction_then_evaluation_witness :
  let r := mkRun nat 0%nat [] [Sample.fresh_paper] [] in
  let r1 :=
    snd (extract_topics_all nat Sample.full_service Sample.environment
           Sample.prompt_files r) in
  let r2 :=
    snd (eval_all nat Sample.full_service Sample.environment Sample.prompt_files
           4300 false r1) in
  List.length (messages_history_all nat r2) = 1%nat
  /\ Forall (fun mh => List.length mh = 15%nat) (messages_history_all nat r2).
Proof.
  cbv zeta.
  destruct (extraction_then_evaluation nat Sample.full_service Sample.environment
              Sample.prompt_files 4300 false
              (mkRun nat 0%nat [] [Sample.fresh_paper] [])
              (snd (extract_topics_all nat Sample.full_service Sample.environment
                      Sample.prompt_files (mkRun nat 0%nat [] [Sample.fresh_paper] [])))
              (snd (eval_all nat Sample.full_service Sample.environment
                      Sample.prompt_files 4300 false
                      (snd (extract_topics_all nat Sample.full_service
                              Sample.environment Sample.prompt_files
                              (mkRun nat 0%nat [] [Sample.fresh_paper] [])))))
              tt tt)
    as (A & B & _).
  - reflexivity.
  - vm_compute. reflexivity.
  - vm_compute. reflexivity.
  - split; [exact A|]. eapply Forall_impl; [|exact B].
    intros mh (prompts & responses & _ & _ & _ & _ & L). exact L.
Defined.

Lemma split_join_round_trip_witness :
  map strip (split "," (list_to_comma_separated_string ["nlp"; " knowledge graphs"]))
  = ["nlp"; "knowledge graphs"].
Proof.
  destruct (split_join_round_trip ["nlp"; " knowledge graphs"]) as (A & _).
  - repeat constructor.
  - destruct A as (E & _); [discriminate|]. exact E.
Defined.

Lemma parse_ordered_well_formed_witness :
  let st := mkState nat 0%nat [] [] Sample.paper in
  parse_ordered nat "Your result:"
    ("Sure. " ++ "Your result:" ++ " nlp, graphs " ++ "Human expert result:" ++ " graphs, logic")
    st
  = (Ok (["nlp"; " graphs"], ["graphs"; " logic"]), st).
Proof.
  cbv zeta.
  exact (parse_ordered_well_formed nat "Y" "our result:" "Sure. " " nlp, graphs "
           " graphs, logic" (mkState nat 0%nat [] [] Sample.paper)
           eq_refl eq_refl eq_refl eq_refl).
Defined.

Lemma response_to_integer_numeral_witness :
  let st := mkState nat 0%nat [] [] Sample.paper in
  response_to_integer nat 4300 "12" st = (Ok 12%Z, st)
  /\ response_to_integer nat 4300 "-12" st = (Ok (-12)%Z, st).
Proof.
  cbv zeta.
  apply (response_to_integer_numeral nat 4300 12 (mkState nat 0%nat [] [] Sample.paper)).
  right. vm_compute. lia.
Defined.

Lemma replace_first_occurrence_witness :
  replace "XXXtitleXXX" "about XXXtitleXXX" "Title: XXXtitleXXX."
  = "Title: about XXXtitleXXX.".
Proof.
  destruct (replace_first_occurrence "X" "XXtitleXXX" "about XXXtitleXXX" "Title: " ".")
    as (_ & A & _).
  - reflexivity.
  - apply A. reflexivity.
Defined.

Lemma user_selection_file_or_text_answer_witness :
  exists t',
    user_selection_file_or_text (mkTerminal ["x"; ""; "T"; "f"] [])
    = (Done "t", t')
    /\ stdin t' = ["f"]
    /\ fst (user_selection_file_or_text (mkTerminal ["x"; "file"] []))
       = Failed EOFError.
Proof.
  destruct (user_selection_file_or_text_answer (mkTerminal ["x"; ""; "T"; "f"] []))
    as (_ & A & _).
  destruct (A ["x"; ""] "T" ["f"]) as (t' & E & S & _).
  - reflexivity.
  - repeat constructor.
  - reflexivity.
  - exists t'. split; [exact E|]. split; [exact S|].
    destruct (user_selection_file_or_text_answer (mkTerminal ["x"; "file"] []))
      as (_ & _ & B).
    apply B. repeat constructor.
Defined.

Lemma user_text_publication_result_witness :
  exists pub t',
    user_text_publication
      (mkTerminal [" A title "; "k1, k2"; "An abstract"; ""; ""; "later"] [])
    = (Done pub, t')
    /\ stdin t' = ["later"]
    /\ keywords pub = ["k1"; "k2"]
    /\ csoc_result pub = [""] /\ gold_standard pub = [""]
    /\ fst (user_text_publication (mkTerminal ["A title"; "k1"] [])) = Failed EOFError.
Proof.
  destruct (user_text_publication_result
              (mkTerminal [" A title "; "k1, k2"; "An abstract"; ""; ""; "later"] []))
    as (A & _).
  destruct (A " A title " "k1, k2" "An abstract" "" "" ["later"] eq_refl)
    as (pub & t' & E & S & _ & _ & K & _ & _ & _ & _ & _ & C & G & _).
  exists pub, t'. split; [exact E|]. split; [exact S|]. split; [exact K|].
  split; [exact (C eq_refl)|]. split; [exact (G eq_refl)|].
  destruct (user_text_publication_result (mkTerminal ["A title"; "k1"] []))
    as (_ & B).
  apply B. simpl. lia.
Defined.

Lemma select_publications_result_witness :
  let pubs := [Sample.fresh_paper; Sample.paper; Sample.failed_f1_paper] in
  fst (select_publications 4300 pubs (mkTerminal ["x"; "b"] []))
    = Done [Sample.failed_f1_paper]
  /\ exists i n, [Sample.failed_f1_paper] = firstn n (skipn i pubs).
Proof.
  cbv zeta. split; [reflexivity|].
  destruct (select_publications_result 4300
              [Sample.fresh_paper; Sample.paper; Sample.failed_f1_paper]
              (mkTerminal ["x"; "b"] [])
              (snd (select_publications 4300
                      [Sample.fresh_paper; Sample.paper; Sample.failed_f1_paper]
                      (mkTerminal ["x"; "b"] [])))
              [Sample.failed_f1_paper])
    as (_ & S & _).
  - reflexivity.
  - exact S.
Defined.

Lemma select_publications_by_number_witness :
  let pubs := [Sample.fresh_paper; Sample.paper] in
  (exists t',
     select_publications 4300 pubs (mkTerminal ["d"; "2"; "later"] [])
     = (Done [Sample.paper], t')
     /\ stdin t' = ["later"])
  /\ fst (select_publications 4300 pubs
            (mkTerminal ["d"; Sample.superscript_two; "1"] []))
     = Failed (Builtin ValueError).
Proof.
  cbv zeta.
  destruct (select_publications_by_number 4300 [Sample.fresh_paper; Sample.paper]
              "d" ["later"] [] eq_refl) as (A & _).
  destruct (select_publications_by_number 4300 [Sample.fresh_paper; Sample.paper]
              "d" ["1"] [] eq_refl) as (_ & B).
  split.
  - apply (A 1%nat Sample.paper eq_refl). right. vm_compute. lia.
  - apply (B Sample.superscript_two); reflexivity.
Defined.

Lemma read_entries_inherits_witness :
  exists second,
    read_entries [Sample.complete_entry; Sample.untitled_entry]
      None None None None None
    = Done [new_publication "First title" ["k1"] "First abstract" ["graphs"] ["nlp"];
            second]
    /\ title second = "First title"
    /\ csoc_result second = ["graphs"]
    /\ gold_standard second = ["logic"]
    /\ read_entries [Sample.untitled_entry; Sample.complete_entry]
         None None None None None
       = Failed UnboundLocalError.
Proof.
  destruct (read_entries_inherits Sample.complete_entry [Sample.untitled_entry])
    as (A & _).
  destruct (A " First title " ["k1"] "First abstract" ["graphs"] ["nlp"] eq_refl)
    as (E & _).
  eexists. split; [exact E|].
  split; [reflexivity|]. split; [reflexivity|]. split; [reflexivity|].
  destruct (read_entries_inherits Sample.untitled_entry [Sample.complete_entry])
    as (_ & B).
  apply B. left. reflexivity.
Defined.


Lemma get_publications_data_result_witness :
  let t := mkTerminal ["T"; "A title"; "k1"; "An abstract"; ""; ""] [] in
  fst (get_publications_data Sample.file_system t)
    = Done (Some [new_publication "A title" ["k1"] "An abstract" [""] [""]])
  /\ Some [new_publication "A title" ["k1"] "An abstract" [""] [""]] <> None.
Proof.
  cbv zeta. split; [reflexivity|].
  destruct (get_publications_data_result Sample.file_system
              (mkTerminal ["T"; "A title"; "k1"; "An abstract"; ""; ""] [])
              (snd (get_publications_data Sample.file_system
                      (mkTerminal ["T"; "A title"; "k1"; "An abstract"; ""; ""] [])))
              (Some [new_publication "A title" ["k1"] "An abstract" [""] [""]]))
    as (N & _).
  - reflexivity.
  - exact N.
Defined.

Lemma print_eval_details_declined_witness :
  let p := mkProcess nat ["maybe"; "b"; "later"] []
             (fun _ => Some (JsonFile [Sample.paper])) None 0%nat in
  let p' := snd (print_eval_details nat true Sample.writable [Sample.failed_f1_paper] p) in
  disk nat p' "file_name.txt" = Some (TextFile [])
  /\ process_stdin nat p' = ["later"].
Proof.
  cbv zeta.
  destruct (print_eval_details_declined nat true Sample.writable
              [Sample.failed_f1_paper]
              (mkProcess nat ["maybe"; "b"; "later"] []
                 (fun _ => Some (JsonFile [Sample.paper])) None 0%nat)
              ["maybe"] "b" ["later"]) as (A & _).
  - reflexivity.
  - reflexivity.
  - repeat constructor.
  - reflexivity.
  - destruct (A eq_refl) as (D & _ & S & _). split; assumption.
Defined.

Lemma print_eval_details_saved_witness :
  let p := mkProcess nat ["a"; "report"; "report.txt"; "later"] []
             (fun _ => None) None 0%nat in
  let run := print_eval_details nat true Sample.writable [Sample.failed_f1_paper] p in
  fst run = Completed tt
  /\ exists asked report,
       console nat (snd run) = (asked ++ report)%list
       /\ disk nat (snd run) "report.txt" = Some (TextFile report)
       /\ process_stdin nat (snd run) = ["later"]
       /\ sys_stdout nat (snd run) = None.
Proof.
  cbv zeta. split; [vm_compute; reflexivity|].
  destruct (print_eval_details_saved nat true Sample.writable [Sample.failed_f1_paper]
              (mkProcess nat ["a"; "report"; "report.txt"; "later"] []
                 (fun _ => None) None 0%nat)
              "a" ["report"] "report.txt" ["later"])
    as (asked & report & C & _ & D & _ & I & S).
  - reflexivity.
  - reflexivity.
  - reflexivity.
  - repeat constructor.
  - reflexivity.
  - reflexivity.
  - exists asked, report. split; [exact C|]. split; [exact D|]. split; [exact I|].
    apply S. vm_compute. reflexivity.
Defined.

Lemma print_eval_details_unevaluated_witness :
  let p := mkProcess nat ["b"] [] (fun _ => None) None 0%nat in
  fst (report_body nat true [Sample.failed_f1_paper; Sample.fresh_paper] p)
  = Stopped (Raised (Builtin KeyError))
  /\ fst (print_eval_details nat true Sample.writable
            [Sample.failed_f1_paper; Sample.fresh_paper] p)
     <> Completed tt.
Proof.
  cbv zeta.
  destruct (print_eval_details_unevaluated nat true Sample.writable
              [Sample.failed_f1_paper] [] Sample.fresh_paper
              (mkProcess nat ["b"] [] (fun _ => None) None 0%nat))
    as ((A & _) & B).
  - reflexivity.
  - reflexivity.
  - split; [exact A | exact B].
Defined.

Lemma skgc_topics_and_eval_to_json_saves_witness :
  let p := mkProcess nat ["out/results.json"; "results"; "later"] []
             (fun _ => None) None 0%nat in
  let run := skgc_topics_and_eval_to_json nat Sample.flat_folder [Sample.failed_f1_paper] p in
  fst run = Completed tt
  /\ disk nat (snd run) "results" = Some (JsonFile [Sample.failed_f1_paper])
  /\ process_stdin nat (snd run) = ["later"].
Proof.
  cbv zeta.
  destruct (skgc_topics_and_eval_to_json_saves nat Sample.flat_folder
              [Sample.failed_f1_paper]
              (mkProcess nat ["out/results.json"; "results"; "later"] []
                 (fun _ => None) None 0%nat)) as (A & _).
  - reflexivity.
  - destruct (A ["out/results.json"] "results" ["later"]) as (R & D & _ & S & _).
    + reflexivity.
    + constructor; [vm_compute; discriminate | constructor].
    + reflexivity.
    + split; [exact R|]. split; [exact D | exact S].
Defined.

Lemma extract_topics_one_first_prompt_witness :
  let run :=
    extract_topics_one nat Sample.steady_service Sample.environment
      Sample.placeholder_files (mkState nat 0%nat [] [] Sample.fresh_paper) in
  nth_error (messages_history nat (snd run)) 1
  = Some (mkTurn user "Title: A title Keywords: k1, k2 Abstract: An abstract.").
Proof.
  cbv zeta.
  apply (extract_topics_one_first_prompt nat Sample.steady_service Sample.environment
           Sample.placeholder_files (mkState nat 0%nat [] [] Sample.fresh_paper)
           (snd (extract_topics_one nat Sample.steady_service Sample.environment
                   Sample.placeholder_files (mkState nat 0%nat [] [] Sample.fresh_paper)))
           ["nlp"; "graphs"; "nlp"]
           " Title: XXXtitleXXX Keywords: XXXkeywordsXXX Abstract: XXXabstractXXX. "
           ["second"; "third"]
           "Title: " " Keywords: " " Abstract: " ".").
  - reflexivity.
  - vm_compute. reflexivity.
  - vm_compute. reflexivity.
  - vm_compute. reflexivity.
  - vm_compute. reflexivity.
  - vm_compute. reflexivity.
  - vm_compute. reflexivity.
Defined.

Lemma main_failure_saves_no_results_witness :
  let p := mkProcess nat Sample.text_session [] (fun _ => None) None 0%nat in
  let run :=
    main nat Sample.steady_service Sample.no_environment Sample.prompt_files
      4300 false Sample.file_system Sample.writable p in
  fst run = Stopped (Raised (Builtin ValueError))
  /\ forall name data,
       disk nat (snd run) name = Some (JsonFile data) ->
       disk nat p name = Some (JsonFile data).
Proof.
  cbv zeta. split; [vm_compute; reflexivity|].
  apply (main_failure_saves_no_results nat Sample.steady_service Sample.no_environment
           Sample.prompt_files 4300 false Sample.file_system Sample.writable
           (mkProcess nat Sample.text_session [] (fun _ => None) None 0%nat)
           (Raised (Builtin ValueError))).
  vm_compute. reflexivity.
Defined.

Lemma main_completed_saves_results_witness :
  let p := mkProcess nat Sample.text_session [] (fun _ => None) None 0%nat in
  let run :=
    main nat Sample.full_service Sample.environment Sample.prompt_files
      4300 false Sample.file_system Sample.writable p in
  fst run = Completed tt
  /\ exists data,
       disk nat (snd run) "out.json" = Some (JsonFile data)
       /\ List.length data = 1%nat
       /\ Forall (fun pub => skgc_topics pub <> None /\ has_results pub = true) data.
Proof.
  cbv zeta. split; [vm_compute; reflexivity|].
  destruct (main_completed_saves_results nat Sample.full_service Sample.environment
              Sample.prompt_files 4300 false Sample.file_system Sample.writable
              (mkProcess nat Sample.text_session [] (fun _ => None) None 0%nat))
    as [(_ & D & _)|(file_name & data & _ & D & F)].
  - reflexivity.
  - vm_compute. reflexivity.
  - exfalso.
    assert (E : disk nat
                  (snd (main nat Sample.full_service Sample.environment
                          Sample.prompt_files 4300 false Sample.file_system
                          Sample.writable
                          (mkProcess nat Sample.text_session [] (fun _ => None) None 0%nat)))
                  "out.json" = None) by (rewrite D; reflexivity).
    vm_compute in E. discriminate E.
  - eexists. split; [vm_compute; reflexivity|]. split; [reflexivity|].
    repeat constructor; discriminate.
Defined.

Lemma main_nothing_read_witness :
  let p := mkProcess nat ["F"; "empty.json"; "later"] [] (fun _ => None) None 0%nat in
  let run :=
    main nat Sample.steady_service Sample.environment Sample.prompt_files
      4300 false Sample.more_files Sample.writable p in
  fst run = Completed tt
  /\ service nat (snd run) = 0%nat
  /\ process_stdin nat (snd run) = ["later"].
Proof.
  cbv zeta.
  destruct (main_nothing_read nat Sample.steady_service Sample.environment
              Sample.prompt_files 4300 false Sample.more_files Sample.writable
              (mkProcess nat ["F"; "empty.json"; "later"] [] (fun _ => None) None 0%nat)
              "F" "empty.json" ["later"])
    as (R & _ & S & _ & I).
  - reflexivity.
  - reflexivity.
  - reflexivity.
  - reflexivity.
  - split; [exact R|]. split; [exact S | exact I].
Defined.

Lemma main_empty_selection_witness :
  let p := mkProcess nat ["f"; "data.json"; "b"; "B"; "out.json"; "later"] []
             (fun _ => None) None 0%nat in
  let run :=
    main nat Sample.steady_service Sample.environment Sample.prompt_files
      4300 false Sample.file_system Sample.writable p in
  fst run = Completed tt
  /\ service nat (snd run) = 0%nat
  /\ disk nat (snd run) "out.json" = Some (JsonFile []).
Proof.
  cbv zeta.
  destruct (main_empty_selection nat Sample.steady_service Sample.environment
              Sample.prompt_files 4300 false Sample.file_system Sample.writable
              (mkProcess nat ["f"; "data.json"; "b"; "B"; "out.json"; "later"] []
                 (fun _ => None) None 0%nat)
              "f" "data.json" "b" "B" "out.json" ["later"]
              [Sample.complete_entry; Sample.untitled_entry]
              (new_publication "First title" ["k1"] "First abstract" ["graphs"] ["nlp"]
               :: inherit_all
                    (new_publication "First title" ["k1"] "First abstract"
                       ["graphs"] ["nlp"])
                    [Sample.untitled_entry]))
    as (R & S & D & _).
  - reflexivity.
  - reflexivity.
  - reflexivity.
  - reflexivity.
  - reflexivity.
  - cbn. lia.
  - left. split; [reflexivity | cbn; lia].
  - reflexivity.
  - reflexivity.
  - reflexivity.
  - split; [exact R|]. split; [exact S | exact D].
Defined.
